(** * keep-watching-server: watch status, caching and hierarchy loading

    A shallow embedding of the parts of the server that decide how watch
    status is stored, propagated, cached and announced:

    - [Season] (src/models/episode.ts, second document): the season-level
      store operations, written against MySQL through [mysql2];
    - [ShowService] (src/unnamed/part_001): cache keys, cached reads, the
      status update, the background loader of seasons and episodes and its
      completion notice.

    Asynchronous code is modelled as a state-and-exception monad over a
    [World]: the rows of the database, the open transaction, the cache, the
    connected sockets, the log, and a schedule that says which of the coming
    I/O operations reject. *)

From Stdlib Require Import ZArith String Ascii Lia Bool.
From stdpp Require Import base option list strings pretty gmap.

(** ** Watch status *)

Inductive WatchStatus := NOT_WATCHED | WATCHING | WATCHED.

#[global] Instance WatchStatus_eq_dec : EqDecision WatchStatus.
Proof. solve_decision. Defined.

(** The text MySQL stores and compares for each status. *)
Definition status_name (s : WatchStatus) : string :=
  match s with
  | NOT_WATCHED => "NOT_WATCHED"
  | WATCHING => "WATCHING"
  | WATCHED => "WATCHED"
  end.

(** ** Rows and tables *)

Record ShowRow := mkShowRow {
  show_id : Z;
  show_tmdb_id : Z;
  show_title : string
}.

Record SeasonRow := mkSeasonRow {
  season_id : Z;
  season_show_id : Z;
  season_tmdb_id : Z;
  season_name : string;
  season_overview : string;
  season_season_number : Z;
  season_release_date : string;
  season_poster_image : string;
  season_number_of_episodes : Z
}.

Record EpisodeRow := mkEpisodeRow {
  episode_id : Z;
  episode_tmdb_id : Z;
  episode_show_id : Z;
  episode_season_id : Z;
  episode_episode_number : Z;
  episode_episode_type : string;
  episode_season_number : Z;
  episode_title : string;
  episode_overview : string;
  episode_air_date : string;
  episode_runtime : Z;
  episode_still_image : string
}.

(** One row of [show_watch_status], [season_watch_status] or
    [episode_watch_status]: (profile_id, content id, status). *)
Record StatusRow := mkStatusRow {
  ws_profile_id : Z;
  ws_content_id : Z;
  ws_status : WatchStatus
}.

Record ProfileRow := mkProfileRow {
  profile_id : Z;
  profile_account_id : Z
}.

Record DB := mkDB {
  shows : list ShowRow;
  seasons : list SeasonRow;
  episodes : list EpisodeRow;
  show_watch_status : list StatusRow;
  season_watch_status : list StatusRow;
  episode_watch_status : list StatusRow;
  profiles : list ProfileRow;
  shows_auto_increment : Z;
  seasons_auto_increment : Z;
  episodes_auto_increment : Z
}.

Definition with_seasons (d : DB) (t : list SeasonRow) (n : Z) : DB :=
  mkDB (shows d) t (episodes d) (show_watch_status d) (season_watch_status d)
       (episode_watch_status d) (profiles d) (shows_auto_increment d) n
       (episodes_auto_increment d).

Definition with_episodes (d : DB) (t : list EpisodeRow) (n : Z) : DB :=
  mkDB (shows d) (seasons d) t (show_watch_status d) (season_watch_status d)
       (episode_watch_status d) (profiles d) (shows_auto_increment d)
       (seasons_auto_increment d) n.

Definition with_shows (d : DB) (t : list ShowRow) (n : Z) : DB :=
  mkDB t (seasons d) (episodes d) (show_watch_status d) (season_watch_status d)
       (episode_watch_status d) (profiles d) n (seasons_auto_increment d)
       (episodes_auto_increment d).

Definition with_show_watch_status (d : DB) (t : list StatusRow) : DB :=
  mkDB (shows d) (seasons d) (episodes d) t (season_watch_status d)
       (episode_watch_status d) (profiles d) (shows_auto_increment d)
       (seasons_auto_increment d) (episodes_auto_increment d).

Definition with_season_watch_status (d : DB) (t : list StatusRow) : DB :=
  mkDB (shows d) (seasons d) (episodes d) (show_watch_status d) t
       (episode_watch_status d) (profiles d) (shows_auto_increment d)
       (seasons_auto_increment d) (episodes_auto_increment d).

Definition with_episode_watch_status (d : DB) (t : list StatusRow) : DB :=
  mkDB (shows d) (seasons d) (episodes d) (show_watch_status d)
       (season_watch_status d) t (profiles d) (shows_auto_increment d)
       (seasons_auto_increment d) (episodes_auto_increment d).

(** ** The SQL fragments the models use *)

(** Profile, show and season ids reach the services as route parameters
    that passed the id schemas of the routes: decimal texts. The code turns
    such a text into a number in two ways: [Number(...)] in JavaScript, and
    MySQL's own conversion where the string itself is the parameter of a
    comparison with an integer column. On a non-empty string of at most 15
    decimal digits (so below 2^53) both give the number the digits denote,
    which is what [Number] below computes; elsewhere they differ from it
    and from each other (['1e2'], ['0x10'], ['12abc'], [' 7'], ['']).
    [decimal_id] is that domain: the statements about a string id assume
    it, and the model is not meant to be read outside it. *)
Definition digit_value (c : ascii) : option Z :=
  let n := Z.of_nat (nat_of_ascii c) in
  if (48 <=? n)%Z && (n <=? 57)%Z then Some (n - 48)%Z else None.

Fixpoint read_digits (acc : Z) (s : string) : Z :=
  match s with
  | EmptyString => acc
  | String c rest =>
      match digit_value c with
      | Some d => read_digits (10 * acc + d)%Z rest
      | None => acc
      end
  end.

Definition Number (s : string) : Z := read_digits 0 s.

Definition decimal_id (s : string) : bool :=
  negb (String.eqb s "")
  && (String.length s <=? 15)%nat
  && forallb (fun c => bool_decide (is_Some (digit_value c))) (list_ascii_of_string s).

(** [WHERE profile_id = ? AND <content>_id = ?] on a status table. *)
Definition status_key_matches (profileId contentId : Z) (r : StatusRow) : bool :=
  (ws_profile_id r =? profileId)%Z && (ws_content_id r =? contentId)%Z.

Definition set_status (status : WatchStatus) (r : StatusRow) : StatusRow :=
  mkStatusRow (ws_profile_id r) (ws_content_id r) status.

(** [UPDATE t SET status = ? WHERE sel]: the new table and [affectedRows].
    [mysql2] connects with the FOUND_ROWS flag, so [affectedRows] counts the
    rows the WHERE clause matched, changed or not. *)
Definition sql_update_status (sel : StatusRow -> bool) (status : WatchStatus)
    (t : list StatusRow) : list StatusRow * Z :=
  (map (fun r => if sel r then set_status status r else r) t,
   Z.of_nat (length (filter (fun r => sel r = true) t))).

(** Modelled from the spec: the table definitions are missing. A row
    inserted without a status takes the column's default; section 3 has the
    association created when content is favorited, before any progress. *)
Definition DEFAULT_STATUS : WatchStatus := NOT_WATCHED.

(** [INSERT IGNORE INTO t (profile_id, <content>_id) VALUES (?,?)]: the pair
    is the table's unique key (spec, section 3: at most one association per
    profile and content), so a second insert of a pair is dropped. *)
Definition sql_insert_ignore_status (profileId contentId : Z)
    (t : list StatusRow) : list StatusRow :=
  if existsb (status_key_matches profileId contentId) t then t
  else t ++ [mkStatusRow profileId contentId DEFAULT_STATUS].

(** [COUNT(DISTINCT x)] and [MAX(x)] over the values of one group. MAX of a
    status compares the stored text; over no rows it is NULL. *)
Definition count_distinct (l : list WatchStatus) : Z :=
  Z.of_nat (length (remove_dups l)).

Definition status_max (a b : WatchStatus) : WatchStatus :=
  if String.leb (status_name a) (status_name b) then b else a.

Definition sql_max (l : list WatchStatus) : option WatchStatus :=
  match l with
  | [] => None
  | x :: rest => Some (foldr status_max x rest)
  end.

(** ** JavaScript values, errors, the world *)

#[local] Set Warnings "-register-all".

(** The dynamically typed values that travel through the cache and the
    sockets. *)
Inductive Json :=
| JNull
| JUndefined
| JBool (b : bool)
| JNum (n : Z)
| JStr (s : string)
| JArr (items : list Json)
| JObj (fields : list (string * Json)).
#[local] Set Warnings "register-all".

(** [a === b]: primitives compare by value, arrays and objects by identity,
    and two values read from different places are never the same object. *)
Definition strict_eq (a b : Json) : bool :=
  match a, b with
  | JNull, JNull => true
  | JUndefined, JUndefined => true
  | JBool x, JBool y => Bool.eqb x y
  | JNum x, JNum y => (x =? y)%Z
  | JStr x, JStr y => String.eqb x y
  | _, _ => false
  end.

Inductive Error :=
| IOError (message : string)
| DatabaseError (message : string) (cause : Error)
| BadRequestError (message : string)
| NotFoundError (message : string)
| HandledError (cause : Error) (context : string).

Inductive Outcome (A : Type) :=
| Returned (a : A)
| Thrown (e : Error).
Arguments Returned {A} a.
Arguments Thrown {A} e.

Record CacheEntry := mkCacheEntry {
  entry_value : Json;
  entry_expires : Z
}.

(** A connected socket.io session; [socket_accountId] is
    [socket.data.accountId], copied from the client's handshake. *)
Record Socket := mkSocket {
  socket_id : Z;
  socket_accountId : Json
}.

(** One [socket.emit(event, { message, show })]. *)
Record Emitted := mkEmitted {
  emitted_to : Z;
  emitted_event : string;
  emitted_message : string;
  emitted_show : Json
}.

(** What the content provider (TMDB) returns, with the fields the service
    reads. *)
Record TmdbSeason := mkTmdbSeason {
  tmdb_season_id : Z;
  tmdb_season_name : string;
  tmdb_season_overview : string;
  tmdb_season_season_number : Z;
  tmdb_season_air_date : string;
  tmdb_season_poster_path : string;
  tmdb_season_episode_count : Z
}.

Record TmdbEpisode := mkTmdbEpisode {
  tmdb_episode_id : Z;
  tmdb_episode_episode_number : Z;
  tmdb_episode_episode_type : string;
  tmdb_episode_season_number : Z;
  tmdb_episode_name : string;
  tmdb_episode_overview : string;
  tmdb_episode_air_date : string;
  tmdb_episode_runtime : Z;
  tmdb_episode_still_path : string
}.

Record TmdbShow := mkTmdbShow {
  tmdb_show_id : Z;
  tmdb_show_name : string;
  tmdb_show_seasons : list TmdbSeason
}.

Record TmdbSeasonDetails := mkTmdbSeasonDetails {
  tmdb_details_episodes : list TmdbEpisode
}.

(** A call of [fetchSeasonsAndEpisodes] that was started and not awaited. *)
Record LoadJob := mkLoadJob {
  job_show : TmdbShow;
  job_showId : Z;
  job_profileId : string
}.

Record World := mkWorld {
  w_db : DB;                      (* the committed rows *)
  w_tx : option DB;               (* the rows as the open transaction has them *)
  w_faults : list bool;           (* which of the coming I/O operations reject *)
  w_now : Z;                      (* clock, in milliseconds *)
  w_cache : gmap string CacheEntry;
  w_io : option (list Socket);    (* getSocketInstance(): null or the sessions *)
  w_emitted : list Emitted;
  w_log : list (string * Error);  (* cliLogger.error *)
  w_jobs : list LoadJob           (* started, not yet run *)
}.

Definition set_db (w : World) (d : DB) : World :=
  mkWorld d (w_tx w) (w_faults w) (w_now w) (w_cache w) (w_io w) (w_emitted w) (w_log w) (w_jobs w).
Definition set_tx (w : World) (t : option DB) : World :=
  mkWorld (w_db w) t (w_faults w) (w_now w) (w_cache w) (w_io w) (w_emitted w) (w_log w) (w_jobs w).
Definition set_faults (w : World) (f : list bool) : World :=
  mkWorld (w_db w) (w_tx w) f (w_now w) (w_cache w) (w_io w) (w_emitted w) (w_log w) (w_jobs w).
Definition set_cache (w : World) (c : gmap string CacheEntry) : World :=
  mkWorld (w_db w) (w_tx w) (w_faults w) (w_now w) c (w_io w) (w_emitted w) (w_log w) (w_jobs w).
Definition set_emitted (w : World) (e : list Emitted) : World :=
  mkWorld (w_db w) (w_tx w) (w_faults w) (w_now w) (w_cache w) (w_io w) e (w_log w) (w_jobs w).
Definition set_now (w : World) (n : Z) : World :=
  mkWorld (w_db w) (w_tx w) (w_faults w) n (w_cache w) (w_io w) (w_emitted w) (w_log w) (w_jobs w).
Definition set_jobs (w : World) (j : list LoadJob) : World :=
  mkWorld (w_db w) (w_tx w) (w_faults w) (w_now w) (w_cache w) (w_io w) (w_emitted w) (w_log w) j.
Definition set_log (w : World) (l : list (string * Error)) : World :=
  mkWorld (w_db w) (w_tx w) (w_faults w) (w_now w) (w_cache w) (w_io w) (w_emitted w) l (w_jobs w).

(** ** Promises as a state-and-exception monad *)

Definition M (A : Type) : Type := World -> World * Outcome A.

Definition ret {A} (a : A) : M A := fun w => (w, Returned a).
Definition throw {A} (e : Error) : M A := fun w => (w, Thrown e).

Definition bind {A B} (m : M A) (k : A -> M B) : M B :=
  fun w =>
    match m w with
    | (w1, Returned a) => k a w1
    | (w1, Thrown e) => (w1, Thrown e)
    end.

Notation "'await' x <- m ; k" := (bind m (fun x => k))
  (at level 10, x name, m at level 100, k at level 200).

(** [try { body } catch (error) { handler }] *)
Definition try_catch {A} (body : M A) (handler : Error -> M A) : M A :=
  fun w =>
    match body w with
    | (w1, Returned a) => (w1, Returned a)
    | (w1, Thrown e) => handler e w1
    end.

(** [try { body } finally { cleanup }], for a cleanup that does not throw. *)
Definition try_finally {A} (body : M A) (cleanup : World -> World) : M A :=
  fun w => let '(w1, r) := body w in (cleanup w1, r).

(** An awaited call into the database driver or the content provider. The
    head of the schedule decides whether it rejects (an empty schedule
    rejects nothing); a rejected call leaves the rows as they were. *)
Definition io {A} (act : World -> World * A) : M A :=
  fun w =>
    match w_faults w with
    | true :: rest => (set_faults w rest, Thrown (IOError "rejected"))
    | _ => let '(w1, a) := act (set_faults w (tail (w_faults w))) in (w1, Returned a)
    end.

(** [pool.execute(query, params)]: a statement outside a transaction acts on
    the rows at once. Requests are modelled one at a time. *)
Definition execute {A} (stmt : DB -> DB * A) : M A :=
  io (fun w => let '(d, a) := stmt (w_db w) in (set_db w d, a)).

Definition query {A} (q : DB -> A) : M A :=
  execute (fun d => (d, q d)).

(** [connection.beginTransaction()]: the transaction starts from the
    committed rows, and what it changes stays its own until [commit]. A
    transaction that an earlier call left open ends here; the one such call
    in the code, the early [return false] of [updateAllWatchStatuses],
    leaves a transaction that has changed no row. *)
Definition beginTransaction : M unit :=
  io (fun w => (set_tx w (Some (w_db w)), tt)).

(** [connection.execute(query, params)]: in an open transaction the
    statement reads and changes the rows of the transaction; without one it
    acts on the rows at once, as [pool.execute] does. *)
Definition connection_execute {A} (stmt : DB -> DB * A) : M A :=
  io (fun w =>
    match w_tx w with
    | Some pending => let '(d, a) := stmt pending in (set_tx w (Some d), a)
    | None => let '(d, a) := stmt (w_db w) in (set_db w d, a)
    end).

(** [connection.commit()]: the rows of the transaction become the
    committed rows. A rejected commit commits nothing and leaves the
    transaction open. *)
Definition commit : M unit :=
  io (fun w =>
    match w_tx w with
    | Some pending => (set_tx (set_db w pending) None, tt)
    | None => (w, tt)
    end).

(** [connection.rollback()]: the transaction ends and its changes are
    dropped. It is awaited like every other call on the connection: a
    rejected rollback ends nothing, so the transaction stays open. *)
Definition rollback : M unit :=
  io (fun w => (set_tx w None, tt)).

(** [error instanceof Error ? error.message : fallback] *)
Definition error_message (e : Error) : string :=
  match e with
  | IOError m => m
  | DatabaseError m _ => m
  | BadRequestError m => m
  | NotFoundError m => m
  | HandledError _ c => c
  end.

Definition cliLogger_error (what : string) (e : Error) : M unit :=
  fun w => (set_log w (w_log w ++ [(what, e)]), Returned tt).

(** ** The Season model (src/models/episode.ts) *)

Module Season.

(** [new Season(showId, tmdbId, ..., numberOfEpisodes)]: no id yet. *)
Definition new (showId tmdbId : Z) (name overview : string) (seasonNumber : Z)
    (releaseDate posterImage : string) (numberOfEpisodes : Z) : SeasonRow :=
  mkSeasonRow 0 showId tmdbId name overview seasonNumber releaseDate posterImage
              numberOfEpisodes.

Definition set_id (this : SeasonRow) (id : Z) : SeasonRow :=
  mkSeasonRow id (season_show_id this) (season_tmdb_id this) (season_name this)
              (season_overview this) (season_season_number this)
              (season_release_date this) (season_poster_image this)
              (season_number_of_episodes this).

(** [catch (error) { throw new DatabaseError(errorMessage, error) }] *)
Definition rethrow_as_DatabaseError {A} (error : Error) : M A :=
  throw (DatabaseError (error_message error) error).

(** [save()]: INSERT INTO seasons; [this.id = result.insertId]. The object
    with its id set is the result. *)
Definition save (this : SeasonRow) : M SeasonRow :=
  try_catch
    (await insertId <- execute (fun d =>
        let id := seasons_auto_increment d in
        (with_seasons d (seasons d ++ [set_id this id]) (id + 1)%Z, id)) ;
     ret (set_id this insertId))
    rethrow_as_DatabaseError.

(** [saveFavorite(profileId)]: INSERT IGNORE INTO season_watch_status. *)
Definition saveFavorite (this : SeasonRow) (profileId : Z) : M unit :=
  try_catch
    (execute (fun d =>
        (with_season_watch_status d
           (sql_insert_ignore_status profileId (season_id this)
              (season_watch_status d)), tt)))
    rethrow_as_DatabaseError.

(** UPDATE season_watch_status SET status = ? WHERE profile_id = ? AND
    season_id = ? *)
Definition update_season_status (profileId : string) (seasonId : Z)
    (status : WatchStatus) (d : DB) : DB * Z :=
  let '(t, affectedRows) :=
    sql_update_status (status_key_matches (Number profileId) seasonId) status
                      (season_watch_status d) in
  (with_season_watch_status d t, affectedRows).

(** [updateWatchStatus(profileId, seasonId, status)] *)
Definition updateWatchStatus (profileId : string) (seasonId : Z)
    (status : WatchStatus) : M bool :=
  try_catch
    (await affectedRows <- execute (update_season_status profileId seasonId status) ;
     ret (0 <? affectedRows)%Z)
    rethrow_as_DatabaseError.

(** The rows of
    [episodes e JOIN episode_watch_status ews ON e.id = ews.episode_id
     WHERE e.season_id = ? AND ews.profile_id = ?], projected on
    [ews.status]. *)
Definition episode_statuses (d : DB) (profileId : string) (seasonId : Z)
    : list WatchStatus :=
  flat_map
    (fun e =>
       map ws_status
         (filter (fun ews =>
            ((episode_id e =? ws_content_id ews)%Z
             && (episode_season_id e =? seasonId)%Z
             && (ws_profile_id ews =? Number profileId)%Z) = true)
            (episode_watch_status d)))
    (episodes d).

(** [SELECT CASE WHEN COUNT(DISTINCT ews.status) = 1 THEN MAX(ews.status)
    ELSE 'WATCHING' END AS season_status FROM ...]: the select list is an
    aggregate and the query has no GROUP BY, so all joined rows form one
    group and the result has exactly one row, also when no row was joined
    (then COUNT is 0 and MAX is NULL). [None] is NULL. *)
Definition select_season_status (d : DB) (profileId : string) (seasonId : Z)
    : list (option WatchStatus) :=
  let statuses := episode_statuses d profileId seasonId in
  [ if (count_distinct statuses =? 1)%Z then sql_max statuses else Some WATCHING ].

(** [updateWatchStatusByEpisode(profileId, seasonId)] *)
Definition updateWatchStatusByEpisode (profileId : string) (seasonId : Z) : M unit :=
  try_catch
    (await statusResult <- query (fun d => select_season_status d profileId seasonId) ;
     match statusResult with
     | [] => ret tt                               (* if (!statusResult.length) return; *)
     | season_status :: _ =>
         match season_status with
         | Some seasonStatus =>
             await _ <- execute (update_season_status profileId seasonId seasonStatus) ;
             ret tt
         | None => throw (IOError "Column 'status' cannot be null")
         end
     end)
    rethrow_as_DatabaseError.

(** UPDATE episode_watch_status SET status = ? WHERE profile_id = ? AND
    episode_id IN (SELECT id from episodes where season_id = ?) *)
Definition episode_of_season (d : DB) (profileId : string) (seasonId : Z)
    (ews : StatusRow) : bool :=
  (ws_profile_id ews =? Number profileId)%Z
  && existsb (fun e => (episode_id e =? ws_content_id ews)%Z
                       && (episode_season_id e =? seasonId)%Z)
             (episodes d).

Definition update_episode_statuses (profileId : string) (seasonId : Z)
    (status : WatchStatus) (d : DB) : DB * Z :=
  let '(t, affectedRows) :=
    sql_update_status (episode_of_season d profileId seasonId) status
                      (episode_watch_status d) in
  (with_episode_watch_status d t, affectedRows).

(** [updateAllWatchStatuses(profileId, seasonId, status)]. The connection
    is taken before the [try]; [connection.release()] in the [finally]
    leaves rows and transaction as they are. *)
Definition updateAllWatchStatuses (profileId : string) (seasonId : Z)
    (status : WatchStatus) : M bool :=
  await connection <- io (fun w => (w, tt)) ;
  try_finally
    (try_catch
       (await _ <- beginTransaction ;
        await seasonAffected <-
          connection_execute (update_season_status profileId seasonId status) ;
        if (seasonAffected =? 0)%Z then ret false
        else
          await episodeAffected <-
            connection_execute (update_episode_statuses profileId seasonId status) ;
          await _ <- commit ;
          ret (0 <? episodeAffected)%Z)
       (fun error =>
          await _ <- rollback ;
          rethrow_as_DatabaseError error))
    (fun w => w).

(** [getWatchStatus(profileId, seasonId)] as a function of the rows:
    [rows[0].status], or null. *)
Definition stored_status (d : DB) (profileId : string) (seasonId : Z)
    : option WatchStatus :=
  ws_status <$>
    head (filter (fun r => status_key_matches (Number profileId) seasonId r = true)
                 (season_watch_status d)).

Definition getWatchStatus (profileId : string) (seasonId : Z) : M (option WatchStatus) :=
  try_catch
    (query (fun d => stored_status d profileId seasonId))
    rethrow_as_DatabaseError.

End Season.

(** ** The Episode model (src/models/episode.ts, first document) *)

Module Episode.

Definition set_id (this : EpisodeRow) (id : Z) : EpisodeRow :=
  mkEpisodeRow id (episode_tmdb_id this) (episode_show_id this)
               (episode_season_id this) (episode_episode_number this)
               (episode_episode_type this) (episode_season_number this)
               (episode_title this) (episode_overview this)
               (episode_air_date this) (episode_runtime this)
               (episode_still_image this).

(** [save()]: INSERT into episodes; [this.id = insertId]. *)
Definition save (this : EpisodeRow) : M EpisodeRow :=
  await insertId <- execute (fun d =>
      let id := episodes_auto_increment d in
      (with_episodes d (episodes d ++ [set_id this id]) (id + 1)%Z, id)) ;
  ret (set_id this insertId).

(** [static saveFavorite(profile_id, episode_id)]: INSERT IGNORE INTO
    episode_watch_status. *)
Definition saveFavorite (profile_id : Z) (episode_id : Z) : M unit :=
  execute (fun d =>
    (with_episode_watch_status d
       (sql_insert_ignore_status profile_id episode_id (episode_watch_status d)),
     tt)).

(** [static updateWatchStatus(profile_id, episode_id, status)] *)
Definition updateWatchStatus (profile_id : string) (episode_id : Z)
    (status : WatchStatus) : M bool :=
  await affectedRows <- execute (fun d =>
      let '(t, n) :=
        sql_update_status (status_key_matches (Number profile_id) episode_id)
                          status (episode_watch_status d) in
      (with_episode_watch_status d t, n)) ;
  if (affectedRows =? 0)%Z then ret false else ret true.

End Episode.

(** ** Collaborators modelled from the spec *)

Module CacheService.

(** Modelled from the spec: services/cacheService.ts is missing. Section 4.1:
    [getOrSet(key, producer, ttlSeconds)] returns the cached value if present
    and unexpired; otherwise it invokes [producer] and stores the result
    with the given TTL; a failing producer propagates and nothing is
    cached. *)
Definition getOrSet (key : string) (producer : M Json) (ttlSeconds : Z) : M Json :=
  fun w =>
    let miss :=
      bind producer (fun value w1 =>
        (set_cache w1 (<[key := mkCacheEntry value (w_now w1 + 1000 * ttlSeconds)%Z]>
                         (w_cache w1)),
         Returned value)) in
    match w_cache w !! key with
    | Some entry =>
        if (w_now w <? entry_expires entry)%Z then (w, Returned (entry_value entry))
        else miss w
    | None => miss w
    end.

(** Modelled from the spec: [invalidate(key)] of the missing cacheService.ts
    (section 4.1) drops the entry stored under exactly that key. *)
Definition invalidate (key : string) : M unit :=
  fun w => (set_cache w (delete key (w_cache w)), Returned tt).

(** Modelled from the spec: [invalidatePattern(prefix)] of the missing
    cacheService.ts; section 4.1: it removes every key whose string
    representation starts with [prefix]. *)
Definition invalidatePattern (prefix : string) : M unit :=
  fun w =>
    (set_cache w (filter (fun kv => String.prefix prefix kv.1 = false) (w_cache w)),
     Returned tt).

End CacheService.

Module errorService.

(** Modelled from the spec: services/errorService.ts is missing. Section 7:
    the engine only adds context before rethrowing. *)
Definition handleError (error : Error) (context : string) : Error :=
  HandledError error context.

(** Modelled from the spec: [assertExists] of the missing errorService.ts
    rejects an absent value ([@throws NotFoundError] on
    [getShowDetailsForProfile]). *)
Definition assertExists (value : Json) (what : string) (id : string) : M unit :=
  match value with
  | JNull | JUndefined => throw (NotFoundError (what +:+ " with ID " +:+ id +:+ " not found"))
  | _ => ret tt
  end.

End errorService.

Module Show.

(** Modelled from the spec: models/show.ts is missing. [findByTMDBId]
    looks a show up by its unique external id (section 3: idempotent by
    unique external id). *)
Definition find_by_tmdb_id (d : DB) (tmdbId : Z) : option ShowRow :=
  List.find (fun s => (show_tmdb_id s =? tmdbId)%Z) (shows d).

Definition findByTMDBId (tmdbId : Z) : M (option ShowRow) :=
  query (fun d => find_by_tmdb_id d tmdbId).

Definition set_id (this : ShowRow) (id : Z) : ShowRow :=
  mkShowRow id (show_tmdb_id this) (show_title this).

(** Modelled from the spec: [save()] of the missing models/show.ts persists
    the root metadata (section 4.5) and, like [Season.save], takes the id
    the insert assigned; the boolean is its success report. *)
Definition save (this : ShowRow) : M (ShowRow * bool) :=
  await insertId <- execute (fun d =>
      let id := shows_auto_increment d in
      (with_shows d (shows d ++ [set_id this id]) (id + 1)%Z, id)) ;
  ret (set_id this insertId, true).

(** Modelled from the spec: [saveFavorite(profileId, saveChildren)] of the
    missing models/show.ts. Sections 3 and 4.5: favoriting creates the
    watch-status association, unique per (profile, content); for content
    that already exists the favorite is attached to the show and to every
    season and episode under it, and re-ingestion never duplicates a status
    association. *)
Definition favorite_rows (profileId : Z) (ids : list Z) (t : list StatusRow)
    : list StatusRow :=
  foldl (fun acc id => sql_insert_ignore_status profileId id acc) t ids.

Definition save_favorite (this : ShowRow) (profileId : string)
    (saveChildren : bool) (d : DB) : DB :=
  let p := Number profileId in
  let d1 := with_show_watch_status d
              (sql_insert_ignore_status p (show_id this) (show_watch_status d)) in
  if saveChildren then
    let seasonIds :=
      map season_id
          (List.filter (fun s => (season_show_id s =? show_id this)%Z) (seasons d1)) in
    let episodeIds :=
      map episode_id
          (List.filter (fun e => (episode_show_id e =? show_id this)%Z) (episodes d1)) in
    with_episode_watch_status
      (with_season_watch_status d1
         (favorite_rows p seasonIds (season_watch_status d1)))
      (favorite_rows p episodeIds (episode_watch_status d1))
  else d1.

Definition saveFavorite (this : ShowRow) (profileId : string)
    (saveChildren : bool) : M unit :=
  execute (fun d => (save_favorite this profileId saveChildren d, tt)).

(** Modelled from the spec: the show-only update of the missing
    models/show.ts (section 4.3: a narrower show-only update path), with the
    contract of [Season.updateWatchStatus] one level up. *)
Definition update_show_status (profileId : string) (showId : Z)
    (status : WatchStatus) (d : DB) : DB * Z :=
  let '(t, affectedRows) :=
    sql_update_status (status_key_matches (Number profileId) showId) status
                      (show_watch_status d) in
  (with_show_watch_status d t, affectedRows).

Definition updateWatchStatus (profileId : string) (showId : Z)
    (status : WatchStatus) : M bool :=
  await affectedRows <- execute (update_show_status profileId showId status) ;
  ret (0 <? affectedRows)%Z.

(** Modelled from the spec: [updateAllWatchStatuses] of the missing
    models/show.ts is section 4.2's [setShowAndDescendantsStatus]: one
    transaction that updates the show-level association, then every
    season-level and episode-level association under the show, rolls back
    on any failure, and returns the number of episodes affected, 0 if the
    show-level row did not exist; the caller treats 0 as failure. *)
Definition season_of_show (d : DB) (profileId : string) (showId : Z)
    (r : StatusRow) : bool :=
  (ws_profile_id r =? Number profileId)%Z
  && existsb (fun s => (season_id s =? ws_content_id r)%Z
                       && (season_show_id s =? showId)%Z)
             (seasons d).

Definition episode_of_show (d : DB) (profileId : string) (showId : Z)
    (r : StatusRow) : bool :=
  (ws_profile_id r =? Number profileId)%Z
  && existsb (fun e => (episode_id e =? ws_content_id r)%Z
                       && (episode_show_id e =? showId)%Z)
             (episodes d).

Definition updateAllWatchStatuses (profileId : string) (showId : Z)
    (status : WatchStatus) : M bool :=
  await connection <- io (fun w => (w, tt)) ;
  try_catch
    (await _ <- beginTransaction ;
     await showAffected <-
       connection_execute (update_show_status profileId showId status) ;
     if (showAffected =? 0)%Z then ret false
     else
       await seasonsAffected <- connection_execute (fun d =>
           let '(t, n) := sql_update_status (season_of_show d profileId showId)
                                            status (season_watch_status d) in
           (with_season_watch_status d t, n)) ;
       await episodesAffected <- connection_execute (fun d =>
           let '(t, n) := sql_update_status (episode_of_show d profileId showId)
                                            status (episode_watch_status d) in
           (with_episode_watch_status d t, n)) ;
       await _ <- commit ;
       ret (0 <? episodesAffected)%Z)
    (fun error =>
       await _ <- rollback ;
       throw error).

End Show.

Module episodesDb.

(** Modelled from the spec: db/episodesDb.ts is missing. [createEpisode]
    builds the episode the loader persists (section 4.4); its fields are
    those of the [Episode] constructor of src/models/episode.ts. *)
Definition createEpisode (tmdb_id show_id season_id episode_number : Z)
    (episode_type : string) (season_number : Z) (title overview air_date : string)
    (runtime : Z) (still_image : string) : EpisodeRow :=
  mkEpisodeRow 0 tmdb_id show_id season_id episode_number episode_type
               season_number title overview air_date runtime still_image.

(** Modelled from the spec: [saveEpisode] of the missing db/episodesDb.ts
    persists the episode (section 4.4) and returns it with its id, as
    [Episode.save] of src/models/episode.ts does. *)
Definition saveEpisode (episode : EpisodeRow) : M EpisodeRow :=
  Episode.save episode.

(** Modelled from the spec: [saveFavorite] of the missing db/episodesDb.ts
    marks the episode as favorited for the profile (section 4.4), as
    [Episode.saveFavorite] of src/models/episode.ts does. *)
Definition saveFavorite (profileId : Z) (episodeId : Z) : M unit :=
  Episode.saveFavorite profileId episodeId.

End episodesDb.

(** The reads of the missing models and the content provider, as
    parameters: nothing is assumed about what they return. *)
Record Env := mkEnv {
  tmdb_getShowDetails : Z -> TmdbShow;
  tmdb_getSeasonDetails : Z -> Z -> TmdbSeasonDetails;
  Show_getAllShowsForProfile : DB -> string -> Json;
  Show_getShowDetailsForProfile : DB -> string -> string -> Json;
  Show_getShowForProfile : DB -> string -> Z -> Json;
  Show_getNextUnwatchedEpisodesForProfile : DB -> string -> Json;
  episodesDb_getRecentEpisodesForProfile : DB -> string -> Json;
  episodesDb_getUpcomingEpisodesForProfile : DB -> string -> Json;
  Account_findAccountIdByProfileId : DB -> string -> Json
}.

(** ** ShowService (src/unnamed/part_001) *)

Module ShowService.

(** Cache invalidation constants *)
Module CACHE_KEYS.
Definition PROFILE_SHOWS (profileId : string) : string :=
  "profile_" +:+ profileId +:+ "_shows".
Definition PROFILE_SHOW (profileId : string) (showId : Z) : string :=
  "profile_" +:+ profileId +:+ "_show_" +:+ pretty showId.
Definition PROFILE_EPISODES (profileId : string) : string :=
  "profile_" +:+ profileId +:+ "_episodes".
Definition PROFILE_RECENT_EPISODES (profileId : string) : string :=
  "profile_" +:+ profileId +:+ "_recent_episodes".
Definition PROFILE_UPCOMING_EPISODES (profileId : string) : string :=
  "profile_" +:+ profileId +:+ "_upcoming_episodes".
Definition PROFILE_UNWATCHED_EPISODES (profileId : string) : string :=
  "profile_" +:+ profileId +:+ "_unwatched_episodes".
End CACHE_KEYS.

(** [for (const x of xs) { await body(x) }] *)
Fixpoint for_of {A} (xs : list A) (body : A -> M unit) : M unit :=
  match xs with
  | [] => ret tt
  | x :: rest => await _ <- body x ; for_of rest body
  end.

(** [await new Promise((resolve) => setTimeout(resolve, ms))] *)
Definition sleep (ms : Z) : M unit :=
  fun w => (set_now w (w_now w + ms)%Z, Returned tt).

(** [try { body } catch (error) { throw errorService.handleError(error, context) }] *)
Definition handled {A} (context : string) (body : M A) : M A :=
  try_catch body (fun error => throw (errorService.handleError error context)).

(** [{ favoritedShow: show, ...episodeData }] *)
Definition spread_after (key : string) (value : Json) (rest : Json) : Json :=
  match rest with
  | JObj fields => JObj ((key, value) :: fields)
  | _ => JObj [(key, value)]
  end.

(** [socket.emit(event, { message, show })] *)
Definition emit (socket : Socket) (event message : string) (show : Json) : M unit :=
  fun w =>
    (set_emitted w (w_emitted w ++ [mkEmitted (socket_id socket) event message show]),
     Returned tt).

Section Service.

Context (env : Env).

(** [invalidateProfileCache(profileId)] *)
Definition invalidateProfileCache (profileId : string) : M unit :=
  CacheService.invalidatePattern ("profile_" +:+ profileId).

(** [getShowsForProfile(profileId)] *)
Definition getShowsForProfile (profileId : string) : M Json :=
  handled ("getShowsForProfile(" +:+ profileId +:+ ")")
    (CacheService.getOrSet
       (CACHE_KEYS.PROFILE_SHOWS profileId)
       (query (fun d => Show_getAllShowsForProfile env d profileId))
       600).

(** [getShowDetailsForProfile(profileId, showId)] *)
Definition getShowDetailsForProfile (profileId showId : string) : M Json :=
  handled ("getShowDetailsForProfile(" +:+ profileId +:+ ", " +:+ showId +:+ ")")
    (await show <-
       CacheService.getOrSet
         ("profile_" +:+ profileId +:+ "_show_details_" +:+ showId)
         (query (fun d => Show_getShowDetailsForProfile env d profileId showId))
         600 ;
     await _ <- errorService.assertExists show "Show" showId ;
     ret show).

(** [getEpisodesForProfile(profileId)] *)
Definition getEpisodesForProfile (profileId : string) : M Json :=
  handled ("getEpisodesForProfile(" +:+ profileId +:+ ")")
    (CacheService.getOrSet
       (CACHE_KEYS.PROFILE_EPISODES profileId)
       (await recentEpisodes <-
          query (fun d => episodesDb_getRecentEpisodesForProfile env d profileId) ;
        await upcomingEpisodes <-
          query (fun d => episodesDb_getUpcomingEpisodesForProfile env d profileId) ;
        await nextUnwatchedEpisodes <-
          query (fun d => Show_getNextUnwatchedEpisodesForProfile env d profileId) ;
        ret (JObj [("recentEpisodes", recentEpisodes);
                   ("upcomingEpisodes", upcomingEpisodes);
                   ("nextUnwatchedEpisodes", nextUnwatchedEpisodes)]))
       300).

(** [notifyShowDataLoaded(profileId, showId)] *)
Definition notifyShowDataLoaded (profileId : string) (showId : Z) : M unit :=
  try_catch
    (await io_instance <- (fun w => (w, Returned (w_io w))) ;
     match io_instance with
     | None => ret tt                                     (* if (!io) return; *)
     | Some _ =>
         await account_id <-
           query (fun d => Account_findAccountIdByProfileId env d profileId) ;
         await loadedShow <-
           query (fun d => Show_getShowForProfile env d profileId showId) ;
         await sockets <- (fun w => (w, Returned (default [] (w_io w)))) ;
         let userSocket :=
           List.find (fun socket => strict_eq (socket_accountId socket) account_id)
                     sockets in
         match userSocket with
         | Some socket =>
             emit socket "updateShowFavorite" "Show data has been fully loaded"
                  loadedShow
         | None => ret tt
         end
     end)
    (fun error => cliLogger_error "Error notifying show data loaded:" error).

(** The body of the inner loop: one episode of the provider's answer. *)
Definition load_episode (showId : Z) (season : SeasonRow) (profileId : string)
    (responseEpisode : TmdbEpisode) : M unit :=
  await episode <-
    episodesDb.saveEpisode
      (episodesDb.createEpisode
         (tmdb_episode_id responseEpisode)
         showId
         (season_id season)
         (tmdb_episode_episode_number responseEpisode)
         (tmdb_episode_episode_type responseEpisode)
         (tmdb_episode_season_number responseEpisode)
         (tmdb_episode_name responseEpisode)
         (tmdb_episode_overview responseEpisode)
         (tmdb_episode_air_date responseEpisode)
         (tmdb_episode_runtime responseEpisode)
         (tmdb_episode_still_path responseEpisode)) ;
  episodesDb.saveFavorite (Number profileId) (episode_id episode).

(** The body of the outer loop: one season of the provider's show. *)
Definition load_season (show : TmdbShow) (showId : Z) (profileId : string)
    (responseSeason : TmdbSeason) : M unit :=
  await responseData <-
    io (fun w => (w, tmdb_getSeasonDetails env (tmdb_show_id show)
                       (tmdb_season_season_number responseSeason))) ;
  let season :=
    Season.new showId
      (tmdb_season_id responseSeason)
      (tmdb_season_name responseSeason)
      (tmdb_season_overview responseSeason)
      (tmdb_season_season_number responseSeason)
      (tmdb_season_air_date responseSeason)
      (tmdb_season_poster_path responseSeason)
      (tmdb_season_episode_count responseSeason) in
  await season <- Season.save season ;
  await _ <- Season.saveFavorite season (Number profileId) ;
  await _ <- for_of (tmdb_details_episodes responseData)
                    (load_episode showId season profileId) ;
  sleep 200.

Definition validSeasons (show : TmdbShow) : list TmdbSeason :=
  List.filter (fun season => (0 <? tmdb_season_season_number season)%Z)
              (tmdb_show_seasons show).

(** What [fetchSeasonsAndEpisodes] runs inside its [try]. *)
Definition fetch_body (show : TmdbShow) (showId : Z) (profileId : string) : M unit :=
  await _ <- for_of (validSeasons show) (load_season show showId profileId) ;
  notifyShowDataLoaded profileId showId.

(** [fetchSeasonsAndEpisodes(show, showId, profileId)] *)
Definition fetchSeasonsAndEpisodes (show : TmdbShow) (showId : Z)
    (profileId : string) : M unit :=
  try_catch
    (fetch_body show showId profileId)
    (fun error => cliLogger_error "Error fetching seasons and episodes:" error).

(** [favoriteExistingShow(showToFavorite, profileId)] *)
Definition favoriteExistingShow (showToFavorite : ShowRow) (profileId : string)
    : M Json :=
  await _ <- Show.saveFavorite showToFavorite profileId true ;
  await _ <- invalidateProfileCache profileId ;
  await show <-
    query (fun d => Show_getShowForProfile env d profileId (show_id showToFavorite)) ;
  await episodeData <- getEpisodesForProfile profileId ;
  ret (spread_after "favoritedShow" show episodeData).

(** [favoriteNewShow(showId, profileId)]. The call of
    [fetchSeasonsAndEpisodes] is not awaited: it is recorded as a started
    job and runs after the response. *)
Definition favoriteNewShow (showId : Z) (profileId : string) : M Json :=
  await responseShow <- io (fun w => (w, tmdb_getShowDetails env showId)) ;
  let newShowToFavorite :=
    mkShowRow 0 (tmdb_show_id responseShow) (tmdb_show_name responseShow) in
  await saved <- Show.save newShowToFavorite ;
  let '(newShowToFavorite, isSaved) := saved in
  if negb isSaved then throw (BadRequestError "Failed to save the show as a favorite")
  else
    await _ <- Show.saveFavorite newShowToFavorite profileId false ;
    await _ <- invalidateProfileCache profileId ;
    await show <-
      query (fun d => Show_getShowForProfile env d profileId (show_id newShowToFavorite)) ;
    await _ <- (fun w =>
      (set_jobs w (w_jobs w ++ [mkLoadJob responseShow (show_id newShowToFavorite) profileId]),
       Returned tt)) ;
    ret (JObj [("favoritedShow", show)]).

(** [addShowToFavorites(profileId, showId)] *)
Definition addShowToFavorites (profileId : string) (showId : Z) : M Json :=
  handled ("addShowToFavorites(" +:+ profileId +:+ ", " +:+ pretty showId +:+ ")")
    (await existingShowToFavorite <- Show.findByTMDBId showId ;
     match existingShowToFavorite with
     | Some existing => favoriteExistingShow existing profileId
     | None => favoriteNewShow showId profileId
     end).

(** The event loop takes up the oldest started load. *)
Definition run_started_load : M unit :=
  fun w =>
    match w_jobs w with
    | [] => (w, Returned tt)
    | job :: rest =>
        fetchSeasonsAndEpisodes (job_show job) (job_showId job) (job_profileId job)
                                (set_jobs w rest)
    end.

(** [updateShowWatchStatus(profileId, showId, status, recursive)] *)
Definition updateShowWatchStatus (profileId : string) (showId : Z)
    (status : WatchStatus) (recursive : bool) : M bool :=
  handled ("updateShowWatchStatus(" +:+ profileId +:+ ", " +:+ pretty showId +:+ ", "
           +:+ status_name status +:+ ", "
           +:+ (if recursive then "true" else "false") +:+ ")")
    (await success <-
       (if recursive
        then Show.updateAllWatchStatuses profileId showId status
        else Show.updateWatchStatus profileId showId status) ;
     if negb success then
       throw (BadRequestError
                ("Failed to update watch status. Ensure the show (ID: "
                 +:+ pretty showId +:+ ") exists in your favorites."))
     else
       await _ <- CacheService.invalidate (CACHE_KEYS.PROFILE_SHOW profileId showId) ;
       await _ <- CacheService.invalidate (CACHE_KEYS.PROFILE_SHOWS profileId) ;
       await _ <- CacheService.invalidate (CACHE_KEYS.PROFILE_UNWATCHED_EPISODES profileId) ;
       ret success).

End Service.

End ShowService.

(** Modelled from the spec: services/seasonsService.ts is missing. Section
    4.3: [updateSeasonStatus(profileId, seasonId, status, cascadeToEpisodes)]
    is a direct update, optionally stamping every child episode within one
    transaction, and fails the same way as the show-level update when the
    store reports that nothing was updated. *)
Definition updateSeasonWatchStatus (profileId : string) (seasonId : Z)
    (status : WatchStatus) (recursive : bool) : M bool :=
  ShowService.handled "updateSeasonWatchStatus"
    (await success <-
       (if recursive
        then Season.updateAllWatchStatuses profileId seasonId status
        else Season.updateWatchStatus profileId seasonId status) ;
     if negb success then
       throw (BadRequestError "Failed to update watch status")
     else ret success).

(** ** A small provider and read model, for the examples *)

Module Example.

Definition season (id number : Z) (name : string) (count : Z) : TmdbSeason :=
  mkTmdbSeason id name "" number "2024-01-01" "/poster.jpg" count.

Definition episode (id number seasonNumber : Z) (name : string) : TmdbEpisode :=
  mkTmdbEpisode id number "standard" seasonNumber name "" "2024-01-01" 45 "/still.jpg".

(** A show with a specials season (number 0) and two regular seasons:
    S1 with episodes E1, E2 and S2 with episode E3. *)
Definition show (id : Z) : TmdbShow :=
  mkTmdbShow id "Example show"
    [season 900 0 "Specials" 1; season 901 1 "Season 1" 2; season 902 2 "Season 2" 1].

Definition details (showId seasonNumber : Z) : TmdbSeasonDetails :=
  mkTmdbSeasonDetails
    (if (seasonNumber =? 0)%Z then [episode 100 1 0 "Special"]
     else if (seasonNumber =? 1)%Z then [episode 101 1 1 "E1"; episode 102 2 1 "E2"]
     else if (seasonNumber =? 2)%Z then [episode 103 1 2 "E3"]
     else []).

Definition status_json (o : option WatchStatus) : Json :=
  match o with
  | Some s => JStr (status_name s)
  | None => JNull
  end.

(** The profile's view of one show: its id and the stored status. *)
Definition show_view (d : DB) (profileId : string) (showId : Z) : Json :=
  match List.find (status_key_matches (Number profileId) showId) (show_watch_status d) with
  | Some r => JObj [("show_id", JNum showId);
                    ("watch_status", JStr (status_name (ws_status r)))]
  | None => JNull
  end.

Definition shows_view (d : DB) (profileId : string) : Json :=
  JArr (map (fun r => show_view d profileId (ws_content_id r))
            (List.filter (fun r => (ws_profile_id r =? Number profileId)%Z)
                         (show_watch_status d))).

Definition account_of (d : DB) (profileId : string) : Json :=
  match List.find (fun p => (profile_id p =? Number profileId)%Z) (profiles d) with
  | Some p => JNum (profile_account_id p)
  | None => JNull
  end.

Definition env : Env :=
  mkEnv show details shows_view
        (fun d profileId showId => show_view d profileId (Number showId))
        show_view
        (fun _ _ => JArr []) (fun _ _ => JArr []) (fun _ _ => JArr [])
        account_of.

Definition empty_db : DB := mkDB [] [] [] [] [] [] [] 1 1 1.

Definition world (d : DB) (faults : list bool) : World :=
  mkWorld d None faults 0 ∅ None [] [] [].

(** Season 5 of show 3 with episodes 1 and 2; profile 1 has the season
    stored as NOT_WATCHED and both episodes as WATCHED. *)
Definition stored_episode (id seasonId number : Z) : EpisodeRow :=
  mkEpisodeRow id (100 + id) 3 seasonId number "standard" 1 "" "" "" 45 "".

Definition season_watched_db : DB :=
  mkDB [] [] [stored_episode 1 5 1; stored_episode 2 5 2] []
       [mkStatusRow 1 5 NOT_WATCHED]
       [mkStatusRow 1 1 WATCHED; mkStatusRow 1 2 WATCHED] [] 1 6 3.

(** The same season with episode 1 WATCHED and episode 2 NOT_WATCHED. *)
Definition season_mixed_db : DB :=
  mkDB [] [] [stored_episode 1 5 1; stored_episode 2 5 2] []
       [mkStatusRow 1 5 NOT_WATCHED]
       [mkStatusRow 1 1 WATCHED; mkStatusRow 1 2 NOT_WATCHED] [] 1 6 3.

(** Two profiles and two seasons. Profile 1 has watched both episodes of
    season 5 and not the episode of season 6; profile 2 has not watched
    episode 1 and is watching episode 2. No season is marked yet. *)
Definition two_profiles_db : DB :=
  mkDB [] [] [stored_episode 1 5 1; stored_episode 2 5 2; stored_episode 3 6 1] []
       [mkStatusRow 1 5 NOT_WATCHED; mkStatusRow 1 6 NOT_WATCHED;
        mkStatusRow 2 5 NOT_WATCHED]
       [mkStatusRow 1 1 WATCHED; mkStatusRow 1 2 WATCHED;
        mkStatusRow 1 3 NOT_WATCHED; mkStatusRow 2 1 NOT_WATCHED;
        mkStatusRow 2 2 WATCHING] [] 1 7 4.

(** Season 5 is favorited by profile 1 and has no episode yet. *)
Definition season_without_episodes_db : DB :=
  mkDB [] [] [] [] [mkStatusRow 1 5 NOT_WATCHED] [] [] 1 6 1.

(** Show 7 is favorited by profiles 1 and 12 and not watched yet. *)
Definition favorited_show_db : DB :=
  mkDB [mkShowRow 7 77 "Example show"] [] []
       [mkStatusRow 1 7 NOT_WATCHED; mkStatusRow 12 7 NOT_WATCHED] [] []
       [mkProfileRow 1 40; mkProfileRow 12 41] 8 1 1.

Definition view (showId : Z) (status : WatchStatus) : Json :=
  JObj [("show_id", JNum showId); ("watch_status", JStr (status_name status))].

End Example.

(** ** Vocabulary of the statements *)

(** None of the coming I/O operations rejects. *)
Definition calm (w : World) : Prop := forallb negb (w_faults w) = true.

(** The key of a watch-status row. *)
Definition status_key (r : StatusRow) : Z * Z := (ws_profile_id r, ws_content_id r).

(** [d'] has every row of [d], in place, and possibly more after them; the
    shows, their associations and the profiles are the same. *)
Definition rows_kept (d d' : DB) : Prop :=
  shows d' = shows d /\
  show_watch_status d' = show_watch_status d /\
  profiles d' = profiles d /\
  seasons d `prefix_of` seasons d' /\
  episodes d `prefix_of` episodes d' /\
  season_watch_status d `prefix_of` season_watch_status d' /\
  episode_watch_status d `prefix_of` episode_watch_status d'.

(** [d'] differs from [d] by what a load may add: rows are kept, every new
    season row has a positive season number, and every new season
    association points to a stored season with a positive number. *)
Definition db_grows (d d' : DB) : Prop :=
  rows_kept d d' /\
  (forall row, row ∈ seasons d' ->
     row ∈ seasons d \/ (0 < season_season_number row)%Z) /\
  (forall r, r ∈ season_watch_status d' ->
     r ∈ season_watch_status d \/
     exists row, row ∈ seasons d' /\ season_id row = ws_content_id r /\
                 (0 < season_season_number row)%Z).

(** A step of the loader seen from outside: rows grow, and nothing is
    emitted, logged, started, cached or connected. *)
Definition loader_step (w w' : World) : Prop :=
  db_grows (w_db w) (w_db w') /\
  w_emitted w' = w_emitted w /\ w_log w' = w_log w /\ w_jobs w' = w_jobs w /\
  w_cache w' = w_cache w /\ w_io w' = w_io w.

(** The profile has an association for the content. *)
Definition favorited (profileId contentId : Z) (t : list StatusRow) : Prop :=
  existsb (status_key_matches profileId contentId) t = true.

(** The rows a season and an episode of the provider are persisted as. *)
Definition season_row (showId : Z) (rs : TmdbSeason) (id : Z) : SeasonRow :=
  mkSeasonRow id showId (tmdb_season_id rs) (tmdb_season_name rs)
              (tmdb_season_overview rs) (tmdb_season_season_number rs)
              (tmdb_season_air_date rs) (tmdb_season_poster_path rs)
              (tmdb_season_episode_count rs).

Definition episode_row (showId seasonId : Z) (re : TmdbEpisode) (id : Z) : EpisodeRow :=
  mkEpisodeRow id (tmdb_episode_id re) showId seasonId
               (tmdb_episode_episode_number re) (tmdb_episode_episode_type re)
               (tmdb_episode_season_number re) (tmdb_episode_name re)
               (tmdb_episode_overview re) (tmdb_episode_air_date re)
               (tmdb_episode_runtime re) (tmdb_episode_still_path re).

(** The episodes the provider returns for a season of a show. *)
Definition provider_episodes (env : Env) (show : TmdbShow) (rs : TmdbSeason)
    : list TmdbEpisode :=
  tmdb_details_episodes
    (tmdb_getSeasonDetails env (tmdb_show_id show) (tmdb_season_season_number rs)).

(** [entry] is what loading the provider's season [rs] leaves in the
    tables: the season's row under some id and, in the provider's order,
    one row per episode, each under that season's id. *)
Definition loaded_as (env : Env) (show : TmdbShow) (showId : Z)
    (rs : TmdbSeason) (entry : SeasonRow * list EpisodeRow) : Prop :=
  entry.1 = season_row showId rs (season_id entry.1) /\
  Forall2 (fun re e => e = episode_row showId (season_id entry.1) re (episode_id e))
          (provider_episodes env show rs) entry.2.

(** The rows after one episode, one season, of a load in which nothing is
    rejected. *)
Definition persist_episode (showId seasonId profileId : Z) (d : DB)
    (re : TmdbEpisode) : DB :=
  let id := episodes_auto_increment d in
  let d1 := with_episodes d (episodes d ++ [episode_row showId seasonId re id])
                          (id + 1)%Z in
  with_episode_watch_status d1
    (sql_insert_ignore_status profileId id (episode_watch_status d1)).

Definition persist_season (env : Env) (show : TmdbShow) (showId profileId : Z)
    (d : DB) (rs : TmdbSeason) : DB :=
  let id := seasons_auto_increment d in
  let d1 := with_seasons d (seasons d ++ [season_row showId rs id]) (id + 1)%Z in
  let d2 := with_season_watch_status d1
              (sql_insert_ignore_status profileId id (season_watch_status d1)) in
  foldl (persist_episode showId id profileId) d2 (provider_episodes env show rs).

(** The awaited calls of loading one season, in order: the provider's
    season details, the insert of the season, the insert of its
    association, and for each episode the insert of the episode and the
    insert of its association. *)
Definition season_calls (env : Env) (show : TmdbShow) (rs : TmdbSeason) : nat :=
  3 + 2 * length (provider_episodes env show rs).

(** The rows when the calls 0 .. n-1 of loading the season [rs] went through
    and call [n] did not: the season's row once its insert is past, its
    association once that is past, then every episode whose two inserts are
    past with its association, and the episode whose own insert is past
    but whose association is not, without one. *)
Definition persist_episodes_until (showId seasonId profileId : Z) (d : DB)
    (res : list TmdbEpisode) (m : nat) : DB :=
  let d3 := foldl (persist_episode showId seasonId profileId) d
                  (take (Nat.div2 m) res) in
  if Nat.even m then d3
  else
    match res !! Nat.div2 m with
    | Some re =>
        let id := episodes_auto_increment d3 in
        with_episodes d3 (episodes d3 ++ [episode_row showId seasonId re id])
                      (id + 1)%Z
    | None => d3
    end.

Definition persist_season_until (env : Env) (show : TmdbShow)
    (showId profileId : Z) (d : DB) (rs : TmdbSeason) (n : nat) : DB :=
  let id := seasons_auto_increment d in
  let d1 := with_seasons d (seasons d ++ [season_row showId rs id]) (id + 1)%Z in
  let d2 := with_season_watch_status d1
              (sql_insert_ignore_status profileId id (season_watch_status d1)) in
  match n with
  | 0 | 1 => d
  | 2 => d1
  | S (S (S m)) =>
      persist_episodes_until showId id profileId d2 (provider_episodes env show rs) m
  end.

(** The episode associations of a profile for a season: the rows of
    [episode_watch_status] of that profile whose episode is a row of
    [episodes] with that season. *)
Definition episode_associations (d : DB) (profile seasonId : Z) : list StatusRow :=
  filter (fun r =>
            ws_profile_id r = profile /\
            Exists (fun e => episode_id e = ws_content_id r /\
                             episode_season_id e = seasonId)
                   (episodes d))
         (episode_watch_status d).

(** The table [t] with status [S] in the rows of the key (profile, content)
    and every other row as it is. *)
Definition with_status_of (profile content : Z) (S : WatchStatus)
    (t : list StatusRow) : list StatusRow :=
  map (fun r => if decide (status_key r = (profile, content))
                then mkStatusRow (ws_profile_id r) (ws_content_id r) S
                else r)
      t.

(** Everything but rows, clock and schedule is the same. *)
Definition same_surroundings (w w' : World) : Prop :=
  w_emitted w' = w_emitted w /\ w_log w' = w_log w /\ w_jobs w' = w_jobs w /\
  w_cache w' = w_cache w /\ w_io w' = w_io w /\ w_tx w' = w_tx w.

(** No two rows of a status table have the same (profile, content) pair. *)
Definition no_duplicate_keys (t : list StatusRow) : Prop :=
  NoDup (status_key <$> t).

(** A status table of [d] without duplicate keys is still without in [d']. *)
Definition keys_stay_unique (d d' : DB) : Prop :=
  (no_duplicate_keys (show_watch_status d) ->
   no_duplicate_keys (show_watch_status d')) /\
  (no_duplicate_keys (season_watch_status d) ->
   no_duplicate_keys (season_watch_status d')) /\
  (no_duplicate_keys (episode_watch_status d) ->
   no_duplicate_keys (episode_watch_status d')).

(** [w'] has exactly the shows, seasons and episodes of [w], no status
    table has gained a duplicate key, and no load was started. *)
Definition attaches_only (w w' : World) : Prop :=
  shows (w_db w') = shows (w_db w) /\
  seasons (w_db w') = seasons (w_db w) /\
  episodes (w_db w') = episodes (w_db w) /\
  keys_stay_unique (w_db w) (w_db w') /\
  w_jobs w' = w_jobs w.

(** ** The rest of the models *)

(** [rows[0].status] of [SELECT status FROM t WHERE profile_id = ? AND
    <content>_id = ?], or null when no row matches. *)
Definition table_status (t : list StatusRow) (profileId contentId : Z)
    : option WatchStatus :=
  ws_status <$>
    head (filter (fun r => status_key_matches profileId contentId r = true) t).

(** [DELETE FROM t WHERE profile_id = ? AND <content>_id = ?] *)
Definition sql_delete_status (profileId contentId : Z) (t : list StatusRow)
    : list StatusRow :=
  List.filter (fun r => negb (status_key_matches profileId contentId r)) t.

(** The Episode model, continued (src/models/episode.ts, first document). *)
Module EpisodeRest.

(** [static removeFavorite(profile_id, episode_id)] *)
Definition removeFavorite (profile_id : string) (episode_id : Z) : M unit :=
  execute (fun d =>
    (with_episode_watch_status d
       (sql_delete_status (Number profile_id) episode_id (episode_watch_status d)),
     tt)).

End EpisodeRest.

(** One row of the [profile_seasons] and of the [profile_episodes] view:
    the [season_id] column, which the code reads, and the other columns,
    which travel along. *)
Record ProfileSeasonRow := mkProfileSeasonRow {
  profile_season_season_id : Z;
  profile_season_columns : Json
}.

Record ProfileEpisodeRow := mkProfileEpisodeRow {
  profile_episode_season_id : Z;
  profile_episode_columns : Json
}.

(** The two SELECTs of [Season.getSeasonsForShow], as parameters (the views
    they read are defined in the schema):
    [SELECT * FROM profile_seasons WHERE profile_id = ? AND show_id = ?
     ORDER BY season_number] and
    [SELECT * FROM profile_episodes WHERE profile_id = ? AND season_id IN
     (...) ORDER BY season_id, episode_number]. *)
Record Views := mkViews {
  select_profile_seasons : DB -> Z -> Z -> list ProfileSeasonRow;
  select_profile_episodes : DB -> Z -> list Z -> list ProfileEpisodeRow
}.

(** The Season model, continued (src/models/episode.ts, second document). *)
Module SeasonRest.

(** [static getShowIdForSeason(seasonId)]: [rows[0].show_id], or null. *)
Definition show_id_of_season (d : DB) (seasonId : Z) : option Z :=
  season_show_id <$>
    head (filter (fun s => (season_id s =? seasonId)%Z = true) (seasons d)).

Definition getShowIdForSeason (seasonId : Z) : M (option Z) :=
  try_catch
    (query (fun d => show_id_of_season d seasonId))
    Season.rethrow_as_DatabaseError.

(** The body of [episodeRows.forEach]:
    [if (!episodesBySeasonId[episode.season_id])
       episodesBySeasonId[episode.season_id] = [];
     episodesBySeasonId[episode.season_id].push(episode)] *)
Definition group_episode (episodesBySeasonId : gmap Z (list ProfileEpisodeRow))
    (episode : ProfileEpisodeRow) : gmap Z (list ProfileEpisodeRow) :=
  let key := profile_episode_season_id episode in
  let started :=
    match episodesBySeasonId !! key with
    | None => <[key := []]> episodesBySeasonId
    | Some _ => episodesBySeasonId
    end in
  alter (fun episodes => episodes ++ [episode]) key started.

(** [static getSeasonsForShow(profileId, showId)]; a season with its
    episodes, [{ ...season, episodes }], is a pair. *)
Definition getSeasonsForShow (views : Views) (profileId showId : string)
    : M (list (ProfileSeasonRow * list ProfileEpisodeRow)) :=
  try_catch
    (await seasonRows <-
       query (fun d => select_profile_seasons views d (Number profileId)
                                              (Number showId)) ;
     if (length seasonRows =? 0)%nat then ret []
     else
       let seasonIds := map profile_season_season_id seasonRows in
       await episodeRows <-
         query (fun d => select_profile_episodes views d (Number profileId)
                                                 seasonIds) ;
       let episodesBySeasonId := foldl group_episode ∅ episodeRows in
       ret (map (fun season =>
                   (season,
                    default [] (episodesBySeasonId !! profile_season_season_id season)))
                seasonRows))
    Season.rethrow_as_DatabaseError.

End SeasonRest.

Module ShowRest.

(** Modelled from the spec: [getWatchStatus] of the missing models/show.ts
    reads the status stored for the profile and the show (section 3: the
    per-(profile, show) status is a stored value), as [Season.getWatchStatus]
    does one level down. *)
Definition getWatchStatus (profileId : string) (showId : Z)
    : M (option WatchStatus) :=
  query (fun d => table_status (show_watch_status d) (Number profileId) showId).

(** Modelled from the spec: [findById] of the missing models/show.ts looks a
    show up by its internal id (section 3: an internal numeric id assigned
    on first persistence). *)
Definition find_by_id (d : DB) (showId : Z) : option ShowRow :=
  List.find (fun s => (show_id s =? showId)%Z) (shows d).

Definition findById (showId : Z) : M (option ShowRow) :=
  query (fun d => find_by_id d showId).

End ShowRest.

Module Profile.

(** Modelled from the spec: [getAllByAccountId] of the missing
    models/profile.ts returns the profiles of the account (section 4.4: the
    account owning a profile); the result carries their ids. *)
Definition getAllByAccountId (accountId : Z) : M (list Z) :=
  query (fun d =>
    map profile_id
        (List.filter (fun p => (profile_account_id p =? accountId)%Z) (profiles d))).

End Profile.

(** Property access and array contents of a JavaScript value. The values
    read this way are rows and provider results, which are objects and
    arrays. *)
Definition get_field (key : string) (value : Json) : Json :=
  match value with
  | JObj fields =>
      match List.find (fun kv => String.eqb kv.1 key) fields with
      | Some kv => kv.2
      | None => JUndefined
      end
  | _ => JUndefined
  end.

Definition array_items (value : Json) : list Json :=
  match value with
  | JArr items => items
  | _ => []
  end.

(** What the recommendation reads need besides [Env]: the provider's two
    lists and the two utilities that shape them, as parameters. *)
Record Discovery := mkDiscovery {
  tmdb_getShowRecommendations : Z -> Json;
  tmdb_getSimilarShows : Z -> Json;
  filterUSOrEnglishShows : Json -> list Json;
  generateGenreArrayFromIds : Json -> Json
}.

(** ShowService, continued (src/unnamed/part_001). *)
Module ShowServiceRest.

Section Service.

Context (env : Env) (discovery : Discovery).

(** [invalidateAccountCache(accountId)] *)
Definition invalidateAccountCache (accountId : Z) : M unit :=
  await profiles <- Profile.getAllByAccountId accountId ;
  ShowService.for_of profiles
    (fun profile => ShowService.invalidateProfileCache (pretty profile)).

(** [updateShowWatchStatusForNewContent(showId, profileIds)] *)
Definition updateShowWatchStatusForNewContent (showId : Z) (profileIds : list Z)
    : M unit :=
  ShowService.handled
    ("updateShowWatchStatusForNewContent(" +:+ pretty showId +:+ ")")
    (ShowService.for_of profileIds (fun profileId =>
       await watchStatus <- ShowRest.getWatchStatus (pretty profileId) showId ;
       match watchStatus with
       | Some WATCHED =>
           await _ <- Show.updateWatchStatus (pretty profileId) showId WATCHING ;
           ret tt
       | _ => ret tt
       end)).

(** The object built for one recommended or similar show. *)
Definition recommendation (userShowIds : list Json) (rec : Json) : Json :=
  JObj [("id", get_field "id" rec);
        ("title", get_field "name" rec);
        ("genres", generateGenreArrayFromIds discovery (get_field "genre_ids" rec));
        ("premiered", get_field "first_air_date" rec);
        ("summary", get_field "overview" rec);
        ("image", get_field "poster_path" rec);
        ("rating", get_field "vote_average" rec);
        ("popularity", get_field "popularity" rec);
        ("country", get_field "origin_country" rec);
        ("language", get_field "original_language" rec);
        ("inFavorites",
         JBool (existsb (strict_eq (get_field "id" rec)) userShowIds))].

(** The producer shared by [getShowRecommendations] and [getSimilarShows],
    up to the provider call. *)
Definition related_shows (fetch : Z -> Json) (profileId : string) (show : ShowRow)
    : M Json :=
  await response <- io (fun w => (w, fetch (show_tmdb_id show))) ;
  let responseShows := filterUSOrEnglishShows discovery (get_field "results" response) in
  await userShows <- query (fun d => Show_getAllShowsForProfile env d profileId) ;
  let userShowIds := map (get_field "tmdb_id") (array_items userShows) in
  ret (JArr (map (recommendation userShowIds) responseShows)).

Definition show_or_null (show : option ShowRow) : Json :=
  match show with
  | Some s => JObj [("id", JNum (show_id s)); ("tmdb_id", JNum (show_tmdb_id s));
                    ("title", JStr (show_title s))]
  | None => JNull
  end.

(** [getShowRecommendations(profileId, showId)] *)
Definition getShowRecommendations (profileId : string) (showId : Z) : M Json :=
  ShowService.handled
    ("getShowRecommendations(" +:+ profileId +:+ ", " +:+ pretty showId +:+ ")")
    (await show <- ShowRest.findById showId ;
     await _ <- errorService.assertExists (show_or_null show) "Show" (pretty showId) ;
     match show with
     | Some show =>
         CacheService.getOrSet
           ("recommendations_" +:+ pretty showId)
           (related_shows (tmdb_getShowRecommendations discovery) profileId show)
           86400
     | None => ret JNull
     end).

(** [getSimilarShows(profileId, showId)] *)
Definition getSimilarShows (profileId : string) (showId : Z) : M Json :=
  ShowService.handled
    ("getSimilarShows(" +:+ profileId +:+ ", " +:+ pretty showId +:+ ")")
    (await show <- ShowRest.findById showId ;
     await _ <- errorService.assertExists (show_or_null show) "Show" (pretty showId) ;
     match show with
     | Some show =>
         CacheService.getOrSet
           ("similarShows_" +:+ pretty showId)
           (related_shows (tmdb_getSimilarShows discovery) profileId show)
           86400
     | None => ret JNull
     end).

End Service.

End ShowServiceRest.

(** [w'] has the cache and the clock of [w]. *)
Definition cache_kept (w w' : World) : Prop :=
  w_cache w' = w_cache w /\ w_now w' = w_now w.

(** Views and provider lists for the examples of these models. *)
Module ExampleRest.

Definition season_view (id : Z) : ProfileSeasonRow :=
  mkProfileSeasonRow id (JObj [("season_id", JNum id)]).

Definition episode_view (seasonId : Z) (title : string) : ProfileEpisodeRow :=
  mkProfileEpisodeRow seasonId (JObj [("title", JStr title)]).

(** Seasons 1, 2 and 3 of a show; episodes a and c of season 1, b of season
    2, none of season 3, and a stray row d of a season 7. *)
Definition views : Views :=
  mkViews
    (fun _ _ showId =>
       if (showId =? 7)%Z then [season_view 1; season_view 2; season_view 3] else [])
    (fun _ _ _ => [episode_view 1 "a"; episode_view 2 "b"; episode_view 1 "c";
                   episode_view 7 "d"]).

(** The provider recommends the shows with the external ids 77 and 78 and
    knows no similar show. *)
Definition discovery : Discovery :=
  mkDiscovery
    (fun _ => JObj [("results", JArr [JObj [("id", JNum 77); ("name", JStr "A")];
                                      JObj [("id", JNum 78); ("name", JStr "B")]])])
    (fun _ => JObj [("results", JArr [])])
    array_items
    (fun ids => ids).

(** The shows of a profile, with their TMDB ids. *)
Definition shows_with_tmdb_id (d : DB) (profileId : string) : Json :=
  JArr (map (fun r =>
               match List.find (fun s => (show_id s =? ws_content_id r)%Z) (shows d) with
               | Some s => JObj [("show_id", JNum (show_id s));
                                 ("tmdb_id", JNum (show_tmdb_id s))]
               | None => JNull
               end)
            (List.filter (fun r => (ws_profile_id r =? Number profileId)%Z)
                         (show_watch_status d))).

Definition env : Env :=
  mkEnv Example.show Example.details shows_with_tmdb_id
        (fun d profileId showId => Example.show_view d profileId (Number showId))
        Example.show_view
        (fun _ _ => JArr []) (fun _ _ => JArr []) (fun _ _ => JArr [])
        Example.account_of.

(** Profiles 1 and 2 have watched show 7 and profile 3 has not started it;
    profile 1 has also watched show 8. *)
Definition watched_show_db : DB :=
  mkDB [mkShowRow 7 77 "Example show"; mkShowRow 8 78 "Another show"] [] []
       [mkStatusRow 1 7 WATCHED; mkStatusRow 2 7 WATCHED;
        mkStatusRow 3 7 NOT_WATCHED; mkStatusRow 1 8 WATCHED]
       [] []
       [mkProfileRow 1 40; mkProfileRow 2 40; mkProfileRow 3 41] 9 1 1.

End ExampleRest.

(** * Properties *)

(** ** Ids *)

(** The strings the statements read as ids, and some they do not. *)
Example decimal_id_examples :
  decimal_id "7" = true /\ decimal_id "12" = true /\ decimal_id "007" = true /\
  decimal_id "" = false /\ decimal_id "1e2" = false /\ decimal_id "0x10" = false /\
  decimal_id "12abc" = false /\ decimal_id " 7" = false /\ decimal_id "-5" = false /\
  decimal_id "1234567890123456" = false /\
  Number "12" = 12%Z /\ Number "007" = 7%Z.
Proof. by vm_compute. Qed.

(** ** Awaited calls under a schedule *)

Lemma io_calm {A} (act : World -> World * A) (w : World) :
  calm w ->
  io act w = (let '(w1, a) := act (set_faults w (tail (w_faults w))) in (w1, Returned a)).
Proof.
  unfold calm, io. destruct (w_faults w) as [|[] rest]; simpl; try done.
Qed.

Lemma calm_tail (w : World) : calm w -> calm (set_faults w (tail (w_faults w))).
Proof.
  unfold calm. destruct w as [d tx fs now c s em lg jobs]; simpl.
  destruct fs as [|b rest]; simpl; [done|]. intros H%andb_prop. tauto.
Qed.

Lemma execute_calm {A} (stmt : DB -> DB * A) (w : World) :
  calm w ->
  execute stmt w =
    (set_db (set_faults w (tail (w_faults w))) (stmt (w_db w)).1,
     Returned (stmt (w_db w)).2).
Proof.
  intros Hc. unfold execute. rewrite io_calm by done.
  simpl. destruct (stmt (w_db w)); done.
Qed.

Lemma calm_set_tx (w : World) (t : option DB) : calm w -> calm (set_tx w t).
Proof. by destruct w. Qed.

Lemma connection_execute_calm {A} (stmt : DB -> DB * A) (w : World) (pending : DB) :
  calm w ->
  w_tx w = Some pending ->
  connection_execute stmt w =
    (set_tx (set_faults w (tail (w_faults w))) (Some (stmt pending).1),
     Returned (stmt pending).2).
Proof.
  intros Hc Htx. unfold connection_execute. rewrite io_calm by done.
  destruct w as [d tx fs now c s em lg jobs]. cbn [w_tx set_faults] in *. subst tx.
  by destruct (stmt pending).
Qed.

(** An awaited call under a schedule whose head is known. *)
Lemma io_ok {A} (act : World -> World * A) (w : World) (fs : list bool) :
  w_faults w = false :: fs ->
  io act w = (let '(w1, a) := act (set_faults w fs) in (w1, Returned a)).
Proof. unfold io. by intros ->. Qed.

Lemma io_rejected {A} (act : World -> World * A) (w : World) (fs : list bool) :
  w_faults w = true :: fs ->
  io act w = (set_faults w fs, Thrown (IOError "rejected")).
Proof. unfold io. by intros ->. Qed.

Lemma execute_ok {A} (stmt : DB -> DB * A) (w : World) (fs : list bool) :
  w_faults w = false :: fs ->
  execute stmt w =
    (set_db (set_faults w fs) (stmt (w_db w)).1, Returned (stmt (w_db w)).2).
Proof.
  intros Hf. unfold execute. rewrite (io_ok _ w fs) by done.
  destruct w. cbn. by destruct (stmt _).
Qed.

Lemma execute_rejected {A} (stmt : DB -> DB * A) (w : World) (fs : list bool) :
  w_faults w = true :: fs ->
  execute stmt w = (set_faults w fs, Thrown (IOError "rejected")).
Proof. intros Hf. unfold execute. by rewrite (io_rejected _ w fs). Qed.

(** ** Aggregates over statuses *)

Lemma remove_dups_constant (S : WatchStatus) (l : list WatchStatus) :
  l <> [] -> (forall st, st ∈ l -> st = S) -> remove_dups l = [S].
Proof.
  induction l as [|x l IH]; [done|]. intros _ Hall.
  assert (x = S) as -> by (apply Hall; left).
  destruct l as [|y l]; [done|].
  assert (remove_dups (y :: l) = [S]) as Hr.
  { apply IH; [done|]. intros st Hst. apply Hall. by right. }
  change (remove_dups (S :: y :: l)) with
    (if decide_rel elem_of S (y :: l) then remove_dups (y :: l)
     else S :: remove_dups (y :: l)).
  destruct (decide_rel elem_of S (y :: l)) as [|Hn]; [done|].
  exfalso. apply Hn. assert (y = S) as -> by (apply Hall; right; left). left.
Qed.

Lemma count_distinct_constant (S : WatchStatus) (l : list WatchStatus) :
  l <> [] -> (forall st, st ∈ l -> st = S) -> count_distinct l = 1%Z.
Proof.
  intros. unfold count_distinct. by rewrite (remove_dups_constant S).
Qed.

Lemma count_distinct_mixed (a b : WatchStatus) (l : list WatchStatus) :
  a ∈ l -> b ∈ l -> a <> b -> (2 <= count_distinct l)%Z.
Proof.
  intros Ha%elem_of_remove_dups Hb%elem_of_remove_dups Hne.
  unfold count_distinct.
  destruct (remove_dups l) as [|x [|y r]]; simpl length; try lia.
  - by apply elem_of_nil in Ha.
  - apply list_elem_of_singleton in Ha, Hb. congruence.
Qed.

Lemma status_max_same (S : WatchStatus) : status_max S S = S.
Proof. by destruct S. Qed.

Lemma sql_max_constant (S : WatchStatus) (l : list WatchStatus) :
  l <> [] -> (forall st, st ∈ l -> st = S) -> sql_max l = Some S.
Proof.
  destruct l as [|x l]; [done|]. intros _ Hall. simpl. f_equal.
  assert (x = S) as -> by (apply Hall; left).
  assert (forall st, st ∈ l -> st = S) as Hl by (intros; apply Hall; by right).
  clear Hall. induction l as [|y l IH]; [done|]. simpl.
  rewrite IH by (intros; apply Hl; by right).
  rewrite (Hl y) by left. apply status_max_same.
Qed.

(** The joined rows, spelled out. *)
Lemma elem_of_episode_statuses (d : DB) (profileId : string) (seasonId : Z)
    (st : WatchStatus) :
  st ∈ Season.episode_statuses d profileId seasonId <->
  exists e ews,
    e ∈ episodes d /\ ews ∈ episode_watch_status d /\
    episode_id e = ws_content_id ews /\ episode_season_id e = seasonId /\
    ws_profile_id ews = Number profileId /\ ws_status ews = st.
Proof.
  unfold Season.episode_statuses. rewrite list_elem_of_In, in_flat_map. split.
  - intros (e & He & Hst). apply list_elem_of_In, list_elem_of_fmap in Hst.
    destruct Hst as (ews & -> & Hews). apply list_elem_of_filter in Hews.
    destruct Hews as [Hm Hews]. apply andb_prop in Hm as [Hm H3].
    apply andb_prop in Hm as [H1 H2].
    exists e, ews. apply list_elem_of_In in He. repeat split; try done; lia.
  - intros (e & ews & He & Hews & H1 & H2 & H3 & <-).
    exists e. split; [by apply list_elem_of_In|].
    apply list_elem_of_In, list_elem_of_fmap. exists ews. split; [done|].
    apply list_elem_of_filter. split; [|done].
    rewrite !andb_true_iff. repeat split; lia.
Qed.

(** Reading a season's status back after the UPDATE. *)
Lemma stored_status_update (d : DB) (profileId : string) (seasonId : Z)
    (S : WatchStatus) :
  Season.stored_status (Season.update_season_status profileId seasonId S d).1
                       profileId seasonId
  = (fun _ => S) <$> Season.stored_status d profileId seasonId.
Proof.
  unfold Season.stored_status, Season.update_season_status, sql_update_status.
  simpl. induction (season_watch_status d) as [|r l IH]; [done|].
  simpl. rewrite !filter_cons.
  destruct (status_key_matches (Number profileId) seasonId r) eqn:Hr;
    repeat case_decide; try done; try congruence.
Qed.

(** ** Season status derived from episodes *)

(** The run of the recomputation when nothing is rejected and the join
    selects at least one row: the status the SELECT computes is written to
    the season's rows. *)
Lemma updateWatchStatusByEpisode_joined
    (w : World) (profileId : string) (seasonId : Z) :
  calm w ->
  Season.episode_statuses (w_db w) profileId seasonId <> [] ->
  let statuses := Season.episode_statuses (w_db w) profileId seasonId in
  exists S,
    Season.updateWatchStatusByEpisode profileId seasonId w
    = (set_db (set_faults (set_faults w (tail (w_faults w)))
                          (tail (tail (w_faults w))))
              (Season.update_season_status profileId seasonId S (w_db w)).1,
       Returned tt) /\
    (forall S', (forall st, st ∈ statuses -> st = S') -> S = S') /\
    ((exists a b, a ∈ statuses /\ b ∈ statuses /\ a <> b) -> S = WATCHING).
Proof.
  intros Hc Hne statuses.
  assert (exists S,
    Season.select_season_status (w_db w) profileId seasonId = [Some S] /\
    ((forall S', (forall st, st ∈ statuses -> st = S') -> S = S') /\
     ((exists a b, a ∈ statuses /\ b ∈ statuses /\ a <> b) -> S = WATCHING)))
    as (S & Hsel & HS).
  { unfold Season.select_season_status. fold statuses.
    destruct (count_distinct statuses =? 1)%Z eqn:Hcount.
    - destruct statuses as [|x l] eqn:Hst; [done|].
      exists (foldr status_max x l). split; [done|]. split.
      + intros S' Hall.
        pose proof (sql_max_constant S' (x :: l) ltac:(done) Hall) as Hm.
        simpl in Hm. congruence.
      + intros (a & b & Ha & Hb & Hab).
        pose proof (count_distinct_mixed a b (x :: l) Ha Hb Hab). lia.
    - exists WATCHING. split; [done|]. split; [|done].
      intros S' Hall.
      pose proof (count_distinct_constant S' statuses Hne Hall). lia. }
  exists S. split; [|exact HS].
  unfold Season.updateWatchStatusByEpisode, try_catch, bind, query.
  rewrite execute_calm by done. cbn [fst snd]. rewrite Hsel.
  rewrite execute_calm by (by apply calm_tail). done.
Qed.

Lemma status_key_matches_eq (p c : Z) (r : StatusRow) :
  status_key_matches p c r = true <-> status_key r = (p, c).
Proof.
  unfold status_key_matches, status_key. rewrite andb_true_iff, !Z.eqb_eq.
  split; [intros [-> ->]; done|intros [= -> ->]; done].
Qed.

(** What the season UPDATE does to the rows. *)
Lemma update_season_status_rows (d : DB) (profileId : string) (seasonId : Z)
    (S : WatchStatus) :
  (Season.update_season_status profileId seasonId S d).1
  = with_season_watch_status d
      (with_status_of (Number profileId) seasonId S (season_watch_status d)).
Proof.
  unfold Season.update_season_status, sql_update_status, with_status_of.
  cbn [fst]. f_equal. apply map_ext. intros r.
  destruct (status_key_matches (Number profileId) seasonId r) eqn:Hm.
  - apply status_key_matches_eq in Hm. by rewrite decide_True.
  - rewrite decide_False; [done|].
    intros Hk%status_key_matches_eq. congruence.
Qed.

(** The rows the SELECT joins are the episode associations of the season
    and the profile, possibly repeated. *)
Lemma elem_of_episode_associations (d : DB) (profile seasonId : Z) (r : StatusRow) :
  r ∈ episode_associations d profile seasonId <->
  r ∈ episode_watch_status d /\ ws_profile_id r = profile /\
  exists e, e ∈ episodes d /\ episode_id e = ws_content_id r /\
            episode_season_id e = seasonId.
Proof.
  unfold episode_associations. rewrite list_elem_of_filter, Exists_exists.
  split.
  - intros [[Hprofile (e & He & Hid & Hseason)] Hr]. eauto 10.
  - intros (Hr & Hprofile & e & He & Hid & Hseason). eauto 10.
Qed.

Lemma episode_statuses_associations (d : DB) (profileId : string) (seasonId : Z)
    (st : WatchStatus) :
  st ∈ Season.episode_statuses d profileId seasonId <->
  exists r, r ∈ episode_associations d (Number profileId) seasonId /\
            ws_status r = st.
Proof.
  rewrite elem_of_episode_statuses. split.
  - intros (e & ews & He & Hews & Hid & Hseason & Hprofile & Hst).
    exists ews. split; [|done]. apply elem_of_episode_associations.
    split; [done|]. split; [done|]. by exists e.
  - intros (r & Hr & Hst).
    apply elem_of_episode_associations in Hr as (Hr & Hprofile & e & He & Hid & Hs).
    by exists e, r.
Qed.

(** C1. A profile has at least one episode association for a season (a row
    of [episode_watch_status] of the profile for an episode stored with the
    season). Then [Season.updateWatchStatusByEpisode], when its two
    statements are not rejected, resolves; if every such association has
    status S, the rows of [season_watch_status] of that profile and season
    get status S; if two of them differ, they get WATCHING. No other row
    of any table changes, and the status read back for the season is the
    one written, provided the profile has the season. *)
Theorem updateWatchStatusByEpisode_aggregates
    (w : World) (profileId : string) (seasonId : Z) :
  calm w ->
  decimal_id profileId = true ->
  let associations := episode_associations (w_db w) (Number profileId) seasonId in
  let after := Season.updateWatchStatusByEpisode profileId seasonId w in
  let written S :=
    w_db after.1
    = with_season_watch_status (w_db w)
        (with_status_of (Number profileId) seasonId S
                        (season_watch_status (w_db w))) /\
    Season.stored_status (w_db after.1) profileId seasonId
    = (fun _ => S) <$> Season.stored_status (w_db w) profileId seasonId in
  associations <> [] ->
  after.2 = Returned tt /\
  (forall S, Forall (fun r => ws_status r = S) associations -> written S) /\
  ((exists a b, a ∈ associations /\ b ∈ associations /\
                ws_status a <> ws_status b) ->
   written WATCHING).
Proof.
  intros Hc _ associations after written Hsome.
  assert (Season.episode_statuses (w_db w) profileId seasonId <> []) as Hne.
  { destruct associations as [|r l] eqn:Hassoc; [done|].
    assert (ws_status r ∈ Season.episode_statuses (w_db w) profileId seasonId) as Hin.
    { apply episode_statuses_associations. exists r. split; [|done].
      fold associations. rewrite Hassoc. left. }
    intros Hnil. rewrite Hnil in Hin. by apply elem_of_nil in Hin. }
  destruct (updateWatchStatusByEpisode_joined w profileId seasonId Hc Hne)
    as (S & Hrun & Hsame & Hmixed).
  fold after in Hrun.
  assert (written S) as Hwritten.
  { subst written. cbn beta. rewrite Hrun. cbn [fst].
    assert (w_db (set_db (set_faults (set_faults w (tail (w_faults w)))
                                     (tail (tail (w_faults w))))
                         (Season.update_season_status profileId seasonId S (w_db w)).1)
            = (Season.update_season_status profileId seasonId S (w_db w)).1) as ->
      by (by destruct w).
    split; [apply update_season_status_rows|apply stored_status_update]. }
  split; [by rewrite Hrun|]. split.
  - intros S' Hall. rewrite <- (Hsame S'); [exact Hwritten|].
    intros st (r & Hr & <-)%episode_statuses_associations.
    fold associations in Hr. eapply Forall_forall in Hall; eauto.
  - intros (a & b & Ha & Hb & Hab). rewrite <- Hmixed; [exact Hwritten|].
    exists (ws_status a), (ws_status b).
    split; [apply episode_statuses_associations; by exists a|].
    split; [apply episode_statuses_associations; by exists b|done].
Qed.

Lemma updateWatchStatusByEpisode_aggregates_witness :
  let w := Example.world Example.two_profiles_db [] in
  calm w /\
  decimal_id "1" = true /\ decimal_id "2" = true /\
  episode_associations (w_db w) (Number "1") 5
  = [mkStatusRow 1 1 WATCHED; mkStatusRow 1 2 WATCHED] /\
  season_watch_status (w_db (Season.updateWatchStatusByEpisode "1" 5 w).1)
  = [mkStatusRow 1 5 WATCHED; mkStatusRow 1 6 NOT_WATCHED;
     mkStatusRow 2 5 NOT_WATCHED] /\
  episode_associations (w_db w) (Number "2") 5
  = [mkStatusRow 2 1 NOT_WATCHED; mkStatusRow 2 2 WATCHING] /\
  season_watch_status (w_db (Season.updateWatchStatusByEpisode "2" 5 w).1)
  = [mkStatusRow 1 5 NOT_WATCHED; mkStatusRow 1 6 NOT_WATCHED;
     mkStatusRow 2 5 WATCHING].
Proof.
  intros w.
  assert (Hc : calm w) by reflexivity.
  assert (H1 : decimal_id "1" = true) by reflexivity.
  assert (H2 : decimal_id "2" = true) by reflexivity.
  assert (Hfirst : episode_associations (w_db w) (Number "1") 5
                   = [mkStatusRow 1 1 WATCHED; mkStatusRow 1 2 WATCHED])
    by (vm_compute; reflexivity).
  assert (Hsecond : episode_associations (w_db w) (Number "2") 5
                    = [mkStatusRow 2 1 NOT_WATCHED; mkStatusRow 2 2 WATCHING])
    by (vm_compute; reflexivity).
  split; [exact Hc|]. split; [exact H1|]. split; [exact H2|].
  split; [exact Hfirst|]. split; [|split; [exact Hsecond|]].
  - destruct (updateWatchStatusByEpisode_aggregates w "1" 5 Hc H1) as (_ & Hsame & _).
    { rewrite Hfirst. discriminate. }
    destruct (Hsame WATCHED) as [-> _]; [|reflexivity].
    rewrite Hfirst. repeat constructor.
  - destruct (updateWatchStatusByEpisode_aggregates w "2" 5 Hc H2) as (_ & _ & Hmixed).
    { rewrite Hsecond. discriminate. }
    destruct Hmixed as [-> _]; [|reflexivity].
    exists (mkStatusRow 2 1 NOT_WATCHED), (mkStatusRow 2 2 WATCHING).
    rewrite Hsecond. split; [left|]. split; [right; left|discriminate].
Defined.

(** One episode watched and one not: the season is WATCHING, not
    NOT_WATCHED and not WATCHED. *)
Example example_mixed_episodes :
  let w := Example.world Example.season_mixed_db [] in
  Season.episode_statuses (w_db w) "1" 5 = [WATCHED; NOT_WATCHED] /\
  Season.stored_status
    (w_db (Season.updateWatchStatusByEpisode "1" 5 w).1) "1" 5 = Some WATCHING.
Proof. by vm_compute. Qed.

(** The same statement for a season in which no episode association is
    joined: the aggregate still yields its one row. *)
Lemma updateWatchStatusByEpisode_empty_group
    (w : World) (profileId : string) (seasonId : Z) :
  calm w ->
  Season.episode_statuses (w_db w) profileId seasonId = [] ->
  let after := Season.updateWatchStatusByEpisode profileId seasonId w in
  after.2 = Returned tt /\
  Season.stored_status (w_db after.1) profileId seasonId
  = (fun _ => WATCHING) <$> Season.stored_status (w_db w) profileId seasonId.
Proof.
  intros Hc Hnone after. subst after.
  unfold Season.updateWatchStatusByEpisode, try_catch, bind, query.
  rewrite execute_calm by done. cbn [fst snd].
  unfold Season.select_season_status. rewrite Hnone. cbn [count_distinct].
  change (count_distinct [] =? 1)%Z with false. cbn beta iota.
  rewrite execute_calm by (by apply calm_tail). cbn [fst snd].
  split; [done|]. apply stored_status_update.
Qed.

(** C2. A season with a stored status NOT_WATCHED and no episode association
    at all: recomputing its status from its episodes resolves and leaves
    WATCHING stored, where the documented behaviour is to update nothing. *)
Theorem updateWatchStatusByEpisode_overwrites_without_episodes :
  let w := Example.world Example.season_without_episodes_db [] in
  let after := Season.updateWatchStatusByEpisode "1" 5 w in
  Season.episode_statuses (w_db w) "1" 5 = [] /\
  Season.stored_status (w_db w) "1" 5 = Some NOT_WATCHED /\
  after.2 = Returned tt /\
  Season.stored_status (w_db after.1) "1" 5 = Some WATCHING.
Proof. by vm_compute. Qed.

(** ** The cascading season update *)

Lemma sql_update_status_affected (sel : StatusRow -> bool) (status : WatchStatus)
    (t : list StatusRow) :
  (0 < (sql_update_status sel status t).2)%Z <-> existsb sel t = true.
Proof.
  unfold sql_update_status. simpl. induction t as [|r t IH]; simpl; [split; [lia|done]|].
  rewrite filter_cons. destruct (sel r) eqn:Hr; case_decide; done.
Qed.

(** C3. When the connection, the transaction start and the season-level
    UPDATE succeed, the season-level row exists, and the episode-level UPDATE
    is rejected, [Season.updateAllWatchStatuses] throws and the rows are
    those from before the call: the season keeps its earlier status and no
    episode association has changed. The [catch] awaits the rollback: when
    that goes through, the transaction is closed and the error is a
    DatabaseError; when the rollback is rejected in turn, its own error is
    thrown and the transaction stays open, with the season-level change in
    it and not in the rows. *)
Theorem updateAllWatchStatuses_rolls_back
    (w : World) (profileId : string) (seasonId : Z) (status : WatchStatus)
    (rest : list bool) :
  decimal_id profileId = true ->
  w_faults w = false :: false :: false :: true :: rest ->
  existsb (status_key_matches (Number profileId) seasonId)
          (season_watch_status (w_db w)) = true ->
  let after := Season.updateAllWatchStatuses profileId seasonId status w in
  (if bool_decide (head rest = Some true)
   then after.2 = Thrown (IOError "rejected") /\
        w_tx after.1
        = Some (Season.update_season_status profileId seasonId status (w_db w)).1
   else (exists cause, after.2 = Thrown (DatabaseError (error_message cause) cause)) /\
        w_tx after.1 = None) /\
  w_db after.1 = w_db w /\
  Season.stored_status (w_db after.1) profileId seasonId
  = Season.stored_status (w_db w) profileId seasonId /\
  episode_watch_status (w_db after.1) = episode_watch_status (w_db w).
Proof.
  intros _ Hf Hrow after.
  assert (w_db after.1 = w_db w /\
          (if bool_decide (head rest = Some true)
           then after.2 = Thrown (IOError "rejected") /\
                w_tx after.1
                = Some (Season.update_season_status profileId seasonId status
                                                    (w_db w)).1
           else after.2 = Thrown (DatabaseError "rejected" (IOError "rejected")) /\
                w_tx after.1 = None))
    as [Hdb Hres].
  { subst after. destruct w as [d tx fs now c s em lg jobs].
    cbn [w_faults w_db] in Hf, Hrow. subst fs.
    apply sql_update_status_affected with (status := status) in Hrow.
    unfold Season.updateAllWatchStatuses, try_finally, try_catch, bind,
      connection_execute, beginTransaction, commit, rollback, io,
      Season.rethrow_as_DatabaseError, throw, Season.update_season_status.
    cbn [w_faults w_db w_tx set_faults set_db set_tx fst snd tail].
    destruct (sql_update_status (status_key_matches (Number profileId) seasonId)
                status (season_watch_status d)) as [t n] eqn:Hupdate.
    cbn [fst snd] in *.
    destruct (n =? 0)%Z eqn:Hn; [lia|].
    cbn [w_faults w_db w_tx set_faults set_db set_tx fst snd tail].
    destruct rest as [|[] rest];
      cbn [w_faults w_db w_tx set_faults set_db set_tx fst snd tail head
           error_message];
      (rewrite bool_decide_eq_true_2 by done) || (rewrite bool_decide_eq_false_2 by done);
      done. }
  rewrite Hdb. split; [|done].
  destruct (bool_decide (head rest = Some true)); [exact Hres|].
  destruct Hres as [-> ->]. split; [by exists (IOError "rejected")|done].
Qed.

Lemma updateAllWatchStatuses_rolls_back_witness :
  let w := Example.world Example.season_watched_db [false; false; false; true] in
  let after := Season.updateAllWatchStatuses "1" 5 WATCHED w in
  decimal_id "1" = true /\
  w_faults w = [false; false; false; true] /\
  existsb (status_key_matches (Number "1") 5) (season_watch_status (w_db w)) = true /\
  Season.stored_status (w_db w) "1" 5 = Some NOT_WATCHED /\
  w_db after.1 = w_db w /\
  w_tx after.1 = None.
Proof.
  intros w after.
  split; [reflexivity|]. split; [reflexivity|]. split; [reflexivity|].
  split; [reflexivity|].
  destruct (updateAllWatchStatuses_rolls_back w "1" 5 WATCHED [] eq_refl eq_refl
              eq_refl) as ([_ Hclosed] & Hdb & _).
  split; [exact Hdb|exact Hclosed].
Defined.

(** Whatever step of the transaction is rejected, no row has changed when
    the call throws: rows change at the commit only, and after a commit
    that went through nothing is awaited any more. *)
Lemma updateAllWatchStatuses_all_or_nothing
    (w : World) (profileId : string) (seasonId : Z) (status : WatchStatus)
    (e : Error) :
  (Season.updateAllWatchStatuses profileId seasonId status w).2 = Thrown e ->
  w_db (Season.updateAllWatchStatuses profileId seasonId status w).1 = w_db w.
Proof.
  destruct w as [d tx fs now c s em lg jobs].
  unfold Season.updateAllWatchStatuses, try_finally, try_catch, bind,
    connection_execute, beginTransaction, commit, rollback, io,
    Season.rethrow_as_DatabaseError, throw.
  cbn [w_faults w_db w_tx set_faults set_db set_tx fst snd tail].
  destruct fs as [|b1 [|b2 [|b3 [|b4 [|b5 [|b6 fs]]]]]];
    repeat match goal with b : bool |- _ => destruct b end;
    cbn [w_faults w_db w_tx set_faults set_db set_tx fst snd tail];
    try done;
    repeat match goal with
           | |- context [Season.update_season_status ?p ?s ?st ?d] =>
               destruct (Season.update_season_status p s st d) as [? ?]
           | |- context [Season.update_episode_statuses ?p ?s ?st ?d] =>
               destruct (Season.update_episode_statuses p s st d) as [? ?]
           | |- context [(?n =? 0)%Z] => destruct (n =? 0)%Z
           end;
    cbn [w_faults w_db w_tx set_faults set_db set_tx fst snd tail ret];
    done.
Qed.

(** C4. A season that profile 1 has favorited (stored as NOT_WATCHED) and
    that has no episode: the cascading update writes WATCHED to the season
    row, commits, and returns false, so the season-level status update
    raises although the parent-level row exists and was updated. *)
Theorem updateAllWatchStatuses_false_after_update :
  let w := Example.world Example.season_without_episodes_db [] in
  let after := Season.updateAllWatchStatuses "1" 5 WATCHED w in
  Season.stored_status (w_db w) "1" 5 = Some NOT_WATCHED /\
  after.2 = Returned false /\
  w_tx after.1 = None /\
  Season.stored_status (w_db after.1) "1" 5 = Some WATCHED /\
  (updateSeasonWatchStatus "1" 5 WATCHED true w).2
  = Thrown (HandledError (BadRequestError "Failed to update watch status")
                         "updateSeasonWatchStatus").
Proof. by vm_compute. Qed.

(** The parts of the contract that hold: the plain season update reports
    exactly whether a row of the season and profile exists. *)
Lemma updateWatchStatus_reports_row (w : World) (profileId : string)
    (seasonId : Z) (status : WatchStatus) :
  calm w ->
  (Season.updateWatchStatus profileId seasonId status w).2
  = Returned (existsb (status_key_matches (Number profileId) seasonId)
                      (season_watch_status (w_db w))).
Proof.
  intros Hc. unfold Season.updateWatchStatus, try_catch, bind.
  rewrite execute_calm by done. cbn [fst snd]. unfold ret. cbn [snd]. f_equal.
  unfold Season.update_season_status.
  pose proof (sql_update_status_affected
                (status_key_matches (Number profileId) seasonId) status
                (season_watch_status (w_db w))) as H.
  destruct (sql_update_status _ status (season_watch_status (w_db w))) as [t n].
  cbn [snd] in *.
  destruct (existsb _ (season_watch_status (w_db w))).
  - apply Z.ltb_lt. by apply H.
  - apply Z.ltb_ge. destruct (Z.lt_ge_cases 0 n) as [Hlt|]; [|lia].
    apply H in Hlt. done.
Qed.

(** ** Cached reads and the status update *)

(** C5. Profile 1 reads the details of show 7 (stored as NOT_WATCHED), then
    updates the show to WATCHED. The update succeeds and the store holds
    WATCHED, but the details are cached under
    [profile_1_show_details_7], a key the update does not invalidate: the
    next read of the details still returns NOT_WATCHED. *)
Theorem updateShowWatchStatus_keeps_cached_details :
  let w0 := Example.world Example.favorited_show_db [] in
  let w1 := (ShowService.getShowDetailsForProfile Example.env "1" "7" w0).1 in
  let updated := ShowService.updateShowWatchStatus "1" 7 WATCHED false w1 in
  let reread := ShowService.getShowDetailsForProfile Example.env "1" "7" updated.1 in
  updated.2 = Returned true /\
  Show_getShowDetailsForProfile Example.env (w_db updated.1) "1" "7"
  = Example.view 7 WATCHED /\
  is_Some (w_cache updated.1 !! "profile_1_show_details_7") /\
  reread.2 = Returned (Example.view 7 NOT_WATCHED).
Proof.
  vm_compute. split; [done|]. split; [done|]. split; [by eexists|done].
Qed.

(** What the update does to the cache in general: on success exactly the
    three keys it names are dropped, on failure none. *)
Lemma updateShowWatchStatus_cache (w : World) (profileId : string) (showId : Z)
    (status : WatchStatus) :
  let after := ShowService.updateShowWatchStatus profileId showId status false w in
  match after.2 with
  | Returned _ =>
      w_cache after.1 =
      delete (ShowService.CACHE_KEYS.PROFILE_UNWATCHED_EPISODES profileId)
        (delete (ShowService.CACHE_KEYS.PROFILE_SHOWS profileId)
           (delete (ShowService.CACHE_KEYS.PROFILE_SHOW profileId showId)
              (w_cache w)))
  | Thrown _ => w_cache after.1 = w_cache w
  end.
Proof.
  destruct w as [d tx fs now c s em lg jobs].
  unfold ShowService.updateShowWatchStatus, ShowService.handled, try_catch, bind,
    Show.updateWatchStatus, bind, execute, io, CacheService.invalidate. simpl.
  destruct fs as [|[] fs]; simpl; try done;
    match goal with |- context [(0 <? ?n)%Z] => destruct (0 <? n)%Z end; done.
Qed.

(** The show-level update raises exactly when the store reports that no
    show-level row was affected. *)
Lemma updateShowWatchStatus_raises_iff (w : World) (profileId : string)
    (showId : Z) (status : WatchStatus) :
  calm w ->
  let after := ShowService.updateShowWatchStatus profileId showId status false w in
  if existsb (status_key_matches (Number profileId) showId)
             (show_watch_status (w_db w))
  then after.2 = Returned true
  else exists e, after.2 = Thrown e.
Proof.
  intros Hc after. subst after.
  unfold ShowService.updateShowWatchStatus, ShowService.handled, try_catch, bind,
    Show.updateWatchStatus, bind.
  rewrite execute_calm by done. cbn [fst snd]. unfold ret at 1. cbn beta iota.
  unfold Show.update_show_status.
  pose proof (sql_update_status_affected
                (status_key_matches (Number profileId) showId) status
                (show_watch_status (w_db w))) as H.
  destruct (sql_update_status _ status (show_watch_status (w_db w))) as [t n].
  cbn [fst snd] in *.
  destruct (existsb _ (show_watch_status (w_db w))).
  - assert ((0 <? n)%Z = true) as -> by (apply Z.ltb_lt; by apply H). done.
  - assert ((0 <? n)%Z = false) as ->.
    { apply Z.ltb_ge. destruct (Z.lt_ge_cases 0 n) as [Hlt|]; [|lia].
      apply H in Hlt. done. }
    by eexists.
Qed.

(** ** Pattern invalidation *)

Lemma string_prefix_append (a b c : string) :
  String.prefix (a +:+ b) (a +:+ c) = String.prefix b c.
Proof.
  induction a as [|x a IH]; [done|]. simpl.
  destruct (ascii_dec x x); [apply IH|done].
Qed.

Lemma string_prefix_weaken (p q s : string) :
  String.prefix p q = true -> String.prefix p (q +:+ s) = true.
Proof.
  revert q. induction p as [|x p IH]; intros q; [by destruct (q +:+ s)|].
  destruct q as [|y q]; simpl; [done|].
  destruct (ascii_dec x y); [apply IH|done].
Qed.

Lemma invalidatePattern_lookup (prefix : string) (w : World) (key : string) :
  w_cache (CacheService.invalidatePattern prefix w).1 !! key
  = if String.prefix prefix key then None else w_cache w !! key.
Proof.
  unfold CacheService.invalidatePattern. simpl.
  destruct (String.prefix prefix key) eqn:Hp.
  - apply map_lookup_filter_None. right. intros x _. simpl. congruence.
  - destruct (w_cache w !! key) as [x|] eqn:Hk.
    + apply map_lookup_filter_Some. done.
    + apply map_lookup_filter_None. by left.
Qed.

(** C10. [invalidateProfileCache(profileId)] drops a key exactly when the
    key starts with [profile_<profileId>]; so when [p] is a prefix of [q],
    invalidating the cache of profile [p] drops every entry of profile [q],
    whatever follows the id in its key. *)
Theorem invalidateProfileCache_prefix_collision (w : World) (p : string) :
  (forall key,
     w_cache (ShowService.invalidateProfileCache p w).1 !! key
     = if String.prefix ("profile_" +:+ p) key then None else w_cache w !! key) /\
  (forall q rest,
     String.prefix p q = true ->
     w_cache (ShowService.invalidateProfileCache p w).1
       !! ("profile_" +:+ q +:+ rest) = None).
Proof.
  split.
  - intros key. apply invalidatePattern_lookup.
  - intros q rest Hpq. unfold ShowService.invalidateProfileCache.
    rewrite invalidatePattern_lookup.
    rewrite string_prefix_append, string_prefix_weaken; done.
Qed.

Lemma invalidateProfileCache_prefix_collision_witness :
  let w := (ShowService.getShowsForProfile Example.env "12"
              (Example.world Example.favorited_show_db [])).1 in
  String.prefix "1" "12" = true /\
  is_Some (w_cache w !! ShowService.CACHE_KEYS.PROFILE_SHOWS "12") /\
  w_cache (ShowService.invalidateProfileCache "1" w).1
    !! ShowService.CACHE_KEYS.PROFILE_SHOWS "12" = None.
Proof.
  intros w. split; [reflexivity|]. split; [by vm_compute; eexists|].
  exact (proj2 (invalidateProfileCache_prefix_collision w "1") "12" "_shows" eq_refl).
Defined.

(** ** The completion notice *)

(** What the notice leaves alone, whatever happens: it resolves, and rows,
    cache, sessions and started jobs are as before. *)
Lemma notifyShowDataLoaded_frame (env : Env) (w : World) (profileId : string)
    (showId : Z) :
  let after := ShowService.notifyShowDataLoaded env profileId showId w in
  after.2 = Returned tt /\
  w_db after.1 = w_db w /\ w_tx after.1 = w_tx w /\ w_cache after.1 = w_cache w /\
  w_io after.1 = w_io w /\ w_jobs after.1 = w_jobs w /\ w_now after.1 = w_now w.
Proof.
  destruct w as [d tx fs now c s em lg jobs].
  unfold ShowService.notifyShowDataLoaded, try_catch, bind, query, execute, io,
    ShowService.emit, cliLogger_error. simpl.
  destruct s as [sockets|]; simpl; [|done].
  destruct fs as [|[] [|[] fs]]; simpl; try done;
    match goal with |- context [List.find ?f ?l] => destruct (List.find f l) end;
    done.
Qed.

(** C9. The notice after a load. When a socket server is set, the two
    reads resolve, and some connected session's accountId is strictly equal
    to the account of the profile, exactly one [updateShowFavorite] event,
    carrying the message and the show as just read, is emitted, to such a
    session. When no socket server is set, or no session matches, nothing
    is emitted and nothing is kept for later: apart from the schedule the
    world is the one before the call. *)
Theorem notifyShowDataLoaded_at_most_once (env : Env) (w : World)
    (profileId : string) (showId : Z) :
  let after := ShowService.notifyShowDataLoaded env profileId showId w in
  let account_id := Account_findAccountIdByProfileId env (w_db w) profileId in
  let loadedShow := Show_getShowForProfile env (w_db w) profileId showId in
  after.2 = Returned tt /\
  (forall sockets,
     w_io w = Some sockets -> calm w ->
     (exists socket, socket ∈ sockets /\
                     strict_eq (socket_accountId socket) account_id = true) ->
     exists socket,
       socket ∈ sockets /\
       strict_eq (socket_accountId socket) account_id = true /\
       w_emitted after.1 =
       w_emitted w ++ [mkEmitted (socket_id socket) "updateShowFavorite"
                                 "Show data has been fully loaded" loadedShow]) /\
  (w_io w = None \/
   (exists sockets, w_io w = Some sockets /\ calm w /\
      forall socket, socket ∈ sockets ->
                     strict_eq (socket_accountId socket) account_id = false) ->
   after.1 = set_faults w (w_faults after.1)).
Proof.
  intros after account_id loadedShow.
  split; [apply notifyShowDataLoaded_frame|]. subst after.
  destruct w as [d tx fs now c s em lg jobs]. simpl in account_id, loadedShow.
  unfold ShowService.notifyShowDataLoaded, try_catch, bind, query, execute, io,
    ShowService.emit, cliLogger_error, calm. simpl. split.
  - intros sockets -> Hcalm (socket & Hin & Heq). simpl.
    destruct (List.find (fun socket => strict_eq (socket_accountId socket) account_id)
                        sockets) as [found|] eqn:Hfind.
    + pose proof (find_some _ _ Hfind) as [Hfound Hmatch].
      exists found. split; [by apply list_elem_of_In|]. split; [done|].
      destruct fs as [|[] [|[] fs]]; simpl in *; try done;
        fold account_id; rewrite Hfind; done.
    + apply list_elem_of_In in Hin.
      pose proof (find_none _ _ Hfind socket Hin) as Hno. simpl in Hno. congruence.
  - intros [->|(sockets & -> & Hcalm & Hnone)]; [done|]. simpl.
    assert (List.find (fun socket => strict_eq (socket_accountId socket) account_id)
                      sockets = None) as Hfind.
    { destruct (List.find _ sockets) as [found|] eqn:Hfind; [|done].
      apply find_some in Hfind as [Hfound Hmatch].
      apply list_elem_of_In in Hfound. rewrite (Hnone found Hfound) in Hmatch. done. }
    destruct fs as [|[] [|[] fs]]; simpl in *; try done;
      fold account_id; rewrite Hfind; done.
Qed.

Lemma notifyShowDataLoaded_at_most_once_witness :
  let sockets := [mkSocket 501 (JNum 41); mkSocket 502 (JNum 40);
                  mkSocket 503 (JNum 40)] in
  let w := mkWorld Example.favorited_show_db None [] 0 ∅ (Some sockets) [] [] [] in
  w_io w = Some sockets /\ calm w /\
  (exists socket, socket ∈ sockets /\
     strict_eq (socket_accountId socket)
               (Account_findAccountIdByProfileId Example.env (w_db w) "1") = true) /\
  exists socket,
    socket ∈ sockets /\
    w_emitted (ShowService.notifyShowDataLoaded Example.env "1" 7 w).1
    = [mkEmitted (socket_id socket) "updateShowFavorite"
                 "Show data has been fully loaded" (Example.view 7 NOT_WATCHED)].
Proof.
  intros sockets w.
  assert (exists socket, socket ∈ sockets /\
     strict_eq (socket_accountId socket)
               (Account_findAccountIdByProfileId Example.env (w_db w) "1") = true)
    as Hsome.
  { exists (mkSocket 502 (JNum 40)). split; [|reflexivity]. right. left. }
  split; [reflexivity|]. split; [reflexivity|]. split; [exact Hsome|].
  destruct (notifyShowDataLoaded_at_most_once Example.env w "1" 7)
    as (_ & Hdeliver & _).
  destruct (Hdeliver sockets eq_refl eq_refl Hsome) as (socket & Hin & _ & Hem).
  exists socket. split; [exact Hin|]. exact Hem.
Defined.

(** ** The loader when nothing is rejected *)

Lemma calm_set_db (w : World) (d : DB) : calm w -> calm (set_db w d).
Proof. done. Qed.

Lemma load_episode_calm (showId : Z) (season : SeasonRow) (profileId : string)
    (re : TmdbEpisode) (w : World) :
  calm w ->
  exists w',
    ShowService.load_episode showId season profileId re w = (w', Returned tt) /\
    calm w' /\
    w_db w' = persist_episode showId (season_id season) (Number profileId) (w_db w) re /\
    same_surroundings w w' /\ w_now w' = w_now w.
Proof.
  intros Hc.
  unfold ShowService.load_episode, episodesDb.saveEpisode, episodesDb.saveFavorite,
    Episode.save, Episode.saveFavorite, bind.
  rewrite execute_calm by done. cbn [fst snd]. unfold ret at 1. cbn beta iota.
  rewrite execute_calm by (by apply calm_set_db, calm_tail). cbn [fst snd].
  eexists. split; [reflexivity|].
  split; [by apply calm_set_db, calm_tail, calm_set_db, calm_tail|].
  done.
Qed.

Lemma load_episodes_calm (showId : Z) (season : SeasonRow) (profileId : string)
    (res : list TmdbEpisode) (w : World) :
  calm w ->
  exists w',
    ShowService.for_of res (ShowService.load_episode showId season profileId) w
    = (w', Returned tt) /\
    calm w' /\
    w_db w' = foldl (persist_episode showId (season_id season) (Number profileId))
                    (w_db w) res /\
    same_surroundings w w' /\ w_now w' = w_now w.
Proof.
  revert w. induction res as [|re res IH]; intros w Hc.
  - exists w. done.
  - destruct (load_episode_calm showId season profileId re w Hc)
      as (w1 & Hrun & Hc1 & Hdb1 & Hs1 & Hn1).
    destruct (IH w1 Hc1) as (w2 & Hrun2 & Hc2 & Hdb2 & Hs2 & Hn2).
    exists w2. simpl. unfold bind. rewrite Hrun, Hrun2.
    split; [done|]. split; [done|]. split; [by rewrite Hdb2, Hdb1|].
    unfold same_surroundings in *. intuition congruence.
Qed.

Lemma load_season_calm (env : Env) (show : TmdbShow) (showId : Z)
    (profileId : string) (rs : TmdbSeason) (w : World) :
  calm w ->
  exists w',
    ShowService.load_season env show showId profileId rs w = (w', Returned tt) /\
    calm w' /\
    w_db w' = persist_season env show showId (Number profileId) (w_db w) rs /\
    same_surroundings w w'.
Proof.
  intros Hc. unfold ShowService.load_season, bind.
  rewrite io_calm by done. cbn beta iota.
  unfold Season.save, Season.saveFavorite, try_catch, bind.
  rewrite execute_calm by (by apply calm_tail). cbn [fst snd].
  unfold ret at 1. cbn beta iota.
  rewrite execute_calm by (by apply calm_set_db, calm_tail, calm_tail).
  cbn [fst snd].
  match goal with |- context [ShowService.for_of ?res (ShowService.load_episode ?a ?b ?c) ?w0] =>
    destruct (load_episodes_calm a b c res w0) as (w1 & Hrun & Hc1 & Hdb1 & Hs1 & Hn1)
  end.
  { by apply calm_set_db, calm_tail, calm_set_db, calm_tail, calm_tail. }
  rewrite Hrun. unfold ShowService.sleep. eexists. split; [reflexivity|].
  split; [done|]. split; [|unfold same_surroundings in *; simpl in *; intuition congruence].
  simpl. rewrite Hdb1. done.
Qed.

Lemma load_seasons_calm (env : Env) (show : TmdbShow) (showId : Z)
    (profileId : string) (vs : list TmdbSeason) (w : World) :
  calm w ->
  exists w',
    ShowService.for_of vs (ShowService.load_season env show showId profileId) w
    = (w', Returned tt) /\
    calm w' /\
    w_db w' = foldl (persist_season env show showId (Number profileId)) (w_db w) vs /\
    same_surroundings w w'.
Proof.
  revert w. induction vs as [|rs vs IH]; intros w Hc.
  - exists w. done.
  - destruct (load_season_calm env show showId profileId rs w Hc)
      as (w1 & Hrun & Hc1 & Hdb1 & Hs1).
    destruct (IH w1 Hc1) as (w2 & Hrun2 & Hc2 & Hdb2 & Hs2).
    exists w2. simpl. unfold bind. rewrite Hrun, Hrun2.
    split; [done|]. split; [done|]. split; [by rewrite Hdb2, Hdb1|].
    unfold same_surroundings in *. intuition congruence.
Qed.

(** ** What a load writes, as a function of the provider's answer *)

Lemma favorited_insert (profileId contentId : Z) (t : list StatusRow) :
  favorited profileId contentId (sql_insert_ignore_status profileId contentId t).
Proof.
  unfold favorited, sql_insert_ignore_status.
  destruct (existsb _ t) eqn:He; [done|].
  rewrite existsb_app. simpl. unfold status_key_matches at 2. simpl.
  rewrite !Z.eqb_refl. by rewrite orb_true_r.
Qed.

Lemma insert_ignore_prefix (profileId contentId : Z) (t : list StatusRow) :
  t `prefix_of` sql_insert_ignore_status profileId contentId t.
Proof.
  unfold sql_insert_ignore_status. destruct (existsb _ t); [done|].
  by apply prefix_app_r.
Qed.

Lemma favorited_prefix (profileId contentId : Z) (t t' : list StatusRow) :
  t `prefix_of` t' -> favorited profileId contentId t ->
  favorited profileId contentId t'.
Proof.
  intros [k ->] H. unfold favorited in *. rewrite existsb_app, H. done.
Qed.

Lemma persist_episodes_spec (showId seasonId profileId : Z)
    (res : list TmdbEpisode) (d : DB) :
  let d' := foldl (persist_episode showId seasonId profileId) d res in
  exists block,
    Forall2 (fun re e => e = episode_row showId seasonId re (episode_id e)) res block /\
    episodes d' = episodes d ++ block /\
    seasons d' = seasons d /\
    season_watch_status d' = season_watch_status d /\
    seasons_auto_increment d' = seasons_auto_increment d /\
    shows d' = shows d /\ show_watch_status d' = show_watch_status d /\
    profiles d' = profiles d /\
    episode_watch_status d `prefix_of` episode_watch_status d' /\
    Forall (fun e => favorited profileId (episode_id e) (episode_watch_status d')) block.
Proof.
  revert d. induction res as [|re res IH]; intros d; simpl.
  - exists []. rewrite app_nil_r. repeat split; try done; constructor.
  - destruct (IH (persist_episode showId seasonId profileId d re))
      as (block & Hrows & Hep & Hs & Hsw & Hinc & Hsh & Hshw & Hp & Hpre & Hfav).
    exists (episode_row showId seasonId re (episodes_auto_increment d) :: block).
    split; [by constructor|].
    split; [rewrite Hep; simpl; by rewrite <- app_assoc|].
    repeat (split; [by first [rewrite Hs | rewrite Hsw | rewrite Hinc
                              | rewrite Hsh | rewrite Hshw | rewrite Hp]|]).
    split.
    + etrans; [|exact Hpre]. simpl. apply insert_ignore_prefix.
    + constructor; [|done]. eapply favorited_prefix; [exact Hpre|].
      simpl. apply favorited_insert.
Qed.

Lemma persist_seasons_spec (env : Env) (show : TmdbShow) (showId profileId : Z)
    (vs : list TmdbSeason) (d : DB) :
  let d' := foldl (persist_season env show showId profileId) d vs in
  exists loaded,
    Forall2 (loaded_as env show showId) vs loaded /\
    seasons d' = seasons d ++ loaded.*1 /\
    episodes d' = episodes d ++ concat loaded.*2 /\
    shows d' = shows d /\ show_watch_status d' = show_watch_status d /\
    profiles d' = profiles d /\
    season_watch_status d `prefix_of` season_watch_status d' /\
    episode_watch_status d `prefix_of` episode_watch_status d' /\
    Forall (fun entry =>
              favorited profileId (season_id entry.1) (season_watch_status d') /\
              Forall (fun e => favorited profileId (episode_id e)
                                         (episode_watch_status d')) entry.2)
           loaded.
Proof.
  revert d. induction vs as [|rs vs IH]; intros d; simpl.
  - exists []. simpl. rewrite !app_nil_r. repeat split; try done; constructor.
  - set (d1 := persist_season env show showId profileId d rs).
    destruct (IH d1)
      as (loaded & Hrows & Hse & Hep & Hsh & Hshw & Hp & Hsws & Hews & Hfav).
    unfold persist_season in d1.
    set (id := seasons_auto_increment d) in *.
    destruct (persist_episodes_spec showId id profileId (provider_episodes env show rs)
      (with_season_watch_status
         (with_seasons d (seasons d ++ [season_row showId rs id]) (id + 1)%Z)
         (sql_insert_ignore_status profileId id
            (season_watch_status
               (with_seasons d (seasons d ++ [season_row showId rs id]) (id + 1)%Z)))))
      as (block & Hb & Hbe & Hbs & Hbsw & _ & Hbsh & Hbshw & Hbp & Hbpre & Hbfav).
    fold d1 in Hbe, Hbs, Hbsw, Hbsh, Hbshw, Hbp, Hbpre, Hbfav.
    simpl in Hbe, Hbs, Hbsw, Hbsh, Hbshw, Hbp, Hbpre.
    exists ((season_row showId rs id, block) :: loaded).
    split; [constructor; [done|done]|].
    split; [rewrite Hse, Hbs; simpl; by rewrite <- app_assoc|].
    split; [rewrite Hep, Hbe; simpl; by rewrite <- !app_assoc|].
    split; [by rewrite Hsh|]. split; [by rewrite Hshw|]. split; [by rewrite Hp|].
    split; [etrans; [|exact Hsws]; rewrite Hbsw; apply insert_ignore_prefix|].
    split; [etrans; [|exact Hews]; exact Hbpre|].
    constructor; [|done]. simpl. split.
    + eapply favorited_prefix; [exact Hsws|]. rewrite Hbsw. apply favorited_insert.
    + eapply Forall_impl; [exact Hbfav|]. intros e He.
      eapply favorited_prefix; [exact Hews|exact He].
Qed.

(** ** Relations kept by every step *)

Section Stepwise.

Context (R : World -> World -> Prop).
Hypothesis R_refl : forall w, R w w.
Hypothesis R_trans : forall a b c, R a b -> R b c -> R a c.
Hypothesis R_faults : forall w fs, R w (set_faults w fs).

Lemma step_bind {A B} (m : M A) (k : A -> M B) (w : World) :
  R w (m w).1 ->
  (forall a w1, m w = (w1, Returned a) -> R w1 (k a w1).1) ->
  R w (bind m k w).1.
Proof.
  unfold bind. destruct (m w) as [w1 [a|e]]; simpl; intros H1 H2; [|done].
  eapply R_trans; [exact H1|]. by apply H2.
Qed.

Lemma step_try_catch {A} (body : M A) (handler : Error -> M A) (w : World) :
  R w (body w).1 ->
  (forall e w1, R w1 (handler e w1).1) ->
  R w (try_catch body handler w).1.
Proof.
  unfold try_catch. destruct (body w) as [w1 [a|e]]; simpl; intros H1 H2; [done|].
  eapply R_trans; [exact H1|]. apply H2.
Qed.

Lemma step_io {A} (act : World -> World * A) (w : World) :
  (forall w0, R w0 (act w0).1) ->
  R w (io act w).1.
Proof.
  intros Hact. unfold io.
  destruct (w_faults w) as [|[] rest]; simpl; try apply R_faults;
    (eapply R_trans; [apply R_faults|]);
    match goal with |- context [act ?w0] =>
      specialize (Hact w0); destruct (act w0); exact Hact end.
Qed.

Lemma step_for_of {A} (xs : list A) (body : A -> M unit) :
  (forall x w, x ∈ xs -> R w (body x w).1) ->
  forall w, R w (ShowService.for_of xs body w).1.
Proof.
  induction xs as [|x xs IH]; intros Hbody w; simpl; [apply R_refl|].
  apply step_bind; [apply Hbody; left|].
  intros _ w1 _. apply IH. intros y w2 Hy. apply Hbody. by right.
Qed.

End Stepwise.

(** ** The loader under any schedule *)

Lemma rows_kept_refl (d : DB) : rows_kept d d.
Proof. unfold rows_kept. repeat split; done. Qed.

Lemma rows_kept_trans (a b c : DB) : rows_kept a b -> rows_kept b c -> rows_kept a c.
Proof.
  unfold rows_kept.
  intros (H1 & H2 & H3 & H4 & H5 & H6 & H7) (G1 & G2 & G3 & G4 & G5 & G6 & G7).
  repeat split; try congruence; etrans; eauto.
Qed.

Lemma db_grows_refl (d : DB) : db_grows d d.
Proof. split; [apply rows_kept_refl|]. split; intros; by left. Qed.

Lemma db_grows_trans (a b c : DB) : db_grows a b -> db_grows b c -> db_grows a c.
Proof.
  intros (Hk1 & Hs1 & Hw1) (Hk2 & Hs2 & Hw2).
  split; [by eapply rows_kept_trans|]. split.
  - intros row Hrow. destruct (Hs2 row Hrow) as [Hin|]; [by apply Hs1|by right].
  - intros r Hr. destruct (Hw2 r Hr) as [Hin|]; [|by right].
    destruct (Hw1 r Hin) as [|(row & Hrow & Hid & Hpos)]; [by left|right].
    exists row. split; [|done].
    destruct Hk2 as (_ & _ & _ & Hpre & _). eapply elem_of_prefix; eauto.
Qed.

Lemma loader_step_refl (w : World) : loader_step w w.
Proof. split; [apply db_grows_refl|done]. Qed.

Lemma loader_step_trans (a b c : World) :
  loader_step a b -> loader_step b c -> loader_step a c.
Proof.
  intros (H1 & H2 & H3 & H4 & H5 & H6) (G1 & G2 & G3 & G4 & G5 & G6).
  split; [by eapply db_grows_trans|]. repeat split; congruence.
Qed.

Lemma loader_step_faults (w : World) (fs : list bool) :
  loader_step w (set_faults w fs).
Proof. split; [apply db_grows_refl|done]. Qed.

Lemma loader_step_bind {A B} (m : M A) (k : A -> M B) (w : World) :
  loader_step w (m w).1 ->
  (forall a w1, m w = (w1, Returned a) -> loader_step w1 (k a w1).1) ->
  loader_step w (bind m k w).1.
Proof. apply step_bind, loader_step_trans. Qed.

Lemma loader_step_rethrow {A} (body : M A) (w : World) :
  loader_step w (body w).1 ->
  loader_step w (try_catch body Season.rethrow_as_DatabaseError w).1.
Proof.
  intros H. apply step_try_catch; [apply loader_step_trans|exact H|].
  intros. apply loader_step_refl.
Qed.

Lemma loader_step_io {A} (act : World -> World * A) (w : World) :
  (forall w0, loader_step w0 (act w0).1) ->
  loader_step w (io act w).1.
Proof. apply step_io; [apply loader_step_trans|apply loader_step_faults]. Qed.

Lemma loader_step_execute {A} (stmt : DB -> DB * A) (w : World) :
  (forall d, db_grows d (stmt d).1) ->
  loader_step w (execute stmt w).1.
Proof.
  intros Hs. unfold execute. apply loader_step_io. intros w0.
  specialize (Hs (w_db w0)). destruct (stmt (w_db w0)). simpl in *. by split.
Qed.

Lemma loader_step_for_of {A} (xs : list A) (body : A -> M unit) :
  (forall x w, x ∈ xs -> loader_step w (body x w).1) ->
  forall w, loader_step w (ShowService.for_of xs body w).1.
Proof. apply step_for_of; [apply loader_step_refl|apply loader_step_trans]. Qed.

Lemma db_grows_episode_insert (d : DB) (row : EpisodeRow) (n : Z) :
  db_grows d (with_episodes d (episodes d ++ [row]) n).
Proof.
  split; [|split; intros; by left].
  unfold rows_kept. simpl. repeat split; try done. by apply prefix_app_r.
Qed.

Lemma db_grows_episode_favorite (d : DB) (profileId episodeId : Z) :
  db_grows d (with_episode_watch_status d
                (sql_insert_ignore_status profileId episodeId (episode_watch_status d))).
Proof.
  split; [|split; intros; by left].
  unfold rows_kept. simpl. repeat split; try done. apply insert_ignore_prefix.
Qed.

Lemma loader_step_load_episode (showId : Z) (season : SeasonRow)
    (profileId : string) (re : TmdbEpisode) (w : World) :
  loader_step w (ShowService.load_episode showId season profileId re w).1.
Proof.
  unfold ShowService.load_episode. apply loader_step_bind.
  - unfold episodesDb.saveEpisode, Episode.save. apply loader_step_bind.
    + apply loader_step_execute. intros d. apply db_grows_episode_insert.
    + intros. apply loader_step_refl.
  - intros episode w1 _. apply loader_step_execute. intros d.
    apply db_grows_episode_favorite.
Qed.

Lemma db_grows_season_insert (d : DB) (row : SeasonRow) (n : Z) :
  (0 < season_season_number row)%Z ->
  db_grows d (with_seasons d (seasons d ++ [row]) n).
Proof.
  intros Hpos. split; [|split].
  - unfold rows_kept. simpl. repeat split; try done. by apply prefix_app_r.
  - simpl. intros r [Hr|Hr%list_elem_of_singleton]%elem_of_app; [by left|].
    subst. by right.
  - simpl. intros; by left.
Qed.

Lemma db_grows_season_favorite (d : DB) (season : SeasonRow) (profileId : Z) :
  season ∈ seasons d -> (0 < season_season_number season)%Z ->
  db_grows d (with_season_watch_status d
                (sql_insert_ignore_status profileId (season_id season)
                   (season_watch_status d))).
Proof.
  intros Hin Hpos. split; [|split].
  - unfold rows_kept. simpl. repeat split; try done. apply insert_ignore_prefix.
  - simpl. intros; by left.
  - simpl. unfold sql_insert_ignore_status.
    destruct (existsb _ (season_watch_status d)); [intros; by left|].
    intros r [Hr|Hr%list_elem_of_singleton]%elem_of_app; [by left|].
    subst. right. exists season. done.
Qed.

(** What [save] hands on: the stored row, with the season number of the
    object it was called on. *)
Lemma Season_save_returns (this season : SeasonRow) (w w1 : World) :
  Season.save this w = (w1, Returned season) ->
  season ∈ seasons (w_db w1) /\
  season_season_number season = season_season_number this.
Proof.
  unfold Season.save, try_catch, bind, execute, io.
  destruct w as [d tx fs now c s em lg jobs]. simpl.
  destruct fs as [|[] fs]; simpl; try done;
    intros [= <- <-]; simpl; (split; [|done]);
    apply elem_of_app; right; by left.
Qed.

Lemma loader_step_load_season (env : Env) (show : TmdbShow) (showId : Z)
    (profileId : string) (rs : TmdbSeason) (w : World) :
  (0 < tmdb_season_season_number rs)%Z ->
  loader_step w (ShowService.load_season env show showId profileId rs w).1.
Proof.
  intros Hpos. unfold ShowService.load_season. apply loader_step_bind.
  { apply loader_step_io. intros. apply loader_step_refl. }
  intros responseData w1 _. apply loader_step_bind.
  { unfold Season.save. apply loader_step_rethrow, loader_step_bind.
    - apply loader_step_execute. intros d. by apply db_grows_season_insert.
    - intros. apply loader_step_refl. }
  intros season w2 Hsave. apply Season_save_returns in Hsave as [Hin Hnum].
  simpl in Hnum. apply loader_step_bind.
  { unfold Season.saveFavorite. apply loader_step_rethrow.
    unfold execute, io.
    assert (loader_step w2
              (set_db w2 (with_season_watch_status (w_db w2)
                 (sql_insert_ignore_status (Number profileId) (season_id season)
                    (season_watch_status (w_db w2)))))) as Hstep.
    { split; [|done]. apply db_grows_season_favorite; [done|lia]. }
    destruct w2 as [d tx fs now c s em lg jobs].
    destruct fs as [|[] fs]; simpl in *; try exact Hstep.
    split; [apply db_grows_refl|done]. }
  intros _ w3 _. apply loader_step_bind.
  { apply loader_step_for_of. intros re w4 _. apply loader_step_load_episode. }
  intros _ w4 _. unfold ShowService.sleep. simpl. split; [apply db_grows_refl|done].
Qed.

Lemma validSeasons_positive (show : TmdbShow) (rs : TmdbSeason) :
  rs ∈ ShowService.validSeasons show ->
  rs ∈ tmdb_show_seasons show /\ (0 < tmdb_season_season_number rs)%Z.
Proof.
  unfold ShowService.validSeasons. rewrite list_elem_of_In, filter_In.
  intros [Hin Hpos]. split; [by apply list_elem_of_In|lia].
Qed.

Lemma loader_step_loop (env : Env) (show : TmdbShow) (showId : Z)
    (profileId : string) (w : World) :
  loader_step w
    (ShowService.for_of (ShowService.validSeasons show)
       (ShowService.load_season env show showId profileId) w).1.
Proof.
  apply loader_step_for_of. intros rs w0 Hrs.
  apply loader_step_load_season. by apply validSeasons_positive in Hrs as [_ ?].
Qed.

(** ** The background load *)

(** How [fetchSeasonsAndEpisodes] ends, by how its loop ended: after a
    completed loop it is the notice, after a thrown error it is one log
    entry on the state in which the error was thrown. *)
Lemma fetchSeasonsAndEpisodes_unfold (env : Env) (show : TmdbShow) (showId : Z)
    (profileId : string) (w : World) :
  match ShowService.for_of (ShowService.validSeasons show)
          (ShowService.load_season env show showId profileId) w with
  | (s, Returned _) =>
      ShowService.fetchSeasonsAndEpisodes env show showId profileId w
      = ShowService.notifyShowDataLoaded env profileId showId s
  | (s, Thrown e) =>
      ShowService.fetchSeasonsAndEpisodes env show showId profileId w
      = (set_log s (w_log s ++ [("Error fetching seasons and episodes:", e)]),
         Returned tt)
  end.
Proof.
  unfold ShowService.fetchSeasonsAndEpisodes, ShowService.fetch_body, try_catch, bind.
  destruct (ShowService.for_of _ _ w) as [s [[]|e]]; [|done].
  pose proof (notifyShowDataLoaded_frame env s profileId showId) as [Hr _].
  destruct (ShowService.notifyShowDataLoaded env profileId showId s) as [s' r].
  simpl in Hr. by subst r.
Qed.

Lemma fetchSeasonsAndEpisodes_db (env : Env) (show : TmdbShow) (showId : Z)
    (profileId : string) (w : World) :
  w_db (ShowService.fetchSeasonsAndEpisodes env show showId profileId w).1
  = w_db (ShowService.for_of (ShowService.validSeasons show)
            (ShowService.load_season env show showId profileId) w).1.
Proof.
  pose proof (fetchSeasonsAndEpisodes_unfold env show showId profileId w) as H.
  destruct (ShowService.for_of _ _ w) as [s [[]|e]]; rewrite H; [|done].
  apply notifyShowDataLoaded_frame.
Qed.

(** C7. In a load, whatever is rejected on the way, every season row that
    is added has a season number greater than zero and every season
    association that is added belongs to such a stored season
    ([db_grows]): a season of the payload whose number is not positive is
    neither persisted nor favorited. When nothing is rejected, each season
    of the payload with a positive number, in the payload's order, has its
    row appended to [seasons], its episodes' rows appended to [episodes]
    in the provider's order under that season's id, and the season and
    each of its episodes has an association for the initiating profile. *)
Theorem fetchSeasonsAndEpisodes_loads_valid_seasons
    (env : Env) (show : TmdbShow) (showId : Z) (profileId : string) (w : World) :
  decimal_id profileId = true ->
  let after := ShowService.fetchSeasonsAndEpisodes env show showId profileId w in
  let wanted :=
    List.filter (fun season => (0 <? tmdb_season_season_number season)%Z)
                (tmdb_show_seasons show) in
  db_grows (w_db w) (w_db after.1) /\
  (calm w ->
   exists loaded,
     Forall2 (loaded_as env show showId) wanted loaded /\
     seasons (w_db after.1) = seasons (w_db w) ++ loaded.*1 /\
     episodes (w_db after.1) = episodes (w_db w) ++ concat loaded.*2 /\
     Forall (fun entry =>
               favorited (Number profileId) (season_id entry.1)
                         (season_watch_status (w_db after.1)) /\
               Forall (fun e => favorited (Number profileId) (episode_id e)
                                          (episode_watch_status (w_db after.1)))
                      entry.2)
            loaded).
Proof.
  intros _ after wanted. subst after. rewrite fetchSeasonsAndEpisodes_db. split.
  - apply loader_step_loop.
  - intros Hc.
    destruct (load_seasons_calm env show showId profileId
                (ShowService.validSeasons show) w Hc) as (w' & Hrun & _ & Hdb & _).
    rewrite Hrun. cbn [fst]. rewrite Hdb.
    destruct (persist_seasons_spec env show showId (Number profileId)
                (ShowService.validSeasons show) (w_db w))
      as (loaded & Hrows & Hse & Hep & _ & _ & _ & _ & _ & Hfav).
    exists loaded. done.
Qed.

Lemma fetchSeasonsAndEpisodes_loads_valid_seasons_witness :
  let w := Example.world Example.empty_db [] in
  let after := ShowService.fetchSeasonsAndEpisodes Example.env (Example.show 77) 1 "1" w in
  decimal_id "1" = true /\
  calm w /\
  exists loaded,
    Forall2 (loaded_as Example.env (Example.show 77) 1)
            [Example.season 901 1 "Season 1" 2; Example.season 902 2 "Season 2" 1]
            loaded /\
    seasons (w_db after.1) = loaded.*1 /\
    episodes (w_db after.1) = concat loaded.*2.
Proof.
  intros w after. split; [reflexivity|]. split; [reflexivity|].
  destruct (fetchSeasonsAndEpisodes_loads_valid_seasons
              Example.env (Example.show 77) 1 "1" w eq_refl) as [_ Hload].
  destruct (Hload eq_refl) as (loaded & Hrows & Hse & Hep & _).
  exists loaded. split; [exact Hrows|]. split; [exact Hse|exact Hep].
Defined.

(** A loop stops at the first body that throws, in the state that body
    left. *)
Lemma for_of_stops_at_throw {A} (body : A -> M unit) (failing : A)
    (before rest : list A) (w s1 s2 : World) (e : Error) :
  ShowService.for_of before body w = (s1, Returned tt) ->
  body failing s1 = (s2, Thrown e) ->
  ShowService.for_of (before ++ failing :: rest) body w = (s2, Thrown e).
Proof.
  revert w. induction before as [|x before IH]; intros w; simpl.
  - intros [= <-] Hf. unfold bind. by rewrite Hf.
  - unfold bind. destruct (body x w) as [w1 [[]|e1]]; [|done].
    intros H1 H2. by apply IH.
Qed.

(** [fetchSeasonsAndEpisodes] always resolves. If the loop completes the
    seasons [before] and the body throws on the next one, the call ends in
    the state that body left plus one log entry: the rows present when the
    load started and the rows of the seasons completed before are all still
    there, no further I/O is attempted, nothing is emitted and no job is
    started. *)
Lemma fetchSeasonsAndEpisodes_ends_where_thrown
    (env : Env) (show : TmdbShow) (showId : Z) (profileId : string) (w : World) :
  let after := ShowService.fetchSeasonsAndEpisodes env show showId profileId w in
  let body := ShowService.load_season env show showId profileId in
  after.2 = Returned tt /\
  (forall before failing rest s1 s2 e,
     ShowService.validSeasons show = before ++ failing :: rest ->
     ShowService.for_of before body w = (s1, Returned tt) ->
     body failing s1 = (s2, Thrown e) ->
     after.1 = set_log s2 (w_log w ++ [("Error fetching seasons and episodes:", e)]) /\
     rows_kept (w_db w) (w_db s1) /\
     rows_kept (w_db s1) (w_db after.1) /\
     w_faults after.1 = w_faults s2 /\
     w_emitted after.1 = w_emitted w /\
     w_jobs after.1 = w_jobs w).
Proof.
  intros after body. subst after body.
  pose proof (fetchSeasonsAndEpisodes_unfold env show showId profileId w) as Hend.
  split.
  - destruct (ShowService.for_of _ _ w) as [s [[]|e]]; rewrite Hend; [|done].
    apply notifyShowDataLoaded_frame.
  - intros before failing rest s1 s2 e Hsplit Hbefore Hfail.
    rewrite Hsplit in Hend.
    rewrite (for_of_stops_at_throw _ failing before rest w s1 s2 e
               Hbefore Hfail) in Hend.
    rewrite Hend. cbn [fst].
    assert (loader_step w s1) as (Hg1 & Hem1 & Hlog1 & Hjobs1 & _).
    { pose proof (loader_step_for_of before
                    (ShowService.load_season env show showId profileId)) as H.
      specialize (H (fun rs w0 Hrs => loader_step_load_season env show showId
        profileId rs w0 (proj2 (validSeasons_positive show rs
          ltac:(rewrite Hsplit; apply elem_of_app; by left))))).
      specialize (H w). by rewrite Hbefore in H. }
    assert (loader_step s1 s2) as (Hg2 & Hem2 & Hlog2 & Hjobs2 & _).
    { pose proof (loader_step_load_season env show showId profileId failing s1) as H.
      rewrite Hfail in H. apply H.
      apply (validSeasons_positive show). rewrite Hsplit.
      apply elem_of_app. right. left. }
    split; [by rewrite Hlog2, Hlog1|].
    split; [apply Hg1|]. split; [apply Hg2|]. simpl.
    split; [done|]. split; congruence.
Qed.


(** ** A load that is rejected on the way *)

Lemma load_episode_ok (showId : Z) (season : SeasonRow) (profileId : string)
    (re : TmdbEpisode) (w : World) (fs : list bool) :
  w_faults w = false :: false :: fs ->
  exists w',
    ShowService.load_episode showId season profileId re w = (w', Returned tt) /\
    w_faults w' = fs /\
    w_db w' = persist_episode showId (season_id season) (Number profileId) (w_db w) re /\
    same_surroundings w w'.
Proof.
  destruct w as [d tx fs0 now c s em lg jobs]. cbn [w_faults w_db]. intros ->.
  unfold ShowService.load_episode, episodesDb.saveEpisode, episodesDb.saveFavorite,
    Episode.save, Episode.saveFavorite, bind, execute, io, ret.
  cbn [w_faults w_db set_faults set_db tail fst snd].
  eexists. split; [reflexivity|]. done.
Qed.

Lemma load_episode_rejected_insert (showId : Z) (season : SeasonRow)
    (profileId : string) (re : TmdbEpisode) (w : World) (fs : list bool) :
  w_faults w = true :: fs ->
  exists w' e,
    ShowService.load_episode showId season profileId re w = (w', Thrown e) /\
    w_faults w' = fs /\ w_db w' = w_db w /\ same_surroundings w w'.
Proof.
  destruct w as [d tx fs0 now c s em lg jobs]. cbn [w_faults w_db]. intros ->.
  unfold ShowService.load_episode, episodesDb.saveEpisode, episodesDb.saveFavorite,
    Episode.save, Episode.saveFavorite, bind, execute, io, ret.
  cbn [w_faults w_db set_faults set_db tail fst snd].
  eexists _, _. split; [reflexivity|]. done.
Qed.

Lemma load_episode_rejected_favorite (showId : Z) (season : SeasonRow)
    (profileId : string) (re : TmdbEpisode) (w : World) (fs : list bool) :
  w_faults w = false :: true :: fs ->
  exists w' e,
    ShowService.load_episode showId season profileId re w = (w', Thrown e) /\
    w_faults w' = fs /\
    w_db w'
    = with_episodes (w_db w)
        (episodes (w_db w)
         ++ [episode_row showId (season_id season) re (episodes_auto_increment (w_db w))])
        (episodes_auto_increment (w_db w) + 1)%Z /\
    same_surroundings w w'.
Proof.
  destruct w as [d tx fs0 now c s em lg jobs]. cbn [w_faults w_db]. intros ->.
  unfold ShowService.load_episode, episodesDb.saveEpisode, episodesDb.saveFavorite,
    Episode.save, Episode.saveFavorite, bind, execute, io, ret.
  cbn [w_faults w_db set_faults set_db tail fst snd].
  eexists _, _. split; [reflexivity|]. done.
Qed.

Lemma same_surroundings_trans (a b c : World) :
  same_surroundings a b -> same_surroundings b c -> same_surroundings a c.
Proof. unfold same_surroundings. intuition congruence. Qed.

Lemma load_episodes_ok (showId : Z) (season : SeasonRow) (profileId : string)
    (res : list TmdbEpisode) (w : World) (fs : list bool) :
  w_faults w = replicate (2 * length res) false ++ fs ->
  exists w',
    ShowService.for_of res (ShowService.load_episode showId season profileId) w
    = (w', Returned tt) /\
    w_faults w' = fs /\
    w_db w' = foldl (persist_episode showId (season_id season) (Number profileId))
                    (w_db w) res /\
    same_surroundings w w'.
Proof.
  revert w. induction res as [|re res IH]; intros w Hf.
  - exists w. done.
  - replace (2 * length (re :: res))%nat with (S (S (2 * length res))) in Hf
      by (cbn [length]; lia).
    cbn [replicate app] in Hf.
    destruct (load_episode_ok showId season profileId re w _ Hf)
      as (w1 & Hrun1 & Hf1 & Hdb1 & Hs1).
    destruct (IH w1 Hf1) as (w2 & Hrun2 & Hf2 & Hdb2 & Hs2).
    exists w2. cbn [ShowService.for_of foldl]. unfold bind. rewrite Hrun1, Hrun2.
    split; [done|]. split; [done|]. split; [by rewrite Hdb2, Hdb1|].
    by eapply same_surroundings_trans.
Qed.

Lemma load_episodes_until (showId : Z) (season : SeasonRow) (profileId : string)
    (res : list TmdbEpisode) (m : nat) (w : World) (fs : list bool) :
  (m < 2 * length res)%nat ->
  w_faults w = replicate m false ++ true :: fs ->
  exists w' e,
    ShowService.for_of res (ShowService.load_episode showId season profileId) w
    = (w', Thrown e) /\
    w_faults w' = fs /\
    w_db w' = persist_episodes_until showId (season_id season) (Number profileId)
                                     (w_db w) res m /\
    same_surroundings w w'.
Proof.
  revert m w. induction res as [|re res IH]; intros m w Hm Hf; [cbn in Hm; lia|].
  destruct m as [|[|m]]; cbn [replicate app] in Hf.
  - destruct (load_episode_rejected_insert showId season profileId re w _ Hf)
      as (w1 & e & Hrun & Hf1 & Hdb1 & Hs1).
    exists w1, e. cbn [ShowService.for_of]. unfold bind. rewrite Hrun.
    split; [done|]. split; [done|]. split; [|done]. by rewrite Hdb1.
  - destruct (load_episode_rejected_favorite showId season profileId re w _ Hf)
      as (w1 & e & Hrun & Hf1 & Hdb1 & Hs1).
    exists w1, e. cbn [ShowService.for_of]. unfold bind. rewrite Hrun.
    split; [done|]. split; [done|]. split; [|done]. by rewrite Hdb1.
  - destruct (load_episode_ok showId season profileId re w _ Hf)
      as (w1 & Hrun1 & Hf1 & Hdb1 & Hs1).
    destruct (IH m w1 ltac:(cbn [length] in Hm; lia) Hf1)
      as (w2 & e & Hrun2 & Hf2 & Hdb2 & Hs2).
    exists w2, e. cbn [ShowService.for_of]. unfold bind. rewrite Hrun1, Hrun2.
    split; [done|]. split; [done|]. split; [|by eapply same_surroundings_trans].
    rewrite Hdb2, Hdb1. reflexivity.
Qed.

Lemma load_season_ok (env : Env) (show : TmdbShow) (showId : Z)
    (profileId : string) (rs : TmdbSeason) (w : World) (fs : list bool) :
  w_faults w = replicate (season_calls env show rs) false ++ fs ->
  exists w',
    ShowService.load_season env show showId profileId rs w = (w', Returned tt) /\
    w_faults w' = fs /\
    w_db w' = persist_season env show showId (Number profileId) (w_db w) rs /\
    same_surroundings w w'.
Proof.
  unfold season_calls. cbn [Nat.add replicate app].
  destruct w as [d tx fs0 now c s em lg jobs]. cbn [w_faults w_db]. intros ->.
  unfold ShowService.load_season, bind, io, Season.save, Season.saveFavorite,
    try_catch, bind, execute, io, ret.
  cbn [w_faults w_db set_faults set_db tail fst snd].
  match goal with
  | |- context [ShowService.for_of ?res (ShowService.load_episode ?a ?b ?c) ?w0] =>
      destruct (load_episodes_ok a b c res w0 fs) as (w1 & Hrun & Hf1 & Hdb1 & Hs1)
  end.
  { reflexivity. }
  rewrite Hrun. unfold ShowService.sleep. eexists. split; [reflexivity|].
  split; [by destruct w1|]. split.
  - destruct w1. cbn [w_db set_now] in *. rewrite Hdb1. reflexivity.
  - destruct w1. unfold same_surroundings in *. cbn in *. done.
Qed.

Lemma load_season_until (env : Env) (show : TmdbShow) (showId : Z)
    (profileId : string) (rs : TmdbSeason) (n : nat) (w : World) (fs : list bool) :
  (n < season_calls env show rs)%nat ->
  w_faults w = replicate n false ++ true :: fs ->
  exists w' e,
    ShowService.load_season env show showId profileId rs w = (w', Thrown e) /\
    w_faults w' = fs /\
    w_db w' = persist_season_until env show showId (Number profileId) (w_db w) rs n /\
    same_surroundings w w'.
Proof.
  unfold season_calls. intros Hn.
  destruct w as [d tx fs0 now c s em lg jobs]. cbn [w_faults w_db].
  destruct n as [|[|[|m]]]; cbn [replicate app]; intros ->;
    unfold ShowService.load_season, bind, io, Season.save, Season.saveFavorite,
      try_catch, bind, execute, io, ret, Season.rethrow_as_DatabaseError, throw;
    cbn [w_faults w_db set_faults set_db tail fst snd].
  - eexists _, _. split; [reflexivity|]. done.
  - eexists _, _. split; [reflexivity|]. done.
  - eexists _, _. split; [reflexivity|]. done.
  - match goal with
    | |- context [ShowService.for_of ?res (ShowService.load_episode ?a ?b ?c) ?w0] =>
        destruct (load_episodes_until a b c res m w0 fs)
          as (w1 & e & Hrun & Hf1 & Hdb1 & Hs1)
    end.
    { unfold provider_episodes in Hn. lia. }
    { reflexivity. }
    rewrite Hrun. exists w1, e. split; [reflexivity|]. split; [done|].
    split; [rewrite Hdb1; reflexivity|]. done.
Qed.

Lemma load_seasons_ok (env : Env) (show : TmdbShow) (showId : Z)
    (profileId : string) (vs : list TmdbSeason) (w : World) (fs : list bool) :
  w_faults w = replicate (sum_list (season_calls env show <$> vs)) false ++ fs ->
  exists w',
    ShowService.for_of vs (ShowService.load_season env show showId profileId) w
    = (w', Returned tt) /\
    w_faults w' = fs /\
    w_db w' = foldl (persist_season env show showId (Number profileId)) (w_db w) vs /\
    same_surroundings w w'.
Proof.
  revert w. induction vs as [|rs vs IH]; intros w Hf.
  - exists w. done.
  - cbn [fmap list_fmap sum_list sum_list_with] in Hf.
    rewrite replicate_add, <- app_assoc in Hf.
    destruct (load_season_ok env show showId profileId rs w _ Hf)
      as (w1 & Hrun1 & Hf1 & Hdb1 & Hs1).
    destruct (IH w1 Hf1) as (w2 & Hrun2 & Hf2 & Hdb2 & Hs2).
    exists w2. cbn [ShowService.for_of foldl]. unfold bind. rewrite Hrun1, Hrun2.
    split; [done|]. split; [done|]. split; [by rewrite Hdb2, Hdb1|].
    by eapply same_surroundings_trans.
Qed.

(** C8. [fetchSeasonsAndEpisodes] always resolves, whatever is rejected. When
    the calls of the seasons [before] and the first [n] calls of the next
    season go through and the call after them is rejected, the load ends
    there: the rows are those of the seasons [before], loaded in full, and
    of exactly what the [n] calls of the failing season had written (its
    row, its association, its episodes so far), none of them undone and
    every row from before the load in place; no further call is made, one
    entry is logged, nothing is emitted and no load is started. The same
    holds in the general form: if the body throws on a season, the call
    ends in the state that body left plus the log entry. *)
Theorem fetchSeasonsAndEpisodes_stops_on_error
    (env : Env) (show : TmdbShow) (showId : Z) (profileId : string) (w : World) :
  decimal_id profileId = true ->
  let after := ShowService.fetchSeasonsAndEpisodes env show showId profileId w in
  let body := ShowService.load_season env show showId profileId in
  after.2 = Returned tt /\
  (forall before failing later n rest,
     ShowService.validSeasons show = before ++ failing :: later ->
     (n < season_calls env show failing)%nat ->
     w_faults w
     = replicate (sum_list (season_calls env show <$> before) + n) false
       ++ true :: rest ->
     let reached :=
       foldl (persist_season env show showId (Number profileId)) (w_db w) before in
     w_db after.1
     = persist_season_until env show showId (Number profileId) reached failing n /\
     rows_kept (w_db w) reached /\
     rows_kept reached (w_db after.1) /\
     w_faults after.1 = rest /\
     (exists e, w_log after.1
                = w_log w ++ [("Error fetching seasons and episodes:", e)]) /\
     w_emitted after.1 = w_emitted w /\
     w_jobs after.1 = w_jobs w) /\
  (forall before failing rest s1 s2 e,
     ShowService.validSeasons show = before ++ failing :: rest ->
     ShowService.for_of before body w = (s1, Returned tt) ->
     body failing s1 = (s2, Thrown e) ->
     after.1 = set_log s2 (w_log w ++ [("Error fetching seasons and episodes:", e)]) /\
     rows_kept (w_db w) (w_db s1) /\
     rows_kept (w_db s1) (w_db after.1) /\
     w_faults after.1 = w_faults s2 /\
     w_emitted after.1 = w_emitted w /\
     w_jobs after.1 = w_jobs w).
Proof.
  intros _ after body.
  destruct (fetchSeasonsAndEpisodes_ends_where_thrown env show showId profileId w)
    as [Hresolves Hends].
  fold after in Hresolves, Hends. fold body in Hends.
  split; [exact Hresolves|]. split; [|exact Hends].
  intros before failing later n rest Hsplit Hn Hf reached.
  rewrite replicate_add, <- app_assoc in Hf.
  destruct (load_seasons_ok env show showId profileId before w _ Hf)
    as (s1 & Hrun1 & Hf1 & Hdb1 & Hs1).
  destruct (load_season_until env show showId profileId failing n s1 rest Hn Hf1)
    as (s2 & e & Hrun2 & Hf2 & Hdb2 & Hs2).
  destruct (Hends before failing later s1 s2 e Hsplit Hrun1 Hrun2)
    as (Hafter & Hkept1 & Hkept2 & Hfaults & Hemitted & Hjobs).
  fold reached in Hdb1. rewrite Hdb1 in Hkept1, Hkept2, Hdb2.
  split; [rewrite Hafter; by destruct s2|].
  split; [exact Hkept1|]. split; [exact Hkept2|].
  split; [by rewrite Hfaults|].
  split; [exists e; rewrite Hafter; by destruct s2|].
  split; [exact Hemitted|exact Hjobs].
Qed.

Lemma fetchSeasonsAndEpisodes_stops_on_error_witness :
  let S1 := Example.season 901 1 "Season 1" 2 in
  let S2 := Example.season 902 2 "Season 2" 1 in
  let w := Example.world Example.empty_db (replicate 11 false ++ [true; false]) in
  let after :=
    ShowService.fetchSeasonsAndEpisodes Example.env (Example.show 77) 1 "1" w in
  decimal_id "1" = true /\
  ShowService.validSeasons (Example.show 77) = [S1] ++ S2 :: [] /\
  season_calls Example.env (Example.show 77) S1 = 7%nat /\
  (4 < season_calls Example.env (Example.show 77) S2)%nat /\
  after.2 = Returned tt /\
  season_tmdb_id <$> seasons (w_db after.1) = [901; 902]%Z /\
  episode_tmdb_id <$> episodes (w_db after.1) = [101; 102; 103]%Z /\
  status_key <$> season_watch_status (w_db after.1) = [(1, 1); (1, 2)]%Z /\
  status_key <$> episode_watch_status (w_db after.1) = [(1, 1); (1, 2)]%Z /\
  w_faults after.1 = [false] /\
  w_emitted after.1 = [].
Proof.
  intros S1 S2 w after.
  assert (Hid : decimal_id "1" = true) by reflexivity.
  assert (Hsplit : ShowService.validSeasons (Example.show 77) = [S1] ++ S2 :: [])
    by reflexivity.
  assert (Hn : (4 < season_calls Example.env (Example.show 77) S2)%nat)
    by (vm_compute; lia).
  destruct (fetchSeasonsAndEpisodes_stops_on_error
              Example.env (Example.show 77) 1 "1" w Hid) as (Hresolves & Hstop & _).
  destruct (Hstop [S1] S2 [] 4%nat [false] Hsplit Hn eq_refl)
    as (Hdb & _ & _ & Hfaults & _ & Hemitted & _).
  split; [exact Hid|]. split; [exact Hsplit|]. split; [reflexivity|].
  split; [exact Hn|]. split; [exact Hresolves|].
  subst after. rewrite Hdb.
  split; [reflexivity|]. split; [reflexivity|]. split; [reflexivity|].
  split; [reflexivity|]. split; [exact Hfaults|exact Hemitted].
Defined.

(** The example load, spelled out: the specials are skipped, the two
    regular seasons and their three episodes are stored in order. *)
Example example_load_rows :
  let after :=
    ShowService.fetchSeasonsAndEpisodes Example.env (Example.show 77) 1 "1"
      (Example.world Example.empty_db []) in
  season_tmdb_id <$> seasons (w_db after.1) = [901; 902]%Z /\
  episode_tmdb_id <$> episodes (w_db after.1) = [101; 102; 103]%Z /\
  episode_season_id <$> episodes (w_db after.1) = [1; 1; 2]%Z /\
  status_key <$> season_watch_status (w_db after.1) = [(1, 1); (1, 2)]%Z /\
  status_key <$> episode_watch_status (w_db after.1) = [(1, 1); (1, 2); (1, 3)]%Z.
Proof. by vm_compute. Qed.

(** The same load with the provider rejecting the request for the second
    season: the first season and its episodes stay stored. *)
Example example_load_interrupted :
  let after :=
    ShowService.fetchSeasonsAndEpisodes Example.env (Example.show 77) 1 "1"
      (Example.world Example.empty_db
         [false; false; false; false; false; false; false; true]) in
  after.2 = Returned tt /\
  season_tmdb_id <$> seasons (w_db after.1) = [901]%Z /\
  episode_tmdb_id <$> episodes (w_db after.1) = [101; 102]%Z /\
  w_log after.1 = [("Error fetching seasons and episodes:", IOError "rejected")] /\
  w_emitted after.1 = [].
Proof. by vm_compute. Qed.

(** ** Favoriting a show that is already stored *)

Lemma insert_ignore_no_duplicate (profileId contentId : Z) (t : list StatusRow) :
  no_duplicate_keys t ->
  no_duplicate_keys (sql_insert_ignore_status profileId contentId t).
Proof.
  unfold no_duplicate_keys, sql_insert_ignore_status. intros Hnd.
  destruct (existsb _ t) eqn:He; [done|].
  rewrite fmap_app. apply NoDup_app. split; [done|]. split; [|apply NoDup_singleton].
  intros key Hkey Hnew. apply list_elem_of_singleton in Hnew. subst key.
  apply list_elem_of_fmap in Hkey as (r & Hr & Hin).
  assert (existsb (status_key_matches profileId contentId) t = true) as Hyes; [|congruence].
  apply existsb_exists. exists r. split; [by apply list_elem_of_In|].
  unfold status_key in Hr. injection Hr as H1 H2.
  unfold status_key_matches. rewrite <- H1, <- H2, !Z.eqb_refl. done.
Qed.

Lemma favorite_rows_no_duplicate (profileId : Z) (ids : list Z) (t : list StatusRow) :
  no_duplicate_keys t -> no_duplicate_keys (Show.favorite_rows profileId ids t).
Proof.
  unfold Show.favorite_rows. revert t.
  induction ids as [|id ids IH]; intros t Hnd; simpl; [done|].
  by apply IH, insert_ignore_no_duplicate.
Qed.

Lemma keys_stay_unique_refl (d : DB) : keys_stay_unique d d.
Proof. unfold keys_stay_unique. done. Qed.

Lemma keys_stay_unique_trans (a b c : DB) :
  keys_stay_unique a b -> keys_stay_unique b c -> keys_stay_unique a c.
Proof. unfold keys_stay_unique. intros (H1 & H2 & H3) (G1 & G2 & G3). auto. Qed.

Lemma keys_stay_unique_save_favorite (this : ShowRow) (profileId : string)
    (saveChildren : bool) (d : DB) :
  keys_stay_unique d (Show.save_favorite this profileId saveChildren d).
Proof.
  unfold keys_stay_unique, Show.save_favorite.
  destruct saveChildren; simpl; repeat split; try done;
    intros Hnd; try by apply insert_ignore_no_duplicate.
  all: by apply favorite_rows_no_duplicate.
Qed.

Lemma attaches_only_refl (w : World) : attaches_only w w.
Proof. unfold attaches_only. repeat split; try done. Qed.

Lemma attaches_only_trans (a b c : World) :
  attaches_only a b -> attaches_only b c -> attaches_only a c.
Proof.
  unfold attaches_only.
  intros (H1 & H2 & H3 & H4 & H5) (G1 & G2 & G3 & G4 & G5).
  split; [congruence|]. split; [congruence|]. split; [congruence|].
  split; [by eapply keys_stay_unique_trans|congruence].
Qed.

Lemma attaches_only_same_db (w w' : World) :
  w_db w' = w_db w -> w_jobs w' = w_jobs w -> attaches_only w w'.
Proof.
  unfold attaches_only. intros -> ->. repeat split; try done.
Qed.

Lemma attaches_only_query {A} (q : DB -> A) (w : World) :
  attaches_only w (query q w).1.
Proof.
  unfold query, execute.
  apply step_io; [apply attaches_only_trans|by intros; apply attaches_only_same_db|].
  intros w0. by apply attaches_only_same_db.
Qed.

Lemma attaches_only_saveFavorite (this : ShowRow) (profileId : string)
    (saveChildren : bool) (w : World) :
  attaches_only w (Show.saveFavorite this profileId saveChildren w).1.
Proof.
  unfold Show.saveFavorite, execute.
  apply step_io; [apply attaches_only_trans|by intros; apply attaches_only_same_db|].
  intros w0. simpl. unfold attaches_only. simpl.
  split; [by destruct saveChildren|]. split; [by destruct saveChildren|].
  split; [by destruct saveChildren|]. split; [|done].
  apply keys_stay_unique_save_favorite.
Qed.

Lemma attaches_only_getOrSet (key : string) (producer : M Json) (ttl : Z)
    (w : World) :
  (forall w0, attaches_only w0 (producer w0).1) ->
  attaches_only w (CacheService.getOrSet key producer ttl w).1.
Proof.
  intros Hp. unfold CacheService.getOrSet.
  assert (attaches_only w
    (bind producer (fun value w1 =>
       (set_cache w1 (<[key := mkCacheEntry value (w_now w1 + 1000 * ttl)%Z]>
                        (w_cache w1)), Returned value)) w).1) as Hmiss.
  { apply step_bind; [apply attaches_only_trans|apply Hp|].
    intros. by apply attaches_only_same_db. }
  destruct (w_cache w !! key) as [entry|]; [|exact Hmiss].
  destruct (w_now w <? entry_expires entry)%Z; [apply attaches_only_refl|exact Hmiss].
Qed.

Lemma attaches_only_getEpisodesForProfile (env : Env) (profileId : string)
    (w : World) :
  attaches_only w (ShowService.getEpisodesForProfile env profileId w).1.
Proof.
  unfold ShowService.getEpisodesForProfile, ShowService.handled.
  apply step_try_catch; [apply attaches_only_trans| |intros; apply attaches_only_refl].
  apply attaches_only_getOrSet. intros w0.
  repeat (apply step_bind;
          [apply attaches_only_trans|apply attaches_only_query|intros]).
  apply attaches_only_refl.
Qed.

Lemma query_returns {A} (q : DB -> A) (w w1 : World) (a : A) :
  query q w = (w1, Returned a) -> a = q (w_db w) /\ w_db w1 = w_db w.
Proof.
  unfold query, execute, io. destruct w as [d tx fs now c s em lg jobs]. simpl.
  destruct fs as [|[] fs]; simpl; try done; by intros [= <- <-].
Qed.

(** When the show is already stored, favoriting it adds no show, season or
    episode row, creates no duplicate association and starts no load,
    whatever is rejected on the way. *)
Lemma addShowToFavorites_existing (env : Env) (w : World) (profileId : string)
    (showId : Z) (existing : ShowRow) :
  Show.find_by_tmdb_id (w_db w) showId = Some existing ->
  attaches_only w (ShowService.addShowToFavorites env profileId showId w).1.
Proof.
  intros Hfound. unfold ShowService.addShowToFavorites, ShowService.handled.
  apply step_try_catch; [apply attaches_only_trans| |intros; apply attaches_only_refl].
  apply step_bind; [apply attaches_only_trans|apply attaches_only_query|].
  intros found w1 Hq. apply query_returns in Hq as [-> Hdb]. rewrite Hfound.
  unfold ShowService.favoriteExistingShow.
  apply step_bind; [apply attaches_only_trans|apply attaches_only_saveFavorite|].
  intros _ w2 _.
  apply step_bind; [apply attaches_only_trans|by apply attaches_only_same_db|].
  intros _ w3 _.
  apply step_bind; [apply attaches_only_trans|apply attaches_only_query|].
  intros show w4 _.
  apply step_bind;
    [apply attaches_only_trans|apply attaches_only_getEpisodesForProfile|].
  intros. apply attaches_only_refl.
Qed.

Lemma find_by_tmdb_id_new (d : DB) (row : ShowRow) (n : Z) :
  Show.find_by_tmdb_id d (show_tmdb_id row) = None ->
  Show.find_by_tmdb_id (with_shows d (shows d ++ [row]) n) (show_tmdb_id row)
  = Some row.
Proof.
  unfold Show.find_by_tmdb_id. simpl.
  induction (shows d) as [|s l IH]; simpl.
  - by rewrite Z.eqb_refl.
  - destruct (show_tmdb_id s =? show_tmdb_id row)%Z; [done|apply IH].
Qed.

(** The first favorite of a show that is not stored yet, when nothing is
    rejected: the show is stored under the id the provider reports, and the
    load is started. *)
Lemma addShowToFavorites_new (env : Env) (w : World) (profileId : string)
    (showId : Z) :
  calm w ->
  Show.find_by_tmdb_id (w_db w) showId = None ->
  let response := tmdb_getShowDetails env showId in
  let id := shows_auto_increment (w_db w) in
  exists w1 view,
    ShowService.addShowToFavorites env profileId showId w = (w1, Returned view) /\
    shows (w_db w1)
    = shows (w_db w) ++ [mkShowRow id (tmdb_show_id response) (tmdb_show_name response)] /\
    w_jobs w1 = w_jobs w ++ [mkLoadJob response id profileId].
Proof.
  intros Hc Hnone response id.
  unfold ShowService.addShowToFavorites, ShowService.handled, try_catch, bind.
  unfold Show.findByTMDBId, query. rewrite execute_calm by done.
  cbn [fst snd]. rewrite Hnone.
  unfold ShowService.favoriteNewShow, bind.
  rewrite io_calm by (by apply calm_set_db, calm_tail). cbn beta iota.
  unfold Show.save, bind.
  rewrite execute_calm by (by apply calm_tail, calm_set_db, calm_tail).
  cbn [fst snd]. unfold ret at 1. cbn beta iota. cbn [negb].
  unfold Show.saveFavorite.
  rewrite execute_calm
    by (by apply calm_set_db, calm_tail, calm_tail, calm_set_db, calm_tail).
  cbn [fst snd]. unfold ShowService.invalidateProfileCache,
    CacheService.invalidatePattern. cbn beta iota.
  unfold query. rewrite execute_calm.
  2:{ unfold calm in *. simpl.
      destruct (w_faults w) as [|b1 [|b2 [|b3 [|b4 fs]]]]; simpl in *; try done;
        repeat match goal with H : _ && _ = true |- _ =>
          apply andb_prop in H as [? H] end; done. }
  cbn [fst snd]. unfold ret. cbn [fst snd].
  eexists _, _. split; [reflexivity|]. split; reflexivity.
Qed.

(** ** No operation of the favorite path duplicates an association *)

Lemma unique_step_trans (a b c : World) :
  keys_stay_unique (w_db a) (w_db b) -> keys_stay_unique (w_db b) (w_db c) ->
  keys_stay_unique (w_db a) (w_db c).
Proof. apply keys_stay_unique_trans. Qed.

Lemma unique_step_execute {A} (stmt : DB -> DB * A) (w : World) :
  (forall d, keys_stay_unique d (stmt d).1) ->
  keys_stay_unique (w_db w) (w_db (execute stmt w).1).
Proof.
  intros Hs. unfold execute.
  apply (step_io (fun a b => keys_stay_unique (w_db a) (w_db b)));
    [apply unique_step_trans|intros; apply keys_stay_unique_refl|].
  intros w0. specialize (Hs (w_db w0)). by destruct (stmt (w_db w0)).
Qed.

Lemma unique_step_load_season (env : Env) (show : TmdbShow) (showId : Z)
    (profileId : string) (rs : TmdbSeason) (w : World) :
  keys_stay_unique (w_db w)
    (w_db (ShowService.load_season env show showId profileId rs w).1).
Proof.
  set (R := fun a b : World => keys_stay_unique (w_db a) (w_db b)).
  assert (forall a, R a a) as Hrefl by (intros; apply keys_stay_unique_refl).
  assert (forall a fs, R a (set_faults a fs)) as Hfaults
    by (intros; apply keys_stay_unique_refl).
  change (R w (ShowService.load_season env show showId profileId rs w).1).
  unfold ShowService.load_season.
  apply step_bind; [apply unique_step_trans|by apply step_io; [apply unique_step_trans|..]|].
  intros responseData w1 _.
  apply step_bind; [apply unique_step_trans| |].
  { unfold Season.save. apply step_try_catch; [apply unique_step_trans| |by intros].
    apply step_bind; [apply unique_step_trans| |by intros].
    apply unique_step_execute. intros d. by unfold keys_stay_unique. }
  intros season w2 _.
  apply step_bind; [apply unique_step_trans| |].
  { unfold Season.saveFavorite. apply step_try_catch; [apply unique_step_trans| |by intros].
    apply unique_step_execute. intros d. unfold keys_stay_unique. simpl.
    split; [done|]. split; [apply insert_ignore_no_duplicate|done]. }
  intros _ w3 _.
  apply step_bind; [apply unique_step_trans| |by intros].
  apply step_for_of; [done|apply unique_step_trans|].
  intros re w4 _. unfold ShowService.load_episode.
  apply step_bind; [apply unique_step_trans| |].
  { unfold episodesDb.saveEpisode, Episode.save.
    apply step_bind; [apply unique_step_trans| |by intros].
    apply unique_step_execute. intros d. by unfold keys_stay_unique. }
  intros episode w5 _. apply unique_step_execute. intros d.
  unfold keys_stay_unique. simpl.
  split; [done|]. split; [done|apply insert_ignore_no_duplicate].
Qed.

Lemma unique_step_fetchSeasonsAndEpisodes (env : Env) (show : TmdbShow)
    (showId : Z) (profileId : string) (w : World) :
  keys_stay_unique (w_db w)
    (w_db (ShowService.fetchSeasonsAndEpisodes env show showId profileId w).1).
Proof.
  rewrite fetchSeasonsAndEpisodes_db.
  apply (step_for_of (fun a b => keys_stay_unique (w_db a) (w_db b)));
    [intros; apply keys_stay_unique_refl|apply unique_step_trans|].
  intros rs w0 _. apply unique_step_load_season.
Qed.

Lemma unique_step_addShowToFavorites (env : Env) (profileId : string)
    (showId : Z) (w : World) :
  keys_stay_unique (w_db w)
    (w_db (ShowService.addShowToFavorites env profileId showId w).1).
Proof.
  set (R := fun a b : World => keys_stay_unique (w_db a) (w_db b)).
  assert (forall a, R a a) as Hrefl by (intros; apply keys_stay_unique_refl).
  assert (forall a fs, R a (set_faults a fs)) as Hfaults
    by (intros; apply keys_stay_unique_refl).
  assert (forall A (q : DB -> A) a, R a (query q a).1) as Hquery.
  { intros A q a. unfold query. apply unique_step_execute. by intros. }
  assert (forall this p c a, R a (Show.saveFavorite this p c a).1) as Hfav.
  { intros. apply unique_step_execute. intros d.
    apply keys_stay_unique_save_favorite. }
  change (R w (ShowService.addShowToFavorites env profileId showId w).1).
  unfold ShowService.addShowToFavorites, ShowService.handled.
  apply step_try_catch; [apply unique_step_trans| |by intros].
  apply step_bind; [apply unique_step_trans|apply Hquery|].
  intros [existing|] w1 _.
  - unfold ShowService.favoriteExistingShow.
    apply step_bind; [apply unique_step_trans|apply Hfav|]. intros _ w2 _.
    apply step_bind; [apply unique_step_trans|exact (keys_stay_unique_refl _)|]. intros _ w3 _.
    apply step_bind; [apply unique_step_trans|apply Hquery|]. intros show w4 _.
    apply step_bind; [apply unique_step_trans| |by intros].
    pose proof (attaches_only_getEpisodesForProfile env profileId w4) as H.
    apply H.
  - unfold ShowService.favoriteNewShow.
    apply step_bind; [apply unique_step_trans|by apply step_io; [apply unique_step_trans|..]|].
    intros response w2 _.
    apply step_bind; [apply unique_step_trans| |].
    { unfold Show.save. apply step_bind; [apply unique_step_trans| |by intros].
      apply unique_step_execute. intros d. by unfold keys_stay_unique. }
    intros [saved isSaved] w3 _. destruct (negb isSaved); [apply Hrefl|].
    apply step_bind; [apply unique_step_trans|apply Hfav|]. intros _ w4 _.
    apply step_bind; [apply unique_step_trans|exact (keys_stay_unique_refl _)|]. intros _ w5 _.
    apply step_bind; [apply unique_step_trans|apply Hquery|]. intros view w6 _.
    apply step_bind; [apply unique_step_trans|exact (keys_stay_unique_refl _)|]. by intros.
Qed.

Lemma fetchSeasonsAndEpisodes_keeps (env : Env) (show : TmdbShow) (showId : Z)
    (profileId : string) (w : World) :
  let after := ShowService.fetchSeasonsAndEpisodes env show showId profileId w in
  shows (w_db after.1) = shows (w_db w) /\ w_jobs after.1 = w_jobs w.
Proof.
  intros after. subst after.
  pose proof (fetchSeasonsAndEpisodes_unfold env show showId profileId w) as Hend.
  pose proof (loader_step_loop env show showId profileId w) as Hloop.
  destruct (ShowService.for_of _ _ w) as [s [[]|e]]; rewrite Hend;
    destruct Hloop as (((Hshows & _) & _) & _ & _ & Hjobs & _); simpl in *.
  - pose proof (notifyShowDataLoaded_frame env s profileId showId)
      as (_ & Hdb & _ & _ & _ & Hj & _).
    rewrite Hdb, Hj. done.
  - done.
Qed.

(** C6. A show that is not stored yet is favorited, its started load runs,
    and the same external id is favorited again, by the same or another
    profile and whatever is rejected the second time. The second call adds
    no season row and no episode row, so the counts are those of the single
    ingestion; it starts no second load; and neither the first call with its
    load nor the second call gives any status table a duplicate (profile,
    content) key. *)
Theorem addShowToFavorites_twice (env : Env) (w0 : World) (profileId : string)
    (showId : Z) :
  calm w0 ->
  w_jobs w0 = [] ->
  Show.find_by_tmdb_id (w_db w0) showId = None ->
  tmdb_show_id (tmdb_getShowDetails env showId) = showId ->
  let first := (ShowService.addShowToFavorites env profileId showId w0).1 in
  let loaded := (ShowService.run_started_load env first).1 in
  w_jobs loaded = [] /\
  keys_stay_unique (w_db w0) (w_db loaded) /\
  forall again fs,
    let second :=
      (ShowService.addShowToFavorites env again showId (set_faults loaded fs)).1 in
    seasons (w_db second) = seasons (w_db loaded) /\
    episodes (w_db second) = episodes (w_db loaded) /\
    keys_stay_unique (w_db loaded) (w_db second) /\
    w_jobs second = [].
Proof.
  intros Hc Hjobs Hnone Hid first loaded.
  destruct (addShowToFavorites_new env w0 profileId showId Hc Hnone)
    as (w1 & view & Hrun & Hshows & Hstarted).
  assert (first = w1) as Hfirst by (subst first; by rewrite Hrun).
  rewrite Hjobs in Hstarted. simpl in Hstarted.
  set (job := mkLoadJob (tmdb_getShowDetails env showId)
                        (shows_auto_increment (w_db w0)) profileId) in *.
  assert (loaded =
          (ShowService.fetchSeasonsAndEpisodes env (job_show job) (job_showId job)
             (job_profileId job) (set_jobs w1 [])).1) as Hloaded.
  { subst loaded. rewrite Hfirst. unfold ShowService.run_started_load.
    by rewrite Hstarted. }
  destruct (fetchSeasonsAndEpisodes_keeps env (job_show job) (job_showId job)
              (job_profileId job) (set_jobs w1 [])) as [Hkeep_shows Hkeep_jobs].
  rewrite <- Hloaded in Hkeep_shows, Hkeep_jobs. simpl in Hkeep_shows, Hkeep_jobs.
  split; [done|]. split.
  - eapply keys_stay_unique_trans.
    + pose proof (unique_step_addShowToFavorites env profileId showId w0) as H.
      fold first in H. rewrite Hfirst in H. exact H.
    + rewrite Hloaded. change (w_db w1) with (w_db (set_jobs w1 [])).
      apply unique_step_fetchSeasonsAndEpisodes.
  - intros again fs second.
    assert (exists existing,
              Show.find_by_tmdb_id (w_db (set_faults loaded fs)) showId
              = Some existing) as [existing Hfound].
    { eexists. unfold Show.find_by_tmdb_id. simpl. rewrite Hkeep_shows, Hshows.
      rewrite Hid.
      apply (find_by_tmdb_id_new (w_db w0)
               (mkShowRow (shows_auto_increment (w_db w0)) showId
                          (tmdb_show_name (tmdb_getShowDetails env showId))) 0).
      exact Hnone. }
    destruct (addShowToFavorites_existing env (set_faults loaded fs) again showId
                existing Hfound) as (_ & Hse & Hep & Hkeys & Hj).
    fold second in Hse, Hep, Hkeys, Hj. simpl in Hse, Hep, Hkeys, Hj.
    rewrite Hkeep_jobs in Hj. done.
Qed.

Lemma addShowToFavorites_twice_witness :
  let w0 := Example.world Example.empty_db [] in
  let first := (ShowService.addShowToFavorites Example.env "1" 77 w0).1 in
  let loaded := (ShowService.run_started_load Example.env first).1 in
  let second :=
    (ShowService.addShowToFavorites Example.env "1" 77 (set_faults loaded [])).1 in
  calm w0 /\ w_jobs w0 = [] /\
  Show.find_by_tmdb_id (w_db w0) 77 = None /\
  tmdb_show_id (tmdb_getShowDetails Example.env 77) = 77%Z /\
  length (seasons (w_db loaded)) = 2 /\ length (episodes (w_db loaded)) = 3 /\
  seasons (w_db second) = seasons (w_db loaded) /\
  episodes (w_db second) = episodes (w_db loaded).
Proof.
  intros w0 first loaded second.
  split; [reflexivity|]. split; [reflexivity|]. split; [reflexivity|].
  split; [reflexivity|]. split; [by vm_compute|]. split; [by vm_compute|].
  destruct (addShowToFavorites_twice Example.env w0 "1" 77
              eq_refl eq_refl eq_refl eq_refl) as (_ & _ & Hagain).
  destruct (Hagain "1" []) as (Hse & Hep & _).
  split; [exact Hse|exact Hep].
Defined.

(** The example, spelled out: after the second favorite the association
    tables are those of the single ingestion as well. *)
Example example_favorite_twice :
  let w0 := Example.world Example.empty_db [] in
  let first := (ShowService.addShowToFavorites Example.env "1" 77 w0).1 in
  let loaded := (ShowService.run_started_load Example.env first).1 in
  let second := (ShowService.addShowToFavorites Example.env "1" 77 loaded).1 in
  w_db second = w_db loaded /\
  status_key <$> season_watch_status (w_db second) = [(1, 1); (1, 2)]%Z /\
  status_key <$> episode_watch_status (w_db second) = [(1, 1); (1, 2); (1, 3)]%Z.
Proof. by vm_compute. Qed.

(** * More properties of the models *)

(** ** Status tables *)

Lemma stored_status_table (d : DB) (profileId : string) (seasonId : Z) :
  Season.stored_status d profileId seasonId
  = table_status (season_watch_status d) (Number profileId) seasonId.
Proof. done. Qed.

Lemma status_key_matches_set_status (p c : Z) (st : WatchStatus) (r : StatusRow) :
  status_key_matches p c (set_status st r) = status_key_matches p c r.
Proof. done. Qed.

Lemma table_status_update_same (t : list StatusRow) (p c : Z) (st : WatchStatus) :
  table_status (sql_update_status (status_key_matches p c) st t).1 p c
  = (fun _ => st) <$> table_status t p c.
Proof.
  unfold table_status, sql_update_status. simpl.
  induction t as [|r t IH]; [done|]. simpl. rewrite !filter_cons.
  destruct (status_key_matches p c r) eqn:Hr;
    repeat case_decide; try done; try congruence.
Qed.

Lemma table_status_update_other (t : list StatusRow) (sel : StatusRow -> bool)
    (p c : Z) (st : WatchStatus) :
  (forall r, sel r = true -> status_key_matches p c r = false) ->
  table_status (sql_update_status sel st t).1 p c = table_status t p c.
Proof.
  intros Hsel. unfold table_status, sql_update_status. simpl.
  induction t as [|r t IH]; [done|]. simpl. rewrite !filter_cons.
  destruct (sel r) eqn:Hr.
  - rewrite status_key_matches_set_status, (Hsel r Hr).
    repeat case_decide; try done.
  - destruct (status_key_matches p c r) eqn:Hk;
      repeat case_decide; try done; try congruence.
Qed.

Lemma table_status_is_Some (t : list StatusRow) (p c : Z) :
  is_Some (table_status t p c) <-> existsb (status_key_matches p c) t = true.
Proof.
  unfold table_status. induction t as [|r t IH]; simpl.
  - split; [by intros [? ?]|done].
  - rewrite filter_cons. destruct (status_key_matches p c r) eqn:Hr.
    + rewrite decide_True by done. simpl. split; [done|by eexists].
    + rewrite decide_False by congruence. simpl. exact IH.
Qed.

Lemma other_key_no_match (p c p' c' : Z) (r : StatusRow) :
  (p', c') <> (p, c) ->
  status_key_matches p c r = true -> status_key_matches p' c' r = false.
Proof.
  intros Hne H1. destruct (status_key_matches p' c' r) eqn:H2; [|done].
  apply status_key_matches_eq in H1, H2. congruence.
Qed.

(** ** Season.updateWatchStatus and Season.getWatchStatus *)

(** X1. A season update that is not rejected reports whether the profile
    has the season at all; the status read back afterwards is the new one
    exactly when it does, and the status stored under any other (profile,
    season) pair, every episode status and every show status are as
    before. *)
Theorem Season_updateWatchStatus_then_getWatchStatus
    (w : World) (profileId : string) (seasonId : Z) (status : WatchStatus) :
  calm w ->
  decimal_id profileId = true ->
  let updated := Season.updateWatchStatus profileId seasonId status w in
  let before := Season.stored_status (w_db w) profileId seasonId in
  updated.2 = Returned (bool_decide (is_Some before)) /\
  (Season.getWatchStatus profileId seasonId updated.1).2
  = Returned ((fun _ => status) <$> before) /\
  (forall otherProfile otherSeason,
     (Number otherProfile, otherSeason) <> (Number profileId, seasonId) ->
     Season.stored_status (w_db updated.1) otherProfile otherSeason
     = Season.stored_status (w_db w) otherProfile otherSeason) /\
  episode_watch_status (w_db updated.1) = episode_watch_status (w_db w) /\
  show_watch_status (w_db updated.1) = show_watch_status (w_db w).
Proof.
  intros Hc _ updated before.
  assert (updated =
    (set_db (set_faults w (tail (w_faults w)))
            (Season.update_season_status profileId seasonId status (w_db w)).1,
     Returned (0 <? (Season.update_season_status profileId seasonId status (w_db w)).2)%Z))
    as Hupd.
  { subst updated. unfold Season.updateWatchStatus, try_catch, bind.
    rewrite execute_calm by done. done. }
  rewrite Hupd. cbn [fst snd].
  unfold Season.update_season_status.
  pose proof (sql_update_status_affected
                (status_key_matches (Number profileId) seasonId) status
                (season_watch_status (w_db w))) as Haff.
  pose proof (table_status_update_same (season_watch_status (w_db w))
                (Number profileId) seasonId status) as Hsame.
  pose proof (fun p' s' H => table_status_update_other (season_watch_status (w_db w))
                (status_key_matches (Number profileId) seasonId) p' s' status
                (fun r => other_key_no_match (Number profileId) seasonId p' s' r H))
    as Hother.
  destruct (sql_update_status _ status (season_watch_status (w_db w))) as [t n].
  cbn [fst snd] in *. split; [|split; [|split]].
  - f_equal. subst before. rewrite stored_status_table.
    destruct (existsb (status_key_matches (Number profileId) seasonId)
                      (season_watch_status (w_db w))) eqn:He.
    + rewrite bool_decide_eq_true_2 by (by apply table_status_is_Some).
      apply Z.ltb_lt. by apply Haff.
    + rewrite bool_decide_eq_false_2.
      * apply Z.ltb_ge. destruct (Z.lt_ge_cases 0 n) as [Hlt|]; [|lia].
        apply Haff in Hlt. done.
      * intros H%table_status_is_Some. congruence.
  - unfold Season.getWatchStatus, try_catch, query.
    rewrite execute_calm by (by apply calm_set_db, calm_tail).
    cbn [fst snd]. f_equal. rewrite stored_status_table. simpl. exact Hsame.
  - intros p' s' Hne. rewrite !stored_status_table. simpl. by apply Hother.
  - done.
Qed.

Lemma Season_updateWatchStatus_then_getWatchStatus_witness :
  let w := Example.world Example.season_watched_db [] in
  calm w /\
  decimal_id "1" = true /\
  (Season.updateWatchStatus "1" 5 WATCHING w).2 = Returned true /\
  (Season.getWatchStatus "1" 5 (Season.updateWatchStatus "1" 5 WATCHING w).1).2
  = Returned (Some WATCHING).
Proof.
  intros w. split; [reflexivity|]. split; [reflexivity|].
  destruct (Season_updateWatchStatus_then_getWatchStatus w "1" 5 WATCHING eq_refl
              eq_refl)
    as (Hret & Hread & _).
  split; [exact Hret|exact Hread].
Defined.

(** ** The cascading season update, when it goes through *)

Lemma filter_map_keys (cond : StatusRow -> bool) (f : StatusRow -> StatusRow)
    (t : list StatusRow) :
  (forall r, cond (f r) = cond r) ->
  filter (fun r => cond r = true) (map f t)
  = map f (filter (fun r => cond r = true) t).
Proof.
  intros Hf. induction t as [|r t IH]; [done|]. simpl. rewrite !filter_cons, Hf.
  case_decide; simpl; by rewrite IH.
Qed.

(** The episode statuses of the season after the episode-level UPDATE. *)
Lemma episode_statuses_cascade (d : DB) (profileId : string) (seasonId : Z)
    (status : WatchStatus) :
  Season.episode_statuses
    (Season.update_episode_statuses profileId seasonId status d).1 profileId seasonId
  = map (fun _ => status) (Season.episode_statuses d profileId seasonId).
Proof.
  unfold Season.update_episode_statuses, sql_update_status, Season.episode_statuses.
  simpl.
  assert (forall es, (forall e, e ∈ es -> e ∈ episodes d) ->
    flat_map (fun e =>
      map ws_status
        (filter (fun ews =>
           ((episode_id e =? ws_content_id ews)%Z && (episode_season_id e =? seasonId)%Z
            && (ws_profile_id ews =? Number profileId)%Z) = true)
           (map (fun r => if Season.episode_of_season d profileId seasonId r
                          then set_status status r else r)
                (episode_watch_status d)))) es
    = map (fun _ => status)
        (flat_map (fun e =>
           map ws_status
             (filter (fun ews =>
                ((episode_id e =? ws_content_id ews)%Z
                 && (episode_season_id e =? seasonId)%Z
                 && (ws_profile_id ews =? Number profileId)%Z) = true)
                (episode_watch_status d))) es)) as H.
  { induction es as [|e es IH]; intros Hsub; [done|]. simpl.
    rewrite map_app, IH by (intros; apply Hsub; by right). f_equal.
    rewrite (filter_map_keys
               (fun ews => (episode_id e =? ws_content_id ews)%Z
                           && (episode_season_id e =? seasonId)%Z
                           && (ws_profile_id ews =? Number profileId)%Z))
      by (intros r; by destruct (Season.episode_of_season d profileId seasonId r)).
    rewrite !map_map. apply map_ext_in. intros r Hr.
    apply list_elem_of_In, list_elem_of_filter in Hr as [Hcond _].
    apply andb_prop in Hcond as [Hcond H3]. apply andb_prop in Hcond as [H1 H2].
    assert (Season.episode_of_season d profileId seasonId r = true) as ->; [|done].
    unfold Season.episode_of_season. rewrite H3. simpl.
    apply existsb_exists. exists e.
    split; [apply list_elem_of_In, Hsub; left|]. by rewrite H1, H2. }
  by apply H.
Qed.

(** Episode statuses of another profile are not touched by it. *)
Lemma episode_statuses_cascade_other (d : DB) (profileId other : string)
    (seasonId otherSeason : Z) (status : WatchStatus) :
  Number other <> Number profileId ->
  Season.episode_statuses
    (Season.update_episode_statuses profileId seasonId status d).1 other otherSeason
  = Season.episode_statuses d other otherSeason.
Proof.
  intros Hne.
  unfold Season.update_episode_statuses, sql_update_status, Season.episode_statuses.
  simpl. apply flat_map_ext. intros e.
  rewrite (filter_map_keys
             (fun ews => (episode_id e =? ws_content_id ews)%Z
                         && (episode_season_id e =? otherSeason)%Z
                         && (ws_profile_id ews =? Number other)%Z))
    by (intros r; by destruct (Season.episode_of_season d profileId seasonId r)).
  rewrite map_map. apply map_ext_in. intros r Hr.
  apply list_elem_of_In, list_elem_of_filter in Hr as [Hcond _].
  apply andb_prop in Hcond as [_ H3].
  unfold Season.episode_of_season.
  assert ((ws_profile_id r =? Number profileId)%Z = false) as -> by lia. done.
Qed.

(** The run of the cascading update when nothing is rejected, the profile
    has the season and the season has an episode association. *)
Lemma updateAllWatchStatuses_run
    (w : World) (profileId : string) (seasonId : Z) (status : WatchStatus) :
  calm w ->
  is_Some (Season.stored_status (w_db w) profileId seasonId) ->
  Season.episode_statuses (w_db w) profileId seasonId <> [] ->
  let d1 := (Season.update_season_status profileId seasonId status (w_db w)).1 in
  let d2 := (Season.update_episode_statuses profileId seasonId status d1).1 in
  Season.updateAllWatchStatuses profileId seasonId status w
  = (set_tx (set_db (set_faults w (tail (tail (tail (tail (tail (w_faults w)))))))
                    d2) None,
     Returned true) /\
  episodes d1 = episodes (w_db w) /\
  episode_watch_status d1 = episode_watch_status (w_db w) /\
  season_watch_status d2 = season_watch_status d1.
Proof.
  intros Hc Hrow Heps d1 d2.
  assert (episodes d1 = episodes (w_db w) /\
          episode_watch_status d1 = episode_watch_status (w_db w)) as [He1 Hw1].
  { subst d1. unfold Season.update_season_status.
    by destruct (sql_update_status _ status (season_watch_status (w_db w))). }
  assert (forall p s, Season.episode_statuses d1 p s
                      = Season.episode_statuses (w_db w) p s) as Hsame1.
  { intros. unfold Season.episode_statuses. by rewrite He1, Hw1. }
  assert (season_watch_status d2 = season_watch_status d1) as Hs2.
  { subst d2. unfold Season.update_episode_statuses.
    by destruct (sql_update_status _ status (episode_watch_status d1)). }
  assert ((0 <? (Season.update_season_status profileId seasonId status (w_db w)).2)%Z
          = true) as Hn1.
  { apply Z.ltb_lt. unfold Season.update_season_status.
    pose proof (sql_update_status_affected
                  (status_key_matches (Number profileId) seasonId) status
                  (season_watch_status (w_db w))) as Haff.
    destruct (sql_update_status _ status (season_watch_status (w_db w))) as [t n].
    apply Haff. apply table_status_is_Some. exact Hrow. }
  assert ((0 <? (Season.update_episode_statuses profileId seasonId status d1).2)%Z
          = true) as Hn2.
  { apply Z.ltb_lt. unfold Season.update_episode_statuses.
    pose proof (sql_update_status_affected
                  (Season.episode_of_season d1 profileId seasonId) status
                  (episode_watch_status d1)) as Haff.
    destruct (sql_update_status _ status (episode_watch_status d1)) as [t n].
    apply Haff.
    destruct (Season.episode_statuses (w_db w) profileId seasonId) as [|st l] eqn:Hst;
      [done|].
    assert (st ∈ Season.episode_statuses (w_db w) profileId seasonId) as Hin
      by (rewrite Hst; left).
    apply elem_of_episode_statuses in Hin
      as (e & ews & He & Hews & Hid & Hseason & Hprof & _).
    apply existsb_exists. exists ews. rewrite Hw1.
    split; [by apply list_elem_of_In|].
    unfold Season.episode_of_season. rewrite He1.
    apply andb_true_intro. split; [lia|].
    apply existsb_exists. exists e. split; [by apply list_elem_of_In|].
    apply andb_true_intro. split; lia. }
  assert (Season.updateAllWatchStatuses profileId seasonId status w
          = (set_tx (set_db (set_faults w (tail (tail (tail (tail (tail
                     (w_faults w))))))) d2) None, Returned true)) as Hafter.
  { assert (((Season.update_season_status profileId seasonId status (w_db w)).2 =? 0)%Z
            = false) as Hz1 by lia.
    subst d2. subst d1. revert Hz1 Hn2.
    destruct w as [d tx fs now c s em lg jobs]. cbn [w_db w_faults] in *.
    unfold Season.updateAllWatchStatuses, try_finally, try_catch, bind,
      connection_execute, beginTransaction, commit, io, ret.
    unfold calm in Hc. cbn [w_faults] in Hc.
    intros Hz1 Hn2.
    destruct fs as [|[] [|[] [|[] [|[] [|[] fs]]]]]; try done;
      cbn [w_faults w_db w_tx set_faults set_db set_tx fst snd tail];
      destruct (Season.update_season_status profileId seasonId status d)
        as [dd1 n1];
      cbn [fst snd] in *; rewrite Hz1;
      cbn [w_faults w_db w_tx set_faults set_db set_tx fst snd tail];
      destruct (Season.update_episode_statuses profileId seasonId status dd1)
        as [dd2 n2];
      cbn [fst snd] in *; rewrite Hn2; reflexivity. }
  done.
Qed.

(** X2. The cascading update of a season that the profile has, with at
    least one episode association, when nothing is rejected: it returns
    true with the transaction committed, the season reads back as the new
    status, every episode association of the season has the new status (as
    many as before), and no status of another profile changes. *)
Theorem updateAllWatchStatuses_cascades
    (w : World) (profileId : string) (seasonId : Z) (status : WatchStatus) :
  calm w ->
  decimal_id profileId = true ->
  is_Some (Season.stored_status (w_db w) profileId seasonId) ->
  Season.episode_statuses (w_db w) profileId seasonId <> [] ->
  let after := Season.updateAllWatchStatuses profileId seasonId status w in
  after.2 = Returned true /\
  w_tx after.1 = None /\
  Season.stored_status (w_db after.1) profileId seasonId = Some status /\
  Season.episode_statuses (w_db after.1) profileId seasonId
  = map (fun _ => status) (Season.episode_statuses (w_db w) profileId seasonId) /\
  (forall other otherSeason,
     Number other <> Number profileId ->
     Season.stored_status (w_db after.1) other otherSeason
     = Season.stored_status (w_db w) other otherSeason /\
     Season.episode_statuses (w_db after.1) other otherSeason
     = Season.episode_statuses (w_db w) other otherSeason).
Proof.
  intros Hc _ Hrow Heps after.
  destruct (updateAllWatchStatuses_run w profileId seasonId status Hc Hrow Heps)
    as (Hafter & He1 & Hw1 & Hs2).
  set (d1 := (Season.update_season_status profileId seasonId status (w_db w)).1) in *.
  set (d2 := (Season.update_episode_statuses profileId seasonId status d1).1) in *.
  assert (forall p s, Season.episode_statuses d1 p s
                      = Season.episode_statuses (w_db w) p s) as Hsame1.
  { intros. unfold Season.episode_statuses. by rewrite He1, Hw1. }
  subst after.
  rewrite Hafter. cbn [fst snd]. simpl.
  split; [done|]. split; [done|]. split; [|split].
  - rewrite stored_status_table, Hs2. subst d1.
    unfold Season.update_season_status.
    pose proof (table_status_update_same (season_watch_status (w_db w))
                  (Number profileId) seasonId status) as Hsame.
    destruct (sql_update_status _ status (season_watch_status (w_db w))) as [t n].
    simpl in *. rewrite Hsame. rewrite stored_status_table in Hrow.
    by destruct Hrow as [x ->].
  - subst d2. rewrite episode_statuses_cascade. by rewrite Hsame1.
  - intros other otherSeason Hne. split.
    + rewrite !stored_status_table, Hs2. subst d1.
      unfold Season.update_season_status.
      pose proof (table_status_update_other (season_watch_status (w_db w))
                    (status_key_matches (Number profileId) seasonId)
                    (Number other) otherSeason status) as Hother.
      destruct (sql_update_status _ status (season_watch_status (w_db w))) as [t n].
      simpl in *. apply Hother. intros r.
      apply other_key_no_match. congruence.
    + subst d2. rewrite episode_statuses_cascade_other by done. apply Hsame1.
Qed.

Lemma updateAllWatchStatuses_cascades_witness :
  let w := Example.world Example.season_mixed_db [] in
  let after := Season.updateAllWatchStatuses "1" 5 WATCHED w in
  calm w /\
  decimal_id "1" = true /\
  is_Some (Season.stored_status (w_db w) "1" 5) /\
  Season.episode_statuses (w_db w) "1" 5 <> [] /\
  after.2 = Returned true /\
  Season.stored_status (w_db after.1) "1" 5 = Some WATCHED /\
  Season.episode_statuses (w_db after.1) "1" 5 = [WATCHED; WATCHED].
Proof.
  intros w after.
  assert (is_Some (Season.stored_status (w_db w) "1" 5)) as Hrow by (by eexists).
  assert (Season.episode_statuses (w_db w) "1" 5 <> []) as Heps by (by vm_compute).
  split; [reflexivity|]. split; [reflexivity|]. split; [exact Hrow|].
  split; [exact Heps|].
  destruct (updateAllWatchStatuses_cascades w "1" 5 WATCHED eq_refl eq_refl Hrow Heps)
    as (Hret & _ & Hseason & Hepisodes & _).
  split; [exact Hret|]. split; [exact Hseason|exact Hepisodes].
Defined.

(** The run of the recomputation when nothing is rejected and all episode
    associations of the season agree. *)
Lemma updateWatchStatusByEpisode_run
    (w : World) (profileId : string) (seasonId : Z) (S : WatchStatus) :
  calm w ->
  Season.episode_statuses (w_db w) profileId seasonId <> [] ->
  (forall st, st ∈ Season.episode_statuses (w_db w) profileId seasonId -> st = S) ->
  Season.updateWatchStatusByEpisode profileId seasonId w
  = (set_db (set_faults (set_faults w (tail (w_faults w))) (tail (tail (w_faults w))))
            (Season.update_season_status profileId seasonId S (w_db w)).1,
     Returned tt).
Proof.
  intros Hc Hne Hall.
  unfold Season.updateWatchStatusByEpisode, try_catch, bind, query.
  rewrite execute_calm by done. cbn [fst snd].
  unfold Season.select_season_status.
  rewrite (count_distinct_constant S) by done.
  rewrite (sql_max_constant S) by done. cbn beta iota.
  change (1 =? 1)%Z with true. cbn beta iota.
  rewrite execute_calm by (by apply calm_tail). done.
Qed.

Lemma sql_update_status_again (sel : StatusRow -> bool) (status : WatchStatus)
    (t : list StatusRow) :
  (forall r, sel (set_status status r) = sel r) ->
  (sql_update_status sel status (sql_update_status sel status t).1).1
  = (sql_update_status sel status t).1.
Proof.
  intros Hsel. unfold sql_update_status. simpl. rewrite map_map.
  apply map_ext. intros r. destruct (sel r) eqn:Hr.
  - by rewrite Hsel, Hr.
  - by rewrite Hr.
Qed.

Lemma update_season_status_again (d : DB) (profileId : string) (seasonId : Z)
    (status : WatchStatus) (t : list StatusRow) :
  season_watch_status d
  = (sql_update_status (status_key_matches (Number profileId) seasonId) status t).1 ->
  (Season.update_season_status profileId seasonId status d).1 = d.
Proof.
  intros Ht.
  assert ((Season.update_season_status profileId seasonId status d).1
          = with_season_watch_status d
              (sql_update_status (status_key_matches (Number profileId) seasonId)
                                 status (season_watch_status d)).1) as ->.
  { unfold Season.update_season_status.
    by destruct (sql_update_status _ status (season_watch_status d)). }
  rewrite Ht, sql_update_status_again by done. rewrite <- Ht. by destruct d.
Qed.

(** X3. Cascade, then recompute: after a cascading update that went
    through, recomputing the season from its episodes resolves and changes
    no row. *)
Theorem updateWatchStatusByEpisode_after_cascade
    (w : World) (profileId : string) (seasonId : Z) (status : WatchStatus) :
  calm w ->
  decimal_id profileId = true ->
  is_Some (Season.stored_status (w_db w) profileId seasonId) ->
  Season.episode_statuses (w_db w) profileId seasonId <> [] ->
  let cascaded := (Season.updateAllWatchStatuses profileId seasonId status w).1 in
  let after := Season.updateWatchStatusByEpisode profileId seasonId cascaded in
  after.2 = Returned tt /\
  w_db after.1 = w_db cascaded /\
  Season.stored_status (w_db after.1) profileId seasonId = Some status.
Proof.
  intros Hc _ Hrow Heps cascaded after.
  destruct (updateAllWatchStatuses_run w profileId seasonId status Hc Hrow Heps)
    as (Hrun & He1 & Hw1 & Hs2).
  set (d1 := (Season.update_season_status profileId seasonId status (w_db w)).1) in *.
  set (d2 := (Season.update_episode_statuses profileId seasonId status d1).1) in *.
  assert (w_db cascaded = d2) as Hdb by (subst cascaded; by rewrite Hrun).
  assert (calm cascaded) as Hcc.
  { subst cascaded. rewrite Hrun. unfold calm in *. simpl.
    destruct (w_faults w) as [|b1 [|b2 [|b3 [|b4 [|b5 fs]]]]]; simpl in *; try done;
      repeat match goal with H : _ && _ = true |- _ =>
        apply andb_prop in H as [? H] end; done. }
  assert (Season.episode_statuses d2 profileId seasonId
          = map (fun _ => status) (Season.episode_statuses (w_db w) profileId seasonId))
    as Hst.
  { subst d2. rewrite episode_statuses_cascade.
    unfold Season.episode_statuses. by rewrite He1, Hw1. }
  assert ((Season.update_season_status profileId seasonId status d2).1 = d2 /\
          Season.stored_status d2 profileId seasonId = Some status) as [Hfix Hstored].
  { split.
    - apply (update_season_status_again d2 profileId seasonId status
               (season_watch_status (w_db w))).
      rewrite Hs2. subst d1. unfold Season.update_season_status.
      by destruct (sql_update_status _ status (season_watch_status (w_db w))).
    - rewrite stored_status_table, Hs2. subst d1.
      unfold Season.update_season_status.
      pose proof (table_status_update_same (season_watch_status (w_db w))
                    (Number profileId) seasonId status) as Hsame.
      destruct (sql_update_status _ status (season_watch_status (w_db w))) as [t n].
      simpl in *. rewrite Hsame. rewrite stored_status_table in Hrow.
      by destruct Hrow as [x ->]. }
  subst after.
  rewrite (updateWatchStatusByEpisode_run cascaded profileId seasonId status Hcc).
  - cbn [fst snd w_db set_db set_faults]. rewrite Hdb, Hfix. done.
  - rewrite Hdb, Hst.
    destruct (Season.episode_statuses (w_db w) profileId seasonId); done.
  - rewrite Hdb, Hst. intros st Hin.
    apply list_elem_of_fmap in Hin as (? & -> & _). done.
Qed.

Lemma updateWatchStatusByEpisode_after_cascade_witness :
  let w := Example.world Example.season_mixed_db [] in
  let cascaded := (Season.updateAllWatchStatuses "1" 5 WATCHED w).1 in
  let after := Season.updateWatchStatusByEpisode "1" 5 cascaded in
  calm w /\
  decimal_id "1" = true /\
  is_Some (Season.stored_status (w_db w) "1" 5) /\
  Season.episode_statuses (w_db w) "1" 5 <> [] /\
  w_db after.1 = w_db cascaded /\
  Season.stored_status (w_db after.1) "1" 5 = Some WATCHED.
Proof.
  intros w cascaded after.
  assert (is_Some (Season.stored_status (w_db w) "1" 5)) as Hrow by (by eexists).
  assert (Season.episode_statuses (w_db w) "1" 5 <> []) as Heps by (by vm_compute).
  split; [reflexivity|]. split; [reflexivity|]. split; [exact Hrow|].
  split; [exact Heps|].
  destruct (updateWatchStatusByEpisode_after_cascade w "1" 5 WATCHED eq_refl eq_refl
              Hrow Heps)
    as (_ & Hdb & Hst).
  split; [exact Hdb|exact Hst].
Defined.

(** X4. The cascading update of a season the profile does not have, when
    connection, transaction start and season-level UPDATE go through: it
    returns false and no row changes, and the transaction it began is
    neither committed nor rolled back (it is still open, holding the rows
    as they were at its start, when the connection is released). *)
Theorem updateAllWatchStatuses_not_favorited
    (w : World) (profileId : string) (seasonId : Z) (status : WatchStatus) :
  calm w ->
  decimal_id profileId = true ->
  Season.stored_status (w_db w) profileId seasonId = None ->
  let after := Season.updateAllWatchStatuses profileId seasonId status w in
  after.2 = Returned false /\
  w_db after.1 = w_db w /\
  w_tx after.1 = Some (w_db w).
Proof.
  intros Hc _ Hnone after.
  assert (Season.update_season_status profileId seasonId status (w_db w)
          = (w_db w, 0%Z)) as Hupd.
  { unfold Season.update_season_status, sql_update_status.
    rewrite stored_status_table in Hnone.
    assert (forall r, r ∈ season_watch_status (w_db w) ->
              status_key_matches (Number profileId) seasonId r = false) as Hno.
    { intros r Hr.
      destruct (status_key_matches (Number profileId) seasonId r) eqn:Hm; [|done].
      assert (is_Some (table_status (season_watch_status (w_db w))
                                    (Number profileId) seasonId)) as [x Hx].
      { apply table_status_is_Some, existsb_exists. exists r.
        split; [by apply list_elem_of_In|done]. }
      congruence. }
    destruct (w_db w) as [sh se ep shw sws ews pr n1 n2 n3]. simpl in *.
    clear Hnone. induction sws as [|r sws IH]; [done|].
    simpl. rewrite filter_cons.
    rewrite (Hno r) by left. rewrite decide_False by done.
    assert (forall r0, r0 ∈ sws ->
              status_key_matches (Number profileId) seasonId r0 = false) as Hno'
      by (intros; apply Hno; by right).
    specialize (IH Hno'). injection IH as Hmap Hlen.
    unfold with_season_watch_status. simpl. f_equal; [|exact Hlen].
    f_equal. f_equal. exact Hmap. }
  subst after. unfold Season.updateAllWatchStatuses, try_finally, try_catch, bind.
  rewrite io_calm by done. cbn beta iota.
  unfold beginTransaction. rewrite io_calm by (by apply calm_tail). cbn beta iota.
  rewrite (connection_execute_calm _ _ (w_db w));
    [|by apply calm_set_tx, calm_tail, calm_tail|by destruct w].
  rewrite Hupd. cbn [fst snd]. change (0 =? 0)%Z with true. cbn iota.
  unfold ret. by destruct w.
Qed.

Lemma updateAllWatchStatuses_not_favorited_witness :
  let w := Example.world Example.season_watched_db [] in
  let after := Season.updateAllWatchStatuses "2" 5 WATCHED w in
  calm w /\ decimal_id "2" = true /\
  Season.stored_status (w_db w) "2" 5 = None /\
  after.2 = Returned false /\ w_tx after.1 = Some (w_db w).
Proof.
  intros w after. split; [reflexivity|]. split; [reflexivity|].
  split; [reflexivity|].
  destruct (updateAllWatchStatuses_not_favorited w "2" 5 WATCHED eq_refl eq_refl
              eq_refl)
    as (Hret & _ & Htx).
  split; [exact Hret|exact Htx].
Defined.

(** ** Favorites of seasons and episodes *)

Lemma table_status_prefix (t k : list StatusRow) (p c : Z) :
  is_Some (table_status t p c) -> table_status (t ++ k) p c = table_status t p c.
Proof.
  unfold table_status. rewrite filter_app.
  destruct (filter _ t) as [|r l]; [by intros [? ?]|done].
Qed.

(** X5. Favoriting a season never touches an association that exists: the
    rows of [season_watch_status] stay in place and every stored status
    reads as before, whatever is rejected. When nothing is rejected the
    profile has the season afterwards, a season it already had leaves all
    rows as they were, and favoriting a second time changes nothing. *)
Theorem Season_saveFavorite_keeps_status
    (w : World) (season : SeasonRow) (profileId : Z) :
  let after := Season.saveFavorite season profileId w in
  season_watch_status (w_db w) `prefix_of` season_watch_status (w_db after.1) /\
  (forall p s,
     is_Some (table_status (season_watch_status (w_db w)) p s) ->
     table_status (season_watch_status (w_db after.1)) p s
     = table_status (season_watch_status (w_db w)) p s) /\
  (calm w ->
   after.2 = Returned tt /\
   favorited profileId (season_id season) (season_watch_status (w_db after.1)) /\
   (favorited profileId (season_id season) (season_watch_status (w_db w)) ->
    w_db after.1 = w_db w) /\
   w_db (Season.saveFavorite season profileId after.1).1 = w_db after.1).
Proof.
  intros after.
  assert (w_db after.1 = w_db w \/
          w_db after.1 = with_season_watch_status (w_db w)
            (sql_insert_ignore_status profileId (season_id season)
               (season_watch_status (w_db w)))) as Hdb.
  { subst after. unfold Season.saveFavorite, try_catch, execute, io.
    destruct w as [d tx fs now c s em lg jobs]. simpl.
    destruct fs as [|[] fs]; simpl; auto. }
  assert (season_watch_status (w_db w) `prefix_of` season_watch_status (w_db after.1))
    as Hpre.
  { destruct Hdb as [-> | ->]; [done|]. simpl. apply insert_ignore_prefix. }
  split; [exact Hpre|]. split.
  - intros p s Hsome. destruct Hpre as [k ->]. by apply table_status_prefix.
  - intros Hc.
    assert (forall w0, calm w0 ->
              Season.saveFavorite season profileId w0
              = (set_db (set_faults w0 (tail (w_faults w0)))
                   (with_season_watch_status (w_db w0)
                      (sql_insert_ignore_status profileId (season_id season)
                         (season_watch_status (w_db w0)))), Returned tt)) as Hrun.
    { intros w0 Hc0. unfold Season.saveFavorite, try_catch.
      rewrite execute_calm by done. done. }
    assert (forall d, favorited profileId (season_id season) (season_watch_status d) ->
              with_season_watch_status d
                (sql_insert_ignore_status profileId (season_id season)
                   (season_watch_status d)) = d) as Hsame.
    { intros d Hfav. unfold sql_insert_ignore_status. unfold favorited in Hfav.
      rewrite Hfav. by destruct d. }
    subst after. rewrite (Hrun w Hc). cbn [fst snd].
    split; [done|]. split; [simpl; apply favorited_insert|]. split.
    + intros Hfav. simpl. by apply Hsame.
    + rewrite Hrun by (by apply calm_set_db, calm_tail). simpl.
      apply Hsame. simpl. apply favorited_insert.
Qed.

Lemma Season_saveFavorite_keeps_status_witness :
  let w := Example.world Example.season_watched_db [] in
  let season := mkSeasonRow 5 3 905 "Season 5" "" 5 "" "" 2 in
  let after := (Season.saveFavorite season 1 (Season.updateWatchStatus "1" 5 WATCHED w).1) in
  calm w /\
  Season.stored_status (w_db after.1) "1" 5 = Some WATCHED.
Proof.
  intros w season after. split; [reflexivity|].
  destruct (Season_saveFavorite_keeps_status
              (Season.updateWatchStatus "1" 5 WATCHED w).1 season 1)
    as (_ & Hkeep & _).
  rewrite stored_status_table. fold after in Hkeep.
  rewrite (Hkeep (Number "1") 5%Z); [reflexivity|by eexists].
Defined.

Lemma sql_delete_status_no_match (p c : Z) (t : list StatusRow) :
  existsb (status_key_matches p c) t = false -> sql_delete_status p c t = t.
Proof.
  unfold sql_delete_status. induction t as [|r t IH]; [done|]. simpl.
  intros [Hr Ht]%orb_false_elim. rewrite Hr. simpl. by rewrite IH.
Qed.

Lemma sql_delete_status_gone (p c : Z) (t : list StatusRow) :
  existsb (status_key_matches p c) (sql_delete_status p c t) = false.
Proof.
  unfold sql_delete_status. induction t as [|r t IH]; [done|]. simpl.
  destruct (status_key_matches p c r) eqn:Hr; simpl; [done|]. by rewrite Hr.
Qed.

(** X6. Removing an episode favorite, when nothing is rejected: afterwards
    the profile has no association for the episode, so a status update for
    it reports false; the associations under every other key are still
    there; and for an episode the profile did not have, favoriting and then
    removing gives back the table as it was. *)
Theorem Episode_removeFavorite_undoes_saveFavorite
    (w : World) (profileId : string) (episodeId : Z) (status : WatchStatus) :
  calm w ->
  decimal_id profileId = true ->
  let saved := (Episode.saveFavorite (Number profileId) episodeId w).1 in
  let removed := (EpisodeRest.removeFavorite profileId episodeId saved).1 in
  existsb (status_key_matches (Number profileId) episodeId)
          (episode_watch_status (w_db removed)) = false /\
  (Episode.updateWatchStatus profileId episodeId status removed).2 = Returned false /\
  (forall r, r ∈ episode_watch_status (w_db w) ->
             status_key r <> (Number profileId, episodeId) ->
             r ∈ episode_watch_status (w_db removed)) /\
  (existsb (status_key_matches (Number profileId) episodeId)
           (episode_watch_status (w_db w)) = false ->
   episode_watch_status (w_db removed) = episode_watch_status (w_db w)).
Proof.
  intros Hc _ saved removed.
  assert (episode_watch_status (w_db removed)
          = sql_delete_status (Number profileId) episodeId
              (sql_insert_ignore_status (Number profileId) episodeId
                 (episode_watch_status (w_db w))) /\ calm removed) as [Hrows Hcr].
  { subst removed saved. unfold Episode.saveFavorite, EpisodeRest.removeFavorite.
    rewrite (execute_calm _ w) by done. cbn [fst snd].
    rewrite execute_calm by (by apply calm_set_db, calm_tail). cbn [fst snd].
    split; [reflexivity|]. by apply calm_set_db, calm_tail, calm_set_db, calm_tail. }
  split; [rewrite Hrows; apply sql_delete_status_gone|]. split; [|split].
  - unfold Episode.updateWatchStatus, bind. rewrite execute_calm by done.
    cbn [fst snd].
    pose proof (sql_update_status_affected
                  (status_key_matches (Number profileId) episodeId) status
                  (episode_watch_status (w_db removed))) as Haff.
    assert (0 <= (sql_update_status (status_key_matches (Number profileId) episodeId)
                    status (episode_watch_status (w_db removed))).2)%Z as Hnn
      by (unfold sql_update_status; simpl; lia).
    destruct (sql_update_status _ status (episode_watch_status (w_db removed)))
      as [t n]. cbn [fst snd] in *.
    assert (n = 0%Z) as ->.
    { destruct (Z.lt_ge_cases 0 n) as [Hlt|Hge]; [|lia].
      apply Haff in Hlt. rewrite Hrows, sql_delete_status_gone in Hlt. done. }
    done.
  - intros r Hr Hkey. rewrite Hrows. unfold sql_delete_status.
    apply list_elem_of_In, filter_In. split.
    + apply list_elem_of_In.
      eapply elem_of_prefix; [exact Hr|apply insert_ignore_prefix].
    + destruct (status_key_matches (Number profileId) episodeId r) eqn:Hm; [|done].
      apply status_key_matches_eq in Hm. done.
  - intros Hnot. rewrite Hrows. unfold sql_insert_ignore_status. rewrite Hnot.
    unfold sql_delete_status. rewrite List.filter_app. simpl.
    unfold status_key_matches at 2. simpl. rewrite !Z.eqb_refl. simpl.
    rewrite app_nil_r. by apply sql_delete_status_no_match.
Qed.

Lemma Episode_removeFavorite_undoes_saveFavorite_witness :
  let w := Example.world Example.season_watched_db [] in
  let saved := (Episode.saveFavorite (Number "1") 9 w).1 in
  let removed := (EpisodeRest.removeFavorite "1" 9 saved).1 in
  calm w /\
  decimal_id "1" = true /\
  episode_watch_status (w_db saved) <> episode_watch_status (w_db w) /\
  episode_watch_status (w_db removed) = episode_watch_status (w_db w).
Proof.
  intros w saved removed. split; [reflexivity|]. split; [reflexivity|].
  split; [by vm_compute|].
  destruct (Episode_removeFavorite_undoes_saveFavorite w "1" 9 WATCHED eq_refl
              eq_refl)
    as (_ & _ & _ & Hback).
  apply Hback. reflexivity.
Defined.

(** ** Reading seasons back *)

(** X7. Saving a season and asking for the show of the id it got, when
    nothing is rejected and the next auto-increment value is not in use: the
    answer is the show the season was created for. For an id under which
    no season is stored the answer is null. *)
Theorem Season_save_then_getShowIdForSeason (w : World) (this : SeasonRow) :
  calm w ->
  (forall row, row ∈ seasons (w_db w) ->
               season_id row <> seasons_auto_increment (w_db w)) ->
  let saved := Season.save this w in
  (exists season,
     saved.2 = Returned season /\
     season_id season = seasons_auto_increment (w_db w) /\
     (SeasonRest.getShowIdForSeason (season_id season) saved.1).2
     = Returned (Some (season_show_id this))) /\
  (forall unknown,
     (forall row, row ∈ seasons (w_db w) -> season_id row <> unknown) ->
     (SeasonRest.getShowIdForSeason unknown w).2 = Returned None).
Proof.
  intros Hc Hfresh saved.
  assert (forall id l,
            (forall row : SeasonRow, row ∈ l -> season_id row <> id) ->
            filter (fun s => (season_id s =? id)%Z = true) l = []) as Hnone.
  { intros id l Hl. induction l as [|r l IH]; [done|]. rewrite filter_cons.
    rewrite decide_False.
    - apply IH. intros; apply Hl; by right.
    - intros Heq%Z.eqb_eq. by apply (Hl r); [left|]. }
  split.
  - exists (Season.set_id this (seasons_auto_increment (w_db w))).
    subst saved. unfold Season.save, try_catch, bind.
    rewrite execute_calm by done. cbn [fst snd]. unfold ret. cbn [fst snd].
    split; [done|]. split; [done|].
    unfold SeasonRest.getShowIdForSeason, try_catch, query.
    rewrite execute_calm by (by apply calm_set_db, calm_tail).
    cbn [fst snd]. f_equal. unfold SeasonRest.show_id_of_season. simpl.
    rewrite filter_app, (Hnone _ _ Hfresh). simpl. rewrite filter_cons. simpl.
    rewrite decide_True by (by rewrite Z.eqb_refl). done.
  - intros unknown Hunknown.
    unfold SeasonRest.getShowIdForSeason, try_catch, query.
    rewrite execute_calm by done. cbn [fst snd]. f_equal.
    unfold SeasonRest.show_id_of_season. by rewrite (Hnone _ _ Hunknown).
Qed.

Lemma Season_save_then_getShowIdForSeason_witness :
  let w := Example.world Example.empty_db [] in
  let this := Season.new 3 901 "Season 1" "" 1 "2024-01-01" "/poster.jpg" 2 in
  let saved := Season.save this w in
  calm w /\
  (forall row, row ∈ seasons (w_db w) ->
               season_id row <> seasons_auto_increment (w_db w)) /\
  (SeasonRest.getShowIdForSeason 1 saved.1).2 = Returned (Some 3%Z).
Proof.
  intros w this saved.
  assert (forall row, row ∈ seasons (w_db w) ->
                      season_id row <> seasons_auto_increment (w_db w)) as Hfresh
    by (intros row Hrow; by apply elem_of_nil in Hrow).
  split; [reflexivity|]. split; [exact Hfresh|].
  destruct (Season_save_then_getShowIdForSeason w this eq_refl Hfresh)
    as [(season & Hret & Hid & Hread) _].
  simpl in Hid. rewrite Hid in Hread. exact Hread.
Defined.

Lemma group_episode_lookup (m : gmap Z (list ProfileEpisodeRow))
    (episode : ProfileEpisodeRow) (key : Z) :
  default [] (SeasonRest.group_episode m episode !! key)
  = default [] (m !! key)
    ++ (if decide (profile_episode_season_id episode = key) then [episode] else []).
Proof.
  unfold SeasonRest.group_episode.
  destruct (decide (profile_episode_season_id episode = key)) as [->|Hne].
  - rewrite lookup_alter_eq. destruct (m !! key) as [l|] eqn:Hm.
    + by rewrite Hm.
    + by rewrite lookup_insert_eq.
  - rewrite lookup_alter_ne by done.
    destruct (m !! profile_episode_season_id episode).
    + by rewrite app_nil_r.
    + rewrite lookup_insert_ne by done. by rewrite app_nil_r.
Qed.

Lemma group_episodes_lookup (rows : list ProfileEpisodeRow)
    (m : gmap Z (list ProfileEpisodeRow)) (key : Z) :
  default [] (foldl SeasonRest.group_episode m rows !! key)
  = default [] (m !! key)
    ++ filter (fun e => profile_episode_season_id e = key) rows.
Proof.
  revert m. induction rows as [|e rows IH]; intros m; simpl.
  - by rewrite app_nil_r.
  - rewrite IH, group_episode_lookup, filter_cons, <- app_assoc.
    by destruct (decide (profile_episode_season_id e = key)).
Qed.

(** X8. [Season.getSeasonsForShow] pairs every season row, in the order
    the first SELECT returned them, with exactly the episode rows of the
    second SELECT that carry its season_id, in the order they were
    returned; a season without such rows gets the empty list. When the
    first SELECT returns no row the result is the empty list and the second
    SELECT is not issued. The rows of the database are never changed. *)
Theorem getSeasonsForShow_groups
    (views : Views) (w : World) (profileId showId : string) :
  decimal_id profileId = true ->
  decimal_id showId = true ->
  let seasonRows :=
    select_profile_seasons views (w_db w) (Number profileId) (Number showId) in
  let episodeRows :=
    select_profile_episodes views (w_db w) (Number profileId)
      (map profile_season_season_id seasonRows) in
  let after := SeasonRest.getSeasonsForShow views profileId showId w in
  (calm w ->
   after.2 = Returned
     (map (fun season =>
             (season,
              filter (fun e => profile_episode_season_id e
                               = profile_season_season_id season) episodeRows))
          seasonRows)) /\
  (seasonRows = [] -> head (w_faults w) <> Some true ->
   after.2 = Returned [] /\ w_faults after.1 = tail (w_faults w)) /\
  w_db after.1 = w_db w.
Proof.
  intros _ _ seasonRows episodeRows after. split; [|split].
  - intros Hc. subst after episodeRows seasonRows.
    unfold SeasonRest.getSeasonsForShow, try_catch, bind, query.
    rewrite execute_calm by done. cbn [fst snd].
    destruct (select_profile_seasons views (w_db w) (Number profileId)
                                     (Number showId)) as [|season rest]; [done|].
    cbn [length Nat.eqb].
    rewrite execute_calm by (by apply calm_set_db, calm_tail).
    cbn [fst snd w_db set_db set_faults].
    unfold ret. cbn [snd]. f_equal. apply map_ext. intros s.
    by rewrite group_episodes_lookup, lookup_empty.
  - intros Hnone Hhead. subst after episodeRows seasonRows.
    unfold SeasonRest.getSeasonsForShow, try_catch, bind, query, execute, io.
    destruct w as [d tx fs now c s em lg jobs]. simpl in *.
    destruct fs as [|[] fs]; simpl in *; try done; rewrite Hnone; done.
  - subst after.
    unfold SeasonRest.getSeasonsForShow, try_catch, bind, query, execute, io.
    destruct w as [d tx fs now c s em lg jobs]. simpl.
    destruct fs as [|[] fs]; simpl; try done;
      match goal with |- context [(length ?l =? 0)%nat] =>
        destruct (length l =? 0)%nat end; simpl; try done;
      destruct fs as [|[] fs]; simpl; done.
Qed.

Lemma getSeasonsForShow_groups_witness :
  let w := Example.world Example.empty_db [] in
  calm w /\
  decimal_id "1" = true /\ decimal_id "7" = true /\ decimal_id "8" = true /\
  (SeasonRest.getSeasonsForShow ExampleRest.views "1" "7" w).2
  = Returned
      [(ExampleRest.season_view 1,
        [ExampleRest.episode_view 1 "a"; ExampleRest.episode_view 1 "c"]);
       (ExampleRest.season_view 2, [ExampleRest.episode_view 2 "b"]);
       (ExampleRest.season_view 3, [])] /\
  select_profile_seasons ExampleRest.views (w_db w) (Number "1") (Number "8") = [] /\
  (SeasonRest.getSeasonsForShow ExampleRest.views "1" "8"
     (Example.world Example.empty_db [false; true])).2 = Returned [].
Proof.
  intros w. split; [reflexivity|]. split; [reflexivity|].
  split; [reflexivity|]. split; [reflexivity|].
  destruct (getSeasonsForShow_groups ExampleRest.views w "1" "7" eq_refl eq_refl)
    as (Hgroup & _ & _).
  split; [exact (Hgroup eq_refl)|]. split; [reflexivity|].
  destruct (getSeasonsForShow_groups ExampleRest.views
              (Example.world Example.empty_db [false; true]) "1" "8" eq_refl eq_refl)
    as (_ & Hempty & _).
  destruct (Hempty eq_refl ltac:(discriminate)) as [Hret _]. exact Hret.
Defined.

(** ** Invalidating the cache of an account *)

Lemma invalidate_profiles_run (ids : list Z) (w : World) :
  exists w',
    ShowService.for_of ids
      (fun profile => ShowService.invalidateProfileCache (pretty profile)) w
    = (w', Returned tt) /\
    w_db w' = w_db w /\ w_faults w' = w_faults w /\
    forall key,
      w_cache w' !! key
      = if existsb (fun id => String.prefix ("profile_" +:+ pretty id) key) ids
        then None else w_cache w !! key.
Proof.
  revert w. induction ids as [|id ids IH]; intros w.
  - exists w. by repeat split.
  - destruct (IH (ShowService.invalidateProfileCache (pretty id) w).1)
      as (w' & Hrun & Hdb & Hfaults & Hcache).
    exists w'. split; [|split; [|split]].
    + cbn [ShowService.for_of]. unfold bind at 1.
      unfold ShowService.invalidateProfileCache, CacheService.invalidatePattern at 1.
      exact Hrun.
    + rewrite Hdb. by destruct w.
    + rewrite Hfaults. by destruct w.
    + intros key. rewrite Hcache. cbn [existsb].
      unfold ShowService.invalidateProfileCache.
      rewrite invalidatePattern_lookup.
      destruct (String.prefix ("profile_" +:+ pretty id) key); cbn [orb]; [|done].
      by destruct (existsb _ ids).
Qed.

Lemma query_run {A} (q : DB -> A) (w : World) :
  head (w_faults w) <> Some true ->
  query q w = (set_faults w (tail (w_faults w)), Returned (q (w_db w))).
Proof.
  destruct w as [d tx fs now c s em lg jobs]. unfold query, execute, io.
  cbn [w_faults w_db set_faults set_db head tail].
  by destruct fs as [|[] fs].
Qed.

Lemma query_rejected {A} (q : DB -> A) (w : World) :
  head (w_faults w) = Some true ->
  query q w = (set_faults w (tail (w_faults w)), Thrown (IOError "rejected")).
Proof.
  destruct w as [d tx fs now c s em lg jobs]. unfold query, execute, io.
  cbn [w_faults w_db set_faults set_db head tail].
  by destruct fs as [|[] fs].
Qed.

(** X9. [invalidateAccountCache] reads the profiles of the account and drops
    every cache entry whose key starts with [profile_<id>] for the id of one
    of them, and nothing else; the rows stay as they are. It has no
    [try]/[catch]: when the read of the profiles is rejected, that error is
    thrown as it is and the cache is untouched. *)
Theorem invalidateAccountCache_drops_profiles (w : World) (accountId : Z) :
  let after := ShowServiceRest.invalidateAccountCache accountId w in
  let ids :=
    map profile_id
        (List.filter (fun p => (profile_account_id p =? accountId)%Z)
                     (profiles (w_db w))) in
  w_db after.1 = w_db w /\
  (head (w_faults w) <> Some true ->
   after.2 = Returned tt /\
   forall key,
     w_cache after.1 !! key
     = if existsb (fun id => String.prefix ("profile_" +:+ pretty id) key) ids
       then None else w_cache w !! key) /\
  (head (w_faults w) = Some true ->
   after.2 = Thrown (IOError "rejected") /\ w_cache after.1 = w_cache w).
Proof.
  intros after ids. subst after.
  destruct (decide (head (w_faults w) = Some true)) as [Hrej|Hok].
  - assert (Hrun : ShowServiceRest.invalidateAccountCache accountId w
                   = (set_faults w (tail (w_faults w)), Thrown (IOError "rejected"))).
    { unfold ShowServiceRest.invalidateAccountCache, Profile.getAllByAccountId, bind.
      by rewrite query_rejected. }
    rewrite Hrun. cbn [fst snd].
    split; [by destruct w|]. split; [done|]. intros _. split; [done|by destruct w].
  - destruct (invalidate_profiles_run ids (set_faults w (tail (w_faults w))))
      as (w' & Hloop & Hdb & _ & Hc).
    assert (Hrun : ShowServiceRest.invalidateAccountCache accountId w
                   = (w', Returned tt)).
    { unfold ShowServiceRest.invalidateAccountCache, Profile.getAllByAccountId, bind.
      rewrite query_run by done. exact Hloop. }
    rewrite Hrun. cbn [fst snd].
    split; [rewrite Hdb; by destruct w|]. split; [|done].
    intros _. split; [done|]. intros key. rewrite Hc. by destruct w.
Qed.

Lemma invalidateAccountCache_drops_profiles_witness :
  let w :=
    set_cache (Example.world Example.favorited_show_db [false])
      (<["profile_1_shows" := mkCacheEntry JNull 10]>
         (<["profile_12_shows" := mkCacheEntry JNull 10]>
            (<["profile_2_shows" := mkCacheEntry JNull 10]> ∅))) in
  let after := ShowServiceRest.invalidateAccountCache 40 w in
  head (w_faults w) <> Some true /\
  after.2 = Returned tt /\
  w_cache after.1 !! "profile_1_shows" = None /\
  w_cache after.1 !! "profile_12_shows" = None /\
  w_cache after.1 !! "profile_2_shows" = Some (mkCacheEntry JNull 10).
Proof.
  intros w after.
  assert (Hok : head (w_faults w) <> Some true) by discriminate.
  destruct (invalidateAccountCache_drops_profiles w 40) as (_ & Hdrop & _).
  destruct (Hdrop Hok) as [Hret Hcache].
  split; [exact Hok|]. split; [exact Hret|].
  split; [|split]; subst after; rewrite Hcache; reflexivity.
Defined.

(** ** Ids written out and read back *)

Lemma digit_value_pretty_N_char (d : N) :
  (d < 10)%N -> digit_value (pretty_N_char d) = Some (Z.of_N d).
Proof.
  intros Hd.
  assert (d = 0 \/ d = 1 \/ d = 2 \/ d = 3 \/ d = 4 \/ d = 5 \/ d = 6 \/ d = 7
          \/ d = 8 \/ d = 9)%N as Hcases by lia.
  repeat destruct Hcases as [->|Hcases]; try subst d; reflexivity.
Qed.

Lemma read_digits_pretty_N_go (x : N) (s : string) (acc : Z) :
  exists k, read_digits acc (pretty_N_go x s) = read_digits (acc * k + Z.of_N x)%Z s.
Proof.
  revert s acc. induction (N.lt_wf_0 x) as [x _ IH]; intros s acc.
  assert (x = 0 \/ 0 < x)%N as [->|Hpos] by lia.
  - exists 1%Z. rewrite pretty_N_go_0. f_equal. lia.
  - rewrite pretty_N_go_step by done.
    destruct (IH (x `div` 10)%N ltac:(apply N.div_lt; lia)
                 (String (pretty_N_char (x `mod` 10)) s) acc) as [k ->].
    exists (10 * k)%Z. cbn [read_digits].
    rewrite digit_value_pretty_N_char by (apply N.mod_lt; lia).
    f_equal. rewrite (N.div_mod x 10) at 3 by lia.
    rewrite N2Z.inj_add, N2Z.inj_mul. lia.
Qed.

(** [Number(String(id))] is [id] for an id that is not negative. *)
Lemma Number_pretty (z : Z) : (0 <= z)%Z -> Number (pretty z) = z.
Proof.
  intros Hz. destruct z as [|p|p]; [reflexivity| |lia].
  unfold Number. change (pretty (Z.pos p)) with (pretty_N_go (N.pos p) "").
  destruct (read_digits_pretty_N_go (N.pos p) "" 0) as [k ->].
  cbn [read_digits]. lia.
Qed.

(** ** New content reopens a watched show *)

Lemma with_show_watch_status_twice (d : DB) (t t' : list StatusRow) :
  with_show_watch_status (with_show_watch_status d t) t' = with_show_watch_status d t'.
Proof. reflexivity. Qed.

Lemma with_show_watch_status_same (d : DB) :
  with_show_watch_status d (show_watch_status d) = d.
Proof. by destruct d. Qed.

(** One turn of the loop of [updateShowWatchStatusForNewContent]. *)
Lemma reopen_turn (showId profileId : Z) (w : World) :
  calm w -> (0 <= profileId)%Z ->
  let t := show_watch_status (w_db w) in
  let t1 :=
    if bool_decide (table_status t profileId showId = Some WATCHED)
    then (sql_update_status (status_key_matches profileId showId) WATCHING t).1
    else t in
  exists w',
    (await watchStatus <- ShowRest.getWatchStatus (pretty profileId) showId ;
     match watchStatus with
     | Some WATCHED =>
         await _ <- Show.updateWatchStatus (pretty profileId) showId WATCHING ;
         ret tt
     | _ => ret tt
     end) w = (w', Returned tt) /\
    calm w' /\
    w_db w' = with_show_watch_status (w_db w) t1 /\
    w_cache w' = w_cache w /\ w_emitted w' = w_emitted w /\ w_log w' = w_log w /\
    w_jobs w' = w_jobs w.
Proof.
  intros Hcalm Hid t t1.
  unfold bind at 1, ShowRest.getWatchStatus, query.
  rewrite execute_calm by done. cbn [fst snd]. rewrite Number_pretty by done.
  fold t. subst t1.
  destruct (table_status t profileId showId) as [[]|] eqn:Hstatus;
    try (rewrite bool_decide_eq_false_2 by done);
    try (eexists; split; [reflexivity|];
         rewrite with_show_watch_status_same;
         split; [by apply calm_set_db, calm_tail|]; by destruct w).
  rewrite bool_decide_eq_true_2 by done.
  unfold Show.updateWatchStatus, bind.
  rewrite execute_calm by (by apply calm_set_db, calm_tail).
  cbn [fst snd]. unfold ret, Show.update_show_status. rewrite Number_pretty by done.
  destruct w as [d tx fs now c s em lg jobs].
  cbn [w_db set_db set_faults w_faults] in *. subst t.
  destruct (sql_update_status (status_key_matches profileId showId) WATCHING
              (show_watch_status d)) as [t' n] eqn:Hupdate.
  cbn [fst snd]. eexists. split; [reflexivity|].
  split; [|done].
  unfold calm in *. cbn [w_faults set_db set_faults] in *.
  destruct fs as [|f [|f' fs]]; try done; cbn in *; destruct_and?; try done.
  all: repeat match goal with H : negb _ && _ = true |- _ =>
                apply andb_prop in H as [? ?] end; done.
Qed.

Lemma reopen_turn_status (t : list StatusRow) (showId q p s : Z) :
  let t1 :=
    if bool_decide (table_status t q showId = Some WATCHED)
    then (sql_update_status (status_key_matches q showId) WATCHING t).1
    else t in
  table_status t1 p s
  = if bool_decide (s = showId /\ p = q /\ table_status t p s = Some WATCHED)
    then Some WATCHING else table_status t p s.
Proof.
  intros t1. subst t1. case_bool_decide as Hwatched.
  - destruct (decide ((p, s) = (q, showId))) as [[= -> ->]|Hother].
    + rewrite table_status_update_same, Hwatched.
      by rewrite bool_decide_eq_true_2.
    + rewrite table_status_update_other
        by (intros r; by apply other_key_no_match).
      rewrite bool_decide_eq_false_2; [done|].
      intros (-> & -> & _). done.
  - rewrite bool_decide_eq_false_2; [done|].
    intros (-> & -> & Hst). done.
Qed.

Lemma reopen_loop (showId : Z) (profileIds : list Z) (w : World) :
  calm w -> Forall (fun p => (0 <= p)%Z) profileIds ->
  exists w' t',
    ShowService.for_of profileIds (fun profileId =>
       await watchStatus <- ShowRest.getWatchStatus (pretty profileId) showId ;
       match watchStatus with
       | Some WATCHED =>
           await _ <- Show.updateWatchStatus (pretty profileId) showId WATCHING ;
           ret tt
       | _ => ret tt
       end) w = (w', Returned tt) /\
    w_db w' = with_show_watch_status (w_db w) t' /\
    (forall p s,
       table_status t' p s
       = if bool_decide (s = showId /\ p ∈ profileIds /\
                         table_status (show_watch_status (w_db w)) p s = Some WATCHED)
         then Some WATCHING
         else table_status (show_watch_status (w_db w)) p s) /\
    w_cache w' = w_cache w /\ w_emitted w' = w_emitted w /\ w_log w' = w_log w /\
    w_jobs w' = w_jobs w.
Proof.
  intros Hcalm Hids. revert w Hcalm.
  induction Hids as [|q ids Hq Hids IH]; intros w Hcalm.
  - exists w, (show_watch_status (w_db w)). split; [done|].
    split; [by rewrite with_show_watch_status_same|]. split; [|done].
    intros p s. rewrite bool_decide_eq_false_2; [done|].
    intros (_ & Hin & _). by apply elem_of_nil in Hin.
  - destruct (reopen_turn showId q w Hcalm Hq)
      as (w1 & Hturn & Hcalm1 & Hdb1 & Hc1 & He1 & Hl1 & Hj1).
    destruct (IH w1 Hcalm1) as (w' & t' & Hrun & Hdb & Hstatus & Hc & He & Hl & Hj).
    exists w', t'. split; [|split; [|split]].
    + cbn [ShowService.for_of]. unfold bind at 1. cbn beta.
      rewrite Hturn. exact Hrun.
    + rewrite Hdb, Hdb1. apply with_show_watch_status_twice.
    + intros p s. rewrite Hstatus, Hdb1. cbn [show_watch_status with_show_watch_status].
      rewrite reopen_turn_status.
      repeat case_bool_decide; try done; exfalso;
        repeat match goal with H : context [_ ∈ _ :: _] |- _ =>
                 rewrite elem_of_cons in H end;
        intuition congruence.
    + by rewrite Hc, He, Hl, Hj.
Qed.

(** X10. [updateShowWatchStatusForNewContent(showId, profileIds)], when no
    statement is rejected and the ids are not negative, resolves; for a
    listed profile whose stored status of the show is WATCHED the status
    becomes WATCHING; every other stored show status (another show, a
    profile not listed, a status other than WATCHED, no association at all)
    reads as before; no other table changes and the cache keeps every
    entry, those of the show included. *)
Theorem updateShowWatchStatusForNewContent_reopens (w : World) (showId : Z)
    (profileIds : list Z) :
  calm w -> Forall (fun p => (0 <= p)%Z) profileIds ->
  let after := ShowServiceRest.updateShowWatchStatusForNewContent showId profileIds w in
  let before := show_watch_status (w_db w) in
  after.2 = Returned tt /\
  (forall p s,
     table_status (show_watch_status (w_db after.1)) p s
     = if bool_decide (s = showId /\ p ∈ profileIds /\
                       table_status before p s = Some WATCHED)
       then Some WATCHING else table_status before p s) /\
  w_db after.1 = with_show_watch_status (w_db w) (show_watch_status (w_db after.1)) /\
  w_cache after.1 = w_cache w.
Proof.
  intros Hcalm Hids after before.
  destruct (reopen_loop showId profileIds w Hcalm Hids)
    as (w' & t' & Hrun & Hdb & Hstatus & Hc & _).
  assert (Hafter : after = (w', Returned tt)).
  { subst after.
    unfold ShowServiceRest.updateShowWatchStatusForNewContent, ShowService.handled,
      try_catch.
    by rewrite Hrun. }
  rewrite Hafter. cbn [fst snd]. split; [done|].
  rewrite Hdb. cbn [show_watch_status with_show_watch_status]. done.
Qed.

Lemma updateShowWatchStatusForNewContent_reopens_witness :
  let w := Example.world ExampleRest.watched_show_db [] in
  let after := ShowServiceRest.updateShowWatchStatusForNewContent 7 [1%Z; 3%Z] w in
  calm w /\ Forall (fun p => (0 <= p)%Z) [1%Z; 3%Z] /\
  after.2 = Returned tt /\
  table_status (show_watch_status (w_db after.1)) 1 7 = Some WATCHING /\
  table_status (show_watch_status (w_db after.1)) 2 7 = Some WATCHED /\
  table_status (show_watch_status (w_db after.1)) 3 7 = Some NOT_WATCHED /\
  table_status (show_watch_status (w_db after.1)) 1 8 = Some WATCHED.
Proof.
  intros w after.
  assert (Hcalm : calm w) by reflexivity.
  assert (Hids : Forall (fun p => (0 <= p)%Z) [1%Z; 3%Z])
    by (repeat constructor; lia).
  destruct (updateShowWatchStatusForNewContent_reopens w 7 [1%Z; 3%Z] Hcalm Hids)
    as (Hret & Hstatus & _).
  split; [exact Hcalm|]. split; [exact Hids|]. split; [exact Hret|].
  subst after. rewrite !Hstatus. repeat split; reflexivity.
Defined.

(** ** Reads through the cache *)

Lemma query_calm {A} (q : DB -> A) (w : World) :
  calm w ->
  query q w = (set_faults w (tail (w_faults w)), Returned (q (w_db w))).
Proof.
  intros Hcalm. apply query_run. unfold calm in Hcalm.
  destruct (w_faults w) as [|[] fs]; done.
Qed.

Lemma getOrSet_miss (key : string) (producer : M Json) (ttlSeconds : Z)
    (w w' : World) (value : Json) :
  w_cache w !! key = None ->
  producer w = (w', Returned value) ->
  CacheService.getOrSet key producer ttlSeconds w
  = (set_cache w' (<[key := mkCacheEntry value (w_now w' + 1000 * ttlSeconds)%Z]>
                     (w_cache w')),
     Returned value).
Proof.
  intros Hmiss Hrun. unfold CacheService.getOrSet. rewrite Hmiss.
  unfold bind. by rewrite Hrun.
Qed.

Lemma getOrSet_rejected (key : string) (producer : M Json) (ttlSeconds : Z)
    (w w' : World) (e : Error) :
  w_cache w !! key = None ->
  producer w = (w', Thrown e) ->
  CacheService.getOrSet key producer ttlSeconds w = (w', Thrown e).
Proof.
  intros Hmiss Hrun. unfold CacheService.getOrSet. rewrite Hmiss.
  unfold bind. by rewrite Hrun.
Qed.

Lemma getOrSet_hit (key : string) (producer : M Json) (ttlSeconds : Z)
    (w : World) (entry : CacheEntry) :
  w_cache w !! key = Some entry ->
  (w_now w < entry_expires entry)%Z ->
  CacheService.getOrSet key producer ttlSeconds w = (w, Returned (entry_value entry)).
Proof.
  intros Hhit Hfresh. unfold CacheService.getOrSet. rewrite Hhit.
  by rewrite (proj2 (Z.ltb_lt _ _) Hfresh).
Qed.

(** ** Recommended and similar shows *)

Lemma related_shows_calm (env : Env) (discovery : Discovery) (fetch : Z -> Json)
    (profileId : string) (show : ShowRow) (w : World) :
  calm w ->
  exists w',
    ShowServiceRest.related_shows env discovery fetch profileId show w
    = (w',
       Returned
         (JArr (map (ShowServiceRest.recommendation discovery
                       (map (get_field "tmdb_id")
                            (array_items
                               (Show_getAllShowsForProfile env (w_db w) profileId))))
                    (filterUSOrEnglishShows discovery
                       (get_field "results" (fetch (show_tmdb_id show))))))) /\
    calm w' /\ w_db w' = w_db w /\ w_cache w' = w_cache w /\ w_now w' = w_now w.
Proof.
  intros Hcalm. eexists. split.
  - unfold ShowServiceRest.related_shows, bind.
    rewrite io_calm by done. rewrite query_calm by (by apply calm_tail).
    reflexivity.
  - split; [by apply calm_tail, calm_tail|]. by destruct w.
Qed.

(** The shape shared by [getShowRecommendations] and [getSimilarShows]: the
    first answer is computed for the profile that asks and stored under a
    key made of the show only; a second profile asking before the entry
    expires gets that answer. *)
Lemma related_shared (env : Env) (discovery : Discovery) (fetch : Z -> Json)
    (key context1 context2 : string) (w : World) (profile1 profile2 : string)
    (showId : Z) (show : ShowRow) :
  calm w ->
  ShowRest.find_by_id (w_db w) showId = Some show ->
  w_cache w !! key = None ->
  let ask context profileId :=
    ShowService.handled context
      (await show <- ShowRest.findById showId ;
       await _ <- errorService.assertExists (ShowServiceRest.show_or_null show)
                                             "Show" (pretty showId) ;
       match show with
       | Some show =>
           CacheService.getOrSet key
             (ShowServiceRest.related_shows env discovery fetch profileId show) 86400
       | None => ret JNull
       end) in
  let answer :=
    JArr (map (ShowServiceRest.recommendation discovery
                 (map (get_field "tmdb_id")
                      (array_items (Show_getAllShowsForProfile env (w_db w) profile1))))
              (filterUSOrEnglishShows discovery
                 (get_field "results" (fetch (show_tmdb_id show))))) in
  exists w1 w2,
    ask context1 profile1 w = (w1, Returned answer) /\
    ask context2 profile2 w1 = (w2, Returned answer) /\
    w_cache w2 = w_cache w1 /\ w_db w2 = w_db w.
Proof.
  intros Hcalm Hfound Hmiss ask answer.
  set (w0 := set_faults w (tail (w_faults w))).
  assert (Hcalm0 : calm w0) by by apply calm_tail.
  destruct (related_shows_calm env discovery fetch profile1 show w0 Hcalm0)
    as (w' & Hrun & Hcalm' & Hdb' & Hcache' & Hnow').
  assert (Hdb0 : w_db w0 = w_db w) by by destruct w.
  rewrite Hdb0 in Hrun. fold answer in Hrun.
  set (w1 := set_cache w' (<[key := mkCacheEntry answer (w_now w' + 1000 * 86400)%Z]>
                             (w_cache w'))).
  assert (Hfirst : ask context1 profile1 w = (w1, Returned answer)).
  { subst ask. cbn beta. unfold ShowService.handled, try_catch, bind at 1,
      ShowRest.findById.
    rewrite query_calm by done. rewrite Hfound. fold w0.
    unfold bind, ShowServiceRest.show_or_null, errorService.assertExists, ret.
    rewrite (getOrSet_miss key _ 86400 w0 w' answer); [done| |done].
    subst w0. by destruct w. }
  assert (Hcalm1 : calm w1) by (subst w1; by destruct w').
  assert (Hdb1 : w_db w1 = w_db w) by (subst w1; destruct w'; cbn in *; congruence).
  exists w1, (set_faults w1 (tail (w_faults w1))).
  split; [exact Hfirst|]. split; [|split; [by destruct w1|by destruct w1]].
  subst ask. cbn beta. unfold ShowService.handled, try_catch, bind at 1,
    ShowRest.findById.
  rewrite query_calm by done. rewrite Hdb1, Hfound.
  unfold bind, ShowServiceRest.show_or_null, errorService.assertExists, ret.
  rewrite (getOrSet_hit key _ 86400 _
             (mkCacheEntry answer (w_now w' + 1000 * 86400)%Z)); [done| |].
  - subst w1. destruct w'. cbn. apply lookup_insert_eq.
  - subst w1. destruct w'. cbn. lia.
Qed.

(** X11. [getShowRecommendations] and [getSimilarShows] store their answer
    under [recommendations_<showId>] and [similarShows_<showId>], keys that
    do not name the profile, although the answer holds the [inFavorites]
    flags of the profile that asked. So when nothing is rejected and the key
    is not cached yet, the first call returns the provider's shows flagged
    with the favorites of its own profile, and a following call for the same
    show returns that same answer to whatever profile asks, without
    computing anything and leaving the cache as it is. *)
Theorem related_shows_shared_across_profiles (env : Env) (discovery : Discovery)
    (w : World) (profile1 profile2 : string) (showId : Z) (show : ShowRow) :
  calm w ->
  ShowRest.find_by_id (w_db w) showId = Some show ->
  let flagged fetch :=
    JArr (map (ShowServiceRest.recommendation discovery
                 (map (get_field "tmdb_id")
                      (array_items (Show_getAllShowsForProfile env (w_db w) profile1))))
              (filterUSOrEnglishShows discovery
                 (get_field "results" (fetch (show_tmdb_id show))))) in
  (w_cache w !! ("recommendations_" +:+ pretty showId) = None ->
   let first := ShowServiceRest.getShowRecommendations env discovery profile1 showId w in
   let second :=
     ShowServiceRest.getShowRecommendations env discovery profile2 showId first.1 in
   first.2 = Returned (flagged (tmdb_getShowRecommendations discovery)) /\
   second.2 = Returned (flagged (tmdb_getShowRecommendations discovery)) /\
   w_cache second.1 = w_cache first.1) /\
  (w_cache w !! ("similarShows_" +:+ pretty showId) = None ->
   let first := ShowServiceRest.getSimilarShows env discovery profile1 showId w in
   let second := ShowServiceRest.getSimilarShows env discovery profile2 showId first.1 in
   first.2 = Returned (flagged (tmdb_getSimilarShows discovery)) /\
   second.2 = Returned (flagged (tmdb_getSimilarShows discovery)) /\
   w_cache second.1 = w_cache first.1).
Proof.
  intros Hcalm Hfound flagged. split; intros Hmiss first second.
  - destruct (related_shared env discovery (tmdb_getShowRecommendations discovery)
                ("recommendations_" +:+ pretty showId)
                ("getShowRecommendations(" +:+ profile1 +:+ ", " +:+ pretty showId +:+ ")")
                ("getShowRecommendations(" +:+ profile2 +:+ ", " +:+ pretty showId +:+ ")")
                w profile1 profile2 showId show Hcalm Hfound Hmiss)
      as (w1 & w2 & Hfirst & Hsecond & Hcache & _).
    change (first = (w1, Returned (flagged (tmdb_getShowRecommendations discovery))))
      in Hfirst.
    subst second. rewrite Hfirst. cbn [fst snd].
    change (ShowServiceRest.getShowRecommendations env discovery profile2 showId w1
            = (w2, Returned (flagged (tmdb_getShowRecommendations discovery))))
      in Hsecond.
    rewrite Hsecond. done.
  - destruct (related_shared env discovery (tmdb_getSimilarShows discovery)
                ("similarShows_" +:+ pretty showId)
                ("getSimilarShows(" +:+ profile1 +:+ ", " +:+ pretty showId +:+ ")")
                ("getSimilarShows(" +:+ profile2 +:+ ", " +:+ pretty showId +:+ ")")
                w profile1 profile2 showId show Hcalm Hfound Hmiss)
      as (w1 & w2 & Hfirst & Hsecond & Hcache & _).
    change (first = (w1, Returned (flagged (tmdb_getSimilarShows discovery))))
      in Hfirst.
    subst second. rewrite Hfirst. cbn [fst snd].
    change (ShowServiceRest.getSimilarShows env discovery profile2 showId w1
            = (w2, Returned (flagged (tmdb_getSimilarShows discovery))))
      in Hsecond.
    rewrite Hsecond. done.
Qed.

Lemma related_shows_shared_across_profiles_witness :
  let w := Example.world ExampleRest.watched_show_db [] in
  let first :=
    ShowServiceRest.getShowRecommendations ExampleRest.env ExampleRest.discovery
      "1" 7 w in
  let second :=
    ShowServiceRest.getShowRecommendations ExampleRest.env ExampleRest.discovery
      "5" 7 first.1 in
  calm w /\
  ShowRest.find_by_id (w_db w) 7 = Some (mkShowRow 7 77 "Example show") /\
  w_cache w !! ("recommendations_" +:+ pretty 7%Z) = None /\
  Show_getAllShowsForProfile ExampleRest.env (w_db w) "5" = JArr [] /\
  exists answer,
    second.2 = Returned answer /\
    map (get_field "inFavorites") (array_items answer) = [JBool true; JBool true].
Proof.
  intros w first second.
  assert (Hcalm : calm w) by reflexivity.
  assert (Hfound : ShowRest.find_by_id (w_db w) 7
                   = Some (mkShowRow 7 77 "Example show")) by reflexivity.
  assert (Hmiss : w_cache w !! ("recommendations_" +:+ pretty 7%Z) = None)
    by reflexivity.
  destruct (related_shows_shared_across_profiles ExampleRest.env ExampleRest.discovery
              w "1" "5" 7 (mkShowRow 7 77 "Example show") Hcalm Hfound)
    as [Hrecommended _].
  destruct (Hrecommended Hmiss) as (_ & Hsecond & _).
  split; [exact Hcalm|]. split; [exact Hfound|]. split; [exact Hmiss|].
  split; [reflexivity|].
  eexists. split; [exact Hsecond|]. reflexivity.
Defined.

(** ** Status updates and the cached reads *)

Lemma cache_kept_refl (w : World) : cache_kept w w.
Proof. done. Qed.

Lemma cache_kept_trans (a b c : World) :
  cache_kept a b -> cache_kept b c -> cache_kept a c.
Proof. unfold cache_kept. intros [? ?] [? ?]. split; congruence. Qed.

Lemma cache_kept_faults (w : World) (fs : list bool) : cache_kept w (set_faults w fs).
Proof. by destruct w. Qed.

Lemma cache_kept_execute {A} (stmt : DB -> DB * A) (w : World) :
  cache_kept w (execute stmt w).1.
Proof.
  unfold execute.
  apply (step_io cache_kept cache_kept_trans cache_kept_faults).
  intros w0. destruct (stmt (w_db w0)). by destruct w0.
Qed.

Lemma cache_kept_connection_execute {A} (stmt : DB -> DB * A) (w : World) :
  cache_kept w (connection_execute stmt w).1.
Proof.
  unfold connection_execute.
  apply (step_io cache_kept cache_kept_trans cache_kept_faults).
  intros w0. destruct w0 as [d tx fs now c s em lg jobs]. cbn [w_tx w_db].
  destruct tx as [pending|]; [by destruct (stmt pending)|by destruct (stmt d)].
Qed.

Lemma cache_kept_Show_updateWatchStatus (profileId : string) (showId : Z)
    (status : WatchStatus) (w : World) :
  cache_kept w (Show.updateWatchStatus profileId showId status w).1.
Proof.
  unfold Show.updateWatchStatus.
  apply (step_bind cache_kept cache_kept_trans); [apply cache_kept_execute|].
  intros. apply cache_kept_refl.
Qed.

Lemma cache_kept_Show_updateAllWatchStatuses (profileId : string) (showId : Z)
    (status : WatchStatus) (w : World) :
  cache_kept w (Show.updateAllWatchStatuses profileId showId status w).1.
Proof.
  unfold Show.updateAllWatchStatuses.
  apply (step_bind cache_kept cache_kept_trans).
  { apply (step_io cache_kept cache_kept_trans cache_kept_faults). intros w0. done. }
  intros _ w1 _.
  apply (step_try_catch cache_kept cache_kept_trans).
  - apply (step_bind cache_kept cache_kept_trans).
    { unfold beginTransaction.
      apply (step_io cache_kept cache_kept_trans cache_kept_faults).
      intros w0. by destruct w0. }
    intros _ w2 _.
    apply (step_bind cache_kept cache_kept_trans);
      [apply cache_kept_connection_execute|].
    intros showAffected w3 _.
    destruct (showAffected =? 0)%Z; [apply cache_kept_refl|].
    apply (step_bind cache_kept cache_kept_trans);
      [apply cache_kept_connection_execute|].
    intros _ w4 _.
    apply (step_bind cache_kept cache_kept_trans);
      [apply cache_kept_connection_execute|].
    intros episodesAffected w5 _.
    apply (step_bind cache_kept cache_kept_trans).
    { unfold commit.
      apply (step_io cache_kept cache_kept_trans cache_kept_faults).
      intros w0. destruct w0 as [d tx fs now c s em lg jobs]. by destruct tx. }
    intros. apply cache_kept_refl.
  - intros e w2.
    apply (step_bind cache_kept cache_kept_trans).
    + unfold rollback.
      apply (step_io cache_kept cache_kept_trans cache_kept_faults).
      intros w0. by destruct w0.
    + intros. apply cache_kept_refl.
Qed.

(** What the update does to the cache, cascading or not: on success exactly
    the three keys it names are dropped, on failure none; the clock is not
    moved. *)
Lemma updateShowWatchStatus_cache_any (w : World) (profileId : string) (showId : Z)
    (status : WatchStatus) (recursive : bool) :
  let after := ShowService.updateShowWatchStatus profileId showId status recursive w in
  w_now after.1 = w_now w /\
  match after.2 with
  | Returned success =>
      success = true /\
      w_cache after.1 =
      delete (ShowService.CACHE_KEYS.PROFILE_UNWATCHED_EPISODES profileId)
        (delete (ShowService.CACHE_KEYS.PROFILE_SHOWS profileId)
           (delete (ShowService.CACHE_KEYS.PROFILE_SHOW profileId showId)
              (w_cache w)))
  | Thrown _ => w_cache after.1 = w_cache w
  end.
Proof.
  intros after.
  set (inner := if recursive
                then Show.updateAllWatchStatuses profileId showId status
                else Show.updateWatchStatus profileId showId status).
  assert (Hkept : cache_kept w (inner w).1).
  { subst inner. destruct recursive;
      [apply cache_kept_Show_updateAllWatchStatuses
      |apply cache_kept_Show_updateWatchStatus]. }
  assert (Hafter :
    after
    = match inner w with
      | (w1, Returned true) =>
          (set_cache w1
             (delete (ShowService.CACHE_KEYS.PROFILE_UNWATCHED_EPISODES profileId)
                (delete (ShowService.CACHE_KEYS.PROFILE_SHOWS profileId)
                   (delete (ShowService.CACHE_KEYS.PROFILE_SHOW profileId showId)
                      (w_cache w1)))),
           Returned true)
      | (w1, Returned false) =>
          (w1, Thrown (errorService.handleError
                         (BadRequestError
                            ("Failed to update watch status. Ensure the show (ID: "
                             +:+ pretty showId +:+ ") exists in your favorites."))
                         ("updateShowWatchStatus(" +:+ profileId +:+ ", "
                          +:+ pretty showId +:+ ", " +:+ status_name status +:+ ", "
                          +:+ (if recursive then "true" else "false") +:+ ")")))
      | (w1, Thrown e) =>
          (w1, Thrown (errorService.handleError e
                         ("updateShowWatchStatus(" +:+ profileId +:+ ", "
                          +:+ pretty showId +:+ ", " +:+ status_name status +:+ ", "
                          +:+ (if recursive then "true" else "false") +:+ ")")))
      end).
  { subst after.
    unfold ShowService.updateShowWatchStatus, ShowService.handled, try_catch, bind.
    fold inner. by destruct (inner w) as [w1 [[]|e]]. }
  rewrite Hafter. destruct Hkept as [Hcache Hnow].
  destruct (inner w) as [w1 [[]|e]]; cbn [fst snd] in *; try done.
  destruct w1. cbn in *. by subst.
Qed.

Lemma profile_key_neq (profileId a b : string) :
  a <> b -> "profile_" +:+ profileId +:+ a <> "profile_" +:+ profileId +:+ b.
Proof.
  intros Hne Heq. apply Hne.
  by apply (inj (String.app profileId)), (inj (String.app "profile_")).
Qed.

(** X12. After a show-status update that succeeded, cascading or not, the
    next [getShowsForProfile] of that profile does not answer from the
    cache: when its read is not rejected it returns the show list computed
    from the rows the update left, and caches it for 600 seconds under
    [profile_<id>_shows]. *)
Theorem getShowsForProfile_after_updateShowWatchStatus (env : Env) (w : World)
    (profileId : string) (showId : Z) (status : WatchStatus) (recursive : bool) :
  let updated :=
    ShowService.updateShowWatchStatus profileId showId status recursive w in
  let reread := ShowService.getShowsForProfile env profileId updated.1 in
  let fresh := Show_getAllShowsForProfile env (w_db updated.1) profileId in
  updated.2 = Returned true ->
  head (w_faults updated.1) <> Some true ->
  reread.2 = Returned fresh /\
  w_db reread.1 = w_db updated.1 /\
  w_cache reread.1 !! ShowService.CACHE_KEYS.PROFILE_SHOWS profileId
  = Some (mkCacheEntry fresh (w_now w + 600000)%Z).
Proof.
  intros updated reread fresh Hok Hread.
  destruct (updateShowWatchStatus_cache_any w profileId showId status recursive)
    as [Hnow Hcache].
  fold updated in Hnow, Hcache. rewrite Hok in Hcache. destruct Hcache as [_ Hcache].
  assert (Hmiss : w_cache updated.1 !! ShowService.CACHE_KEYS.PROFILE_SHOWS profileId
                  = None).
  { rewrite Hcache. rewrite lookup_delete_ne
      by (unfold ShowService.CACHE_KEYS.PROFILE_UNWATCHED_EPISODES,
            ShowService.CACHE_KEYS.PROFILE_SHOWS; by apply profile_key_neq).
    apply lookup_delete_eq. }
  assert (Hrun : reread
                 = (set_cache (set_faults updated.1 (tail (w_faults updated.1)))
                      (<[ShowService.CACHE_KEYS.PROFILE_SHOWS profileId :=
                           mkCacheEntry fresh (w_now updated.1 + 1000 * 600)%Z]>
                         (w_cache updated.1)),
                    Returned fresh)).
  { subst reread. unfold ShowService.getShowsForProfile, ShowService.handled, try_catch.
    rewrite (getOrSet_miss _ _ 600 _ (set_faults updated.1 (tail (w_faults updated.1)))
               fresh Hmiss); [|by apply query_run].
    by destruct (updated.1). }
  rewrite Hrun. cbn [fst snd]. split; [done|]. split; [by destruct (updated.1)|].
  destruct (updated.1) as [d tx fs now c s em lg jobs] eqn:Hw1.
  cbn [w_cache set_cache set_faults w_now] in *. rewrite lookup_insert_eq.
  do 2 f_equal. lia.
Qed.

Lemma getShowsForProfile_after_updateShowWatchStatus_witness :
  let w0 := Example.world Example.favorited_show_db [] in
  let w := (ShowService.getShowsForProfile Example.env "1" w0).1 in
  let updated := ShowService.updateShowWatchStatus "1" 7 WATCHED false w in
  let reread := ShowService.getShowsForProfile Example.env "1" updated.1 in
  (exists entry,
     w_cache w !! "profile_1_shows" = Some entry /\
     entry_value entry = JArr [Example.view 7 NOT_WATCHED]) /\
  updated.2 = Returned true /\
  head (w_faults updated.1) <> Some true /\
  reread.2 = Returned (JArr [Example.view 7 WATCHED]).
Proof.
  intros w0 w updated reread.
  assert (Hok : updated.2 = Returned true) by reflexivity.
  assert (Hread : head (w_faults updated.1) <> Some true) by discriminate.
  destruct (getShowsForProfile_after_updateShowWatchStatus Example.env w "1" 7
              WATCHED false Hok Hread) as [Hfresh _].
  split; [eexists; split; reflexivity|].
  split; [exact Hok|]. split; [exact Hread|].
  subst reread updated. rewrite Hfresh. reflexivity.
Defined.

(** X13. A show-status update, cascading or not, successful or not, leaves
    the entry [profile_<id>_episodes] in the cache: the key it drops for the
    unwatched episodes is [profile_<id>_unwatched_episodes]. So while that
    entry has not expired, [getEpisodesForProfile] after the update returns
    the recent, upcoming and next unwatched episodes as they were cached
    before it, and reads nothing. *)
Theorem getEpisodesForProfile_cached_across_updateShowWatchStatus (env : Env)
    (w : World) (profileId : string) (showId : Z) (status : WatchStatus)
    (recursive : bool) (entry : CacheEntry) :
  let updated :=
    ShowService.updateShowWatchStatus profileId showId status recursive w in
  w_cache w !! ShowService.CACHE_KEYS.PROFILE_EPISODES profileId = Some entry ->
  (w_now w < entry_expires entry)%Z ->
  ShowService.getEpisodesForProfile env profileId updated.1
  = (updated.1, Returned (entry_value entry)).
Proof.
  intros updated Hcached Hfresh.
  destruct (updateShowWatchStatus_cache_any w profileId showId status recursive)
    as [Hnow Hcache].
  fold updated in Hnow, Hcache.
  assert (Hkept : w_cache updated.1 !! ShowService.CACHE_KEYS.PROFILE_EPISODES profileId
                  = Some entry).
  { destruct (updated.2) as [success|e]; [|by rewrite Hcache].
    destruct Hcache as [_ ->].
    unfold ShowService.CACHE_KEYS.PROFILE_UNWATCHED_EPISODES,
      ShowService.CACHE_KEYS.PROFILE_SHOWS, ShowService.CACHE_KEYS.PROFILE_SHOW,
      ShowService.CACHE_KEYS.PROFILE_EPISODES in *.
    rewrite !lookup_delete_ne by (by apply profile_key_neq). done. }
  unfold ShowService.getEpisodesForProfile, ShowService.handled, try_catch.
  rewrite (getOrSet_hit _ _ 300 _ entry Hkept) by (by rewrite Hnow). done.
Qed.

Lemma getEpisodesForProfile_cached_across_updateShowWatchStatus_witness :
  let w :=
    set_cache (Example.world Example.favorited_show_db [])
      (<["profile_1_episodes" := mkCacheEntry (JStr "as cached") 10]> ∅) in
  let updated := ShowService.updateShowWatchStatus "1" 7 WATCHED false w in
  w_cache w !! ShowService.CACHE_KEYS.PROFILE_EPISODES "1"
  = Some (mkCacheEntry (JStr "as cached") 10) /\
  (w_now w < 10)%Z /\
  updated.2 = Returned true /\
  (ShowService.getEpisodesForProfile Example.env "1" updated.1).2
  = Returned (JStr "as cached").
Proof.
  intros w updated.
  assert (Hcached : w_cache w !! ShowService.CACHE_KEYS.PROFILE_EPISODES "1"
                    = Some (mkCacheEntry (JStr "as cached") 10)) by reflexivity.
  assert (Hfresh : (w_now w < 10)%Z) by (cbn; lia).
  split; [exact Hcached|]. split; [exact Hfresh|]. split; [reflexivity|].
  subst updated.
  rewrite (getEpisodesForProfile_cached_across_updateShowWatchStatus Example.env w
             "1" 7 WATCHED false _ Hcached Hfresh).
  reflexivity.
Defined.

(** ** Favoriting a show that is already stored *)

Lemma string_prefix_refl (s : string) : String.prefix s s = true.
Proof.
  induction s as [|a s IH]; [done|]. cbn.
  destruct (ascii_dec a a); [exact IH|done].
Qed.

Lemma getEpisodesForProfile_miss (env : Env) (profileId : string) (w : World) :
  calm w ->
  w_cache w !! ShowService.CACHE_KEYS.PROFILE_EPISODES profileId = None ->
  let episodeData :=
    JObj [("recentEpisodes", episodesDb_getRecentEpisodesForProfile env (w_db w) profileId);
          ("upcomingEpisodes",
           episodesDb_getUpcomingEpisodesForProfile env (w_db w) profileId);
          ("nextUnwatchedEpisodes",
           Show_getNextUnwatchedEpisodesForProfile env (w_db w) profileId)] in
  exists w',
    ShowService.getEpisodesForProfile env profileId w = (w', Returned episodeData) /\
    w_db w' = w_db w /\
    w_cache w'
    = <[ShowService.CACHE_KEYS.PROFILE_EPISODES profileId :=
          mkCacheEntry episodeData (w_now w + 300000)%Z]> (w_cache w).
Proof.
  intros Hcalm Hmiss episodeData.
  set (w3 := set_faults w (tail (tail (tail (w_faults w))))).
  exists (set_cache w3 (<[ShowService.CACHE_KEYS.PROFILE_EPISODES profileId :=
                            mkCacheEntry episodeData (w_now w3 + 1000 * 300)%Z]>
                          (w_cache w3))).
  split; [|by destruct w].
  unfold ShowService.getEpisodesForProfile, ShowService.handled, try_catch.
  rewrite (getOrSet_miss _ _ 300 w w3 episodeData Hmiss); [done|].
  unfold bind. rewrite query_calm by done.
  rewrite query_calm by (by apply calm_tail).
  rewrite query_calm by (by apply calm_tail, calm_tail).
  subst w3 episodeData. by destruct w.
Qed.

(** X14. Favoriting a show that is already stored, when nothing is rejected:
    the show and each of its stored seasons and episodes get their
    association, and the answer is the show as read after that together
    with the recent, upcoming and next unwatched episodes read after that,
    whatever the cache held before. Afterwards the cache holds that episode
    answer under [profile_<id>_episodes] for 300 seconds, no other key that
    starts with [profile_<id>], and every other entry as before. *)
Theorem addShowToFavorites_existing_answers_from_rows (env : Env) (w : World)
    (profileId : string) (showId : Z) (existing : ShowRow) :
  calm w ->
  decimal_id profileId = true ->
  Show.find_by_tmdb_id (w_db w) showId = Some existing ->
  let after := ShowService.addShowToFavorites env profileId showId w in
  let d := Show.save_favorite existing profileId true (w_db w) in
  let episodeData :=
    [("recentEpisodes", episodesDb_getRecentEpisodesForProfile env d profileId);
     ("upcomingEpisodes", episodesDb_getUpcomingEpisodesForProfile env d profileId);
     ("nextUnwatchedEpisodes", Show_getNextUnwatchedEpisodesForProfile env d profileId)] in
  w_db after.1 = d /\
  after.2
  = Returned (JObj (("favoritedShow",
                     Show_getShowForProfile env d profileId (show_id existing))
                    :: episodeData)) /\
  forall key,
    w_cache after.1 !! key
    = if decide (key = ShowService.CACHE_KEYS.PROFILE_EPISODES profileId)
      then Some (mkCacheEntry (JObj episodeData) (w_now w + 300000)%Z)
      else if String.prefix ("profile_" +:+ profileId) key then None
           else w_cache w !! key.
Proof.
  intros Hcalm _ Hfound after d episodeData.
  set (w1 := set_faults w (tail (w_faults w))).
  set (w2 := set_db (set_faults w1 (tail (w_faults w1))) d).
  set (w3 := (ShowService.invalidateProfileCache profileId w2).1).
  set (w4 := set_faults w3 (tail (w_faults w3))).
  assert (Hcalm1 : calm w1) by by apply calm_tail.
  assert (Hcalm2 : calm w2) by by apply calm_set_db, calm_tail.
  assert (Hcalm3 : calm w3) by (subst w3; by destruct w2).
  assert (Hcalm4 : calm w4) by by apply calm_tail.
  assert (Hdb4 : w_db w4 = d) by (subst w4 w3 w2 w1; by destruct w).
  assert (Hnow4 : w_now w4 = w_now w) by (subst w4 w3 w2 w1; by destruct w).
  assert (Hcache4 : forall key,
            w_cache w4 !! key
            = if String.prefix ("profile_" +:+ profileId) key then None
              else w_cache w !! key).
  { intros key. transitivity (w_cache w3 !! key); [subst w4; by destruct w3|].
    subst w3. unfold ShowService.invalidateProfileCache.
    rewrite invalidatePattern_lookup. subst w2 w1. by destruct w. }
  assert (Hmiss : w_cache w4 !! ShowService.CACHE_KEYS.PROFILE_EPISODES profileId = None).
  { rewrite Hcache4. unfold ShowService.CACHE_KEYS.PROFILE_EPISODES.
    rewrite !string_prefix_append.
    by rewrite (string_prefix_weaken profileId profileId "_episodes")
      by apply string_prefix_refl. }
  destruct (getEpisodesForProfile_miss env profileId w4 Hcalm4 Hmiss)
    as (w5 & Hepisodes & Hdb5 & Hcache5).
  rewrite Hdb4 in Hepisodes. rewrite Hdb4, Hnow4 in Hcache5.
  fold episodeData in Hepisodes, Hcache5.
  assert (Hrun : after
                 = (w5, Returned (JObj (("favoritedShow",
                                         Show_getShowForProfile env d profileId
                                           (show_id existing)) :: episodeData)))).
  { subst after. unfold ShowService.addShowToFavorites, ShowService.handled, try_catch,
      bind at 1, Show.findByTMDBId.
    rewrite query_calm by done. rewrite Hfound. fold w1.
    unfold ShowService.favoriteExistingShow, bind at 1, Show.saveFavorite.
    rewrite execute_calm by done. cbn [fst snd].
    assert (Hdb1 : w_db w1 = w_db w) by (subst w1; by destruct w).
    rewrite Hdb1. fold d. fold w2.
    unfold bind at 1.
    rewrite (surjective_pairing (ShowService.invalidateProfileCache profileId w2)).
    fold w3. cbn [snd ShowService.invalidateProfileCache CacheService.invalidatePattern].
    unfold bind at 1. rewrite query_calm by done. fold w4.
    unfold bind at 1. rewrite Hepisodes.
    assert (Hdb3 : w_db w3 = d) by (subst w3 w2 w1; by destruct w).
    by rewrite Hdb3. }
  rewrite Hrun. cbn [fst snd]. split; [by rewrite Hdb5|]. split; [done|].
  intros key. rewrite Hcache5.
  destruct (decide (key = ShowService.CACHE_KEYS.PROFILE_EPISODES profileId))
    as [->|Hne].
  - by rewrite lookup_insert_eq.
  - rewrite lookup_insert_ne by done. apply Hcache4.
Qed.

Lemma addShowToFavorites_existing_answers_from_rows_witness :
  let w :=
    set_cache (Example.world Example.favorited_show_db [])
      (<["profile_2_episodes" := mkCacheEntry (JStr "as cached") 10]> ∅) in
  let after := ShowService.addShowToFavorites Example.env "2" 77 w in
  calm w /\
  decimal_id "2" = true /\
  Show.find_by_tmdb_id (w_db w) 77 = Some (mkShowRow 7 77 "Example show") /\
  after.2
  = Returned (JObj [("favoritedShow", Example.view 7 NOT_WATCHED);
                    ("recentEpisodes", JArr []);
                    ("upcomingEpisodes", JArr []);
                    ("nextUnwatchedEpisodes", JArr [])]) /\
  table_status (show_watch_status (w_db after.1)) 2 7 = Some NOT_WATCHED.
Proof.
  intros w after.
  assert (Hcalm : calm w) by reflexivity.
  assert (Hfound : Show.find_by_tmdb_id (w_db w) 77
                   = Some (mkShowRow 7 77 "Example show")) by reflexivity.
  destruct (addShowToFavorites_existing_answers_from_rows Example.env w "2" 77
              (mkShowRow 7 77 "Example show") Hcalm eq_refl Hfound)
    as (Hdb & Hanswer & _).
  split; [exact Hcalm|]. split; [reflexivity|]. split; [exact Hfound|].
  subst after. rewrite Hanswer, Hdb. split; reflexivity.
Defined.

(** ** The pace of a load *)

Lemma load_season_clock (env : Env) (show : TmdbShow) (showId : Z)
    (profileId : string) (rs : TmdbSeason) (w : World) :
  calm w ->
  exists w',
    ShowService.load_season env show showId profileId rs w = (w', Returned tt) /\
    calm w' /\ w_now w' = (w_now w + 200)%Z.
Proof.
  intros Hc. unfold ShowService.load_season, bind.
  rewrite io_calm by done. cbn beta iota.
  unfold Season.save, Season.saveFavorite, try_catch, bind.
  rewrite execute_calm by (by apply calm_tail). cbn [fst snd].
  unfold ret at 1. cbn beta iota.
  rewrite execute_calm by (by apply calm_set_db, calm_tail, calm_tail).
  cbn [fst snd].
  match goal with |- context [ShowService.for_of ?res (ShowService.load_episode ?a ?b ?c) ?w0] =>
    destruct (load_episodes_calm a b c res w0) as (w1 & Hrun & Hc1 & Hdb1 & Hs1 & Hn1)
  end.
  { by apply calm_set_db, calm_tail, calm_set_db, calm_tail, calm_tail. }
  rewrite Hrun. unfold ShowService.sleep. eexists. split; [reflexivity|].
  split; [by destruct w1|].
  destruct w1, w. cbn in *. lia.
Qed.

Lemma load_seasons_clock (env : Env) (show : TmdbShow) (showId : Z)
    (profileId : string) (vs : list TmdbSeason) (w : World) :
  calm w ->
  exists w',
    ShowService.for_of vs (ShowService.load_season env show showId profileId) w
    = (w', Returned tt) /\
    calm w' /\ w_now w' = (w_now w + 200 * Z.of_nat (length vs))%Z.
Proof.
  revert w. induction vs as [|rs vs IH]; intros w Hc.
  - exists w. split; [done|]. split; [done|]. cbn. lia.
  - destruct (load_season_clock env show showId profileId rs w Hc)
      as (w1 & Hrun1 & Hc1 & Hn1).
    destruct (IH w1 Hc1) as (w' & Hrun & Hc' & Hn').
    exists w'. split; [|split; [done|]].
    + cbn [ShowService.for_of]. unfold bind. by rewrite Hrun1.
    + rewrite Hn', Hn1. cbn [length]. lia.
Qed.

(** X15. A load in which nothing is rejected pauses 200 ms after each season
    it loads, the last one included, and nowhere else: when it ends, the
    clock has advanced by 200 ms for each season of the payload with a
    positive season number. *)
Theorem fetchSeasonsAndEpisodes_pauses (env : Env) (show : TmdbShow) (showId : Z)
    (profileId : string) (w : World) :
  calm w ->
  w_now (ShowService.fetchSeasonsAndEpisodes env show showId profileId w).1
  = (w_now w + 200 * Z.of_nat (length (ShowService.validSeasons show)))%Z.
Proof.
  intros Hc.
  destruct (load_seasons_clock env show showId profileId
              (ShowService.validSeasons show) w Hc) as (w' & Hrun & _ & Hnow).
  pose proof (fetchSeasonsAndEpisodes_unfold env show showId profileId w) as Hend.
  rewrite Hrun in Hend. rewrite Hend.
  destruct (notifyShowDataLoaded_frame env w' profileId showId)
    as (_ & _ & _ & _ & _ & _ & Hsame).
  by rewrite Hsame.
Qed.

Lemma fetchSeasonsAndEpisodes_pauses_witness :
  let w := Example.world Example.empty_db [] in
  calm w /\
  length (tmdb_show_seasons (Example.show 77)) = 3 /\
  w_now (ShowService.fetchSeasonsAndEpisodes Example.env (Example.show 77) 7 "1" w).1
  = 400%Z.
Proof.
  intros w. assert (Hc : calm w) by reflexivity.
  split; [exact Hc|]. split; [reflexivity|].
  rewrite (fetchSeasonsAndEpisodes_pauses Example.env (Example.show 77) 7 "1" w Hc).
  reflexivity.
Defined.

(** ** A first favorite that fails half way *)

(** X16. When a show that is not stored yet is favorited and the lookup,
    the provider call and the insert of the show succeed but the insert of
    the association is rejected, the call throws the handled error, the show
    row stays stored (nothing undoes it), and no load is started. Later
    calls for the same external id then find the show stored and take the
    path for stored shows, which starts no load either: whoever favorites it
    and whatever is rejected then, no season and no episode row is added. *)
Theorem addShowToFavorites_failed_first_favorite (env : Env) (w : World)
    (profileId : string) (showId : Z) (rest : list bool) :
  w_faults w = false :: false :: false :: true :: rest ->
  Show.find_by_tmdb_id (w_db w) showId = None ->
  tmdb_show_id (tmdb_getShowDetails env showId) = showId ->
  let first := ShowService.addShowToFavorites env profileId showId w in
  let row :=
    mkShowRow (shows_auto_increment (w_db w)) showId
              (tmdb_show_name (tmdb_getShowDetails env showId)) in
  first.2
  = Thrown (HandledError (IOError "rejected")
              ("addShowToFavorites(" +:+ profileId +:+ ", " +:+ pretty showId +:+ ")")) /\
  shows (w_db first.1) = shows (w_db w) ++ [row] /\
  show_watch_status (w_db first.1) = show_watch_status (w_db w) /\
  w_jobs first.1 = w_jobs w /\
  forall again fs,
    let second :=
      (ShowService.addShowToFavorites env again showId (set_faults first.1 fs)).1 in
    seasons (w_db second) = seasons (w_db w) /\
    episodes (w_db second) = episodes (w_db w) /\
    w_jobs second = w_jobs w.
Proof.
  intros Hfaults Hnone Hid first row.
  assert (Hfirst :
    first
    = (set_db (set_faults w rest)
         (with_shows (w_db w) (shows (w_db w) ++ [row])
                     (shows_auto_increment (w_db w) + 1)%Z),
       Thrown (HandledError (IOError "rejected")
                 ("addShowToFavorites(" +:+ profileId +:+ ", " +:+ pretty showId
                  +:+ ")")))).
  { subst first row.
    destruct w as [d tx fs now c s em lg jobs]. cbn [w_faults w_db] in *. subst fs.
    unfold ShowService.addShowToFavorites, ShowService.handled, try_catch, bind,
      Show.findByTMDBId, query, execute, io.
    cbn [w_faults w_db set_faults set_db tail fst snd]. rewrite Hnone.
    unfold ShowService.favoriteNewShow, bind, io, Show.save, bind, execute, io,
      Show.saveFavorite, execute, io, ret.
    cbn [w_faults w_db set_faults set_db tail fst snd negb]. rewrite Hid.
    reflexivity. }
  rewrite Hfirst. cbn [fst snd].
  split; [done|]. split; [by destruct w|]. split; [by destruct w|].
  split; [by destruct w|].
  intros again fs.
  assert (Hfound :
    Show.find_by_tmdb_id
      (w_db (set_faults
               (set_db (set_faults w rest)
                  (with_shows (w_db w) (shows (w_db w) ++ [row])
                              (shows_auto_increment (w_db w) + 1)%Z)) fs)) showId
    = Some row).
  { destruct w as [d tx fs0 now c s em lg jobs]. cbn [w_db set_db set_faults] in *.
    apply (find_by_tmdb_id_new d row). exact Hnone. }
  destruct (addShowToFavorites_existing env _ again showId row Hfound)
    as (_ & Hseasons & Hepisodes & _ & Hjobs).
  rewrite Hseasons, Hepisodes, Hjobs. by destruct w.
Qed.

Lemma addShowToFavorites_failed_first_favorite_witness :
  let w := Example.world Example.empty_db [false; false; false; true] in
  let first := ShowService.addShowToFavorites Example.env "1" 77 w in
  let second :=
    (ShowService.addShowToFavorites Example.env "1" 77 (set_faults first.1 [])).1 in
  w_faults w = [false; false; false; true] /\
  Show.find_by_tmdb_id (w_db w) 77 = None /\
  tmdb_show_id (tmdb_getShowDetails Example.env 77) = 77%Z /\
  shows (w_db first.1) = [mkShowRow 1 77 "Example show"] /\
  seasons (w_db second) = [] /\
  w_jobs second = [].
Proof.
  intros w first second.
  assert (Hfaults : w_faults w = [false; false; false; true]) by reflexivity.
  assert (Hnone : Show.find_by_tmdb_id (w_db w) 77 = None) by reflexivity.
  assert (Hid : tmdb_show_id (tmdb_getShowDetails Example.env 77) = 77%Z)
    by reflexivity.
  destruct (addShowToFavorites_failed_first_favorite Example.env w "1" 77 []
              Hfaults Hnone Hid) as (_ & Hshows & _ & _ & Hlater).
  destruct (Hlater "1" []) as (Hseasons & _ & Hjobs).
  split; [exact Hfaults|]. split; [exact Hnone|]. split; [exact Hid|].
  split; [exact Hshows|]. split; [exact Hseasons|exact Hjobs].
Defined.

(** ** The cascading season update under any schedule *)


